(** * Shallow embedding of [dataset/pipeline/step4_fix_dataset.py]

    Python [str] values are sequences of Unicode code points; they are
    modelled as [list Z].  The two configuration tables imported from
    [config_postprocess] ([MEDICAL_TERMS], [LABEL_MAPPING]) are Python
    dicts; they are passed as explicit parameters and modelled as
    association lists in insertion order (the order [dict.items()] yields,
    which [sorted] keeps among terms of equal length). *)

From Stdlib Require Import String Ascii ZArith Bool List Lia.
From Stdlib Require Import Sorting.Sorted Sorting.Permutation.
Import ListNotations.

(** ** Python values and exceptions *)

Definition str := list Z.

(** The code points of an ASCII Rocq string literal. *)
Definition lit (x : string) : str :=
  map (fun a => Z.of_nat (nat_of_ascii a)) (list_ascii_of_string x).

(** The values a dataset cell ([example['output']]) can hold in the model. *)
Inductive pyval :=
| VNone
| VBool (b : bool)
| VInt (z : Z)
| VStr (s : str).

(** Python truthiness ([not x]). *)
Definition truthy (v : pyval) : bool :=
  match v with
  | VNone => false
  | VBool b => b
  | VInt z => negb (z =? 0)%Z
  | VStr s => match s with [] => false | _ => true end
  end.

Definition pyval_eq_dec (v w : pyval) : {v = w} + {v <> w}.
Proof. decide equality; try apply list_eq_dec; apply Z.eq_dec || apply bool_dec. Defined.

Definition pyval_eqb (v w : pyval) : bool :=
  if pyval_eq_dec v w then true else false.

Inductive exn :=
| TypeError   (** [re.search] on a non-[str] argument *)
| KeyError    (** a missing split or column *)
| ValueError  (** [remove_columns]/[add_column] refusals *)
| ReError     (** [re.error] raised by a bad replacement template *)
| IndexError. (** a template naming a group the pattern does not have *)

Inductive result (A : Type) : Type :=
| Ok (a : A)
| Raise (e : exn).
Arguments Ok {A} a.
Arguments Raise {A} e.

Definition bind {A B} (m : result A) (k : A -> result B) : result B :=
  match m with
  | Ok a => k a
  | Raise e => Raise e
  end.

Notation "x <- m ;; k" := (bind m (fun x => k))
  (at level 61, m at next level, right associativity).

(** ** Characters: [\w] and [re.IGNORECASE]

    The tables below are those of CPython 3.11 (Unicode 14.0): [\w] in a
    [str] pattern is [c.isalnum() or c == '_'], and a literal character of
    a pattern compiled with [re.IGNORECASE] is matched through
    [_sre.unicode_iscased], [_sre.unicode_tolower] and
    [re._casefix._EXTRA_CASES] (see [ci_eq]). *)
Definition in_range (lo hi c : Z) : bool := (lo <=? c)%Z && (c <=? hi)%Z.

Definition in_ranges (c : Z) (rs : list (Z * Z)) : bool :=
  existsb (fun r => in_range (fst r) (snd r) c) rs.

Fixpoint zlookup {A : Type} (k : Z) (l : list (Z * A)) : option A :=
  match l with
  | [] => None
  | (k', v) :: l' => if (k =? k')%Z then Some v else zlookup k l'
  end.

Definition is_ascii_letter (c : Z) : bool := in_range 65 90 c || in_range 97 122 c.
Definition is_digit (c : Z) : bool := in_range 48 57 c.
Definition is_octdigit (c : Z) : bool := in_range 48 55 c.

(** Code points [c] with [c.isalnum() or c == '_'] ([SRE_UNI_IS_WORD]), as
    ranges [(lo, hi)]. *)
Definition word_ranges : list (Z * Z) := [
  (48, 57); (65, 90); (95, 95); (97, 122); (170, 170); (178, 179); (181, 181); (185, 186);
  (188, 190); (192, 214); (216, 246); (248, 705); (710, 721); (736, 740); (748, 748);
  (750, 750); (880, 884); (886, 887); (890, 893); (895, 895); (902, 902); (904, 906);
  (908, 908); (910, 929); (931, 1013); (1015, 1153); (1162, 1327); (1329, 1366); (1369, 1369);
  (1376, 1416); (1488, 1514); (1519, 1522); (1568, 1610); (1632, 1641); (1646, 1647);
  (1649, 1747); (1749, 1749); (1765, 1766); (1774, 1788); (1791, 1791); (1808, 1808);
  (1810, 1839); (1869, 1957); (1969, 1969); (1984, 2026); (2036, 2037); (2042, 2042);
  (2048, 2069); (2074, 2074); (2084, 2084); (2088, 2088); (2112, 2136); (2144, 2154);
  (2160, 2183); (2185, 2190); (2208, 2249); (2308, 2361); (2365, 2365); (2384, 2384);
  (2392, 2401); (2406, 2415); (2417, 2432); (2437, 2444); (2447, 2448); (2451, 2472);
  (2474, 2480); (2482, 2482); (2486, 2489); (2493, 2493); (2510, 2510); (2524, 2525);
  (2527, 2529); (2534, 2545); (2548, 2553); (2556, 2556); (2565, 2570); (2575, 2576);
  (2579, 2600); (2602, 2608); (2610, 2611); (2613, 2614); (2616, 2617); (2649, 2652);
  (2654, 2654); (2662, 2671); (2674, 2676); (2693, 2701); (2703, 2705); (2707, 2728);
  (2730, 2736); (2738, 2739); (2741, 2745); (2749, 2749); (2768, 2768); (2784, 2785);
  (2790, 2799); (2809, 2809); (2821, 2828); (2831, 2832); (2835, 2856); (2858, 2864);
  (2866, 2867); (2869, 2873); (2877, 2877); (2908, 2909); (2911, 2913); (2918, 2927);
  (2929, 2935); (2947, 2947); (2949, 2954); (2958, 2960); (2962, 2965); (2969, 2970);
  (2972, 2972); (2974, 2975); (2979, 2980); (2984, 2986); (2990, 3001); (3024, 3024);
  (3046, 3058); (3077, 3084); (3086, 3088); (3090, 3112); (3114, 3129); (3133, 3133);
  (3160, 3162); (3165, 3165); (3168, 3169); (3174, 3183); (3192, 3198); (3200, 3200);
  (3205, 3212); (3214, 3216); (3218, 3240); (3242, 3251); (3253, 3257); (3261, 3261);
  (3293, 3294); (3296, 3297); (3302, 3311); (3313, 3314); (3332, 3340); (3342, 3344);
  (3346, 3386); (3389, 3389); (3406, 3406); (3412, 3414); (3416, 3425); (3430, 3448);
  (3450, 3455); (3461, 3478); (3482, 3505); (3507, 3515); (3517, 3517); (3520, 3526);
  (3558, 3567); (3585, 3632); (3634, 3635); (3648, 3654); (3664, 3673); (3713, 3714);
  (3716, 3716); (3718, 3722); (3724, 3747); (3749, 3749); (3751, 3760); (3762, 3763);
  (3773, 3773); (3776, 3780); (3782, 3782); (3792, 3801); (3804, 3807); (3840, 3840);
  (3872, 3891); (3904, 3911); (3913, 3948); (3976, 3980); (4096, 4138); (4159, 4169);
  (4176, 4181); (4186, 4189); (4193, 4193); (4197, 4198); (4206, 4208); (4213, 4225);
  (4238, 4238); (4240, 4249); (4256, 4293); (4295, 4295); (4301, 4301); (4304, 4346);
  (4348, 4680); (4682, 4685); (4688, 4694); (4696, 4696); (4698, 4701); (4704, 4744);
  (4746, 4749); (4752, 4784); (4786, 4789); (4792, 4798); (4800, 4800); (4802, 4805);
  (4808, 4822); (4824, 4880); (4882, 4885); (4888, 4954); (4969, 4988); (4992, 5007);
  (5024, 5109); (5112, 5117); (5121, 5740); (5743, 5759); (5761, 5786); (5792, 5866);
  (5870, 5880); (5888, 5905); (5919, 5937); (5952, 5969); (5984, 5996); (5998, 6000);
  (6016, 6067); (6103, 6103); (6108, 6108); (6112, 6121); (6128, 6137); (6160, 6169);
  (6176, 6264); (6272, 6276); (6279, 6312); (6314, 6314); (6320, 6389); (6400, 6430);
  (6470, 6509); (6512, 6516); (6528, 6571); (6576, 6601); (6608, 6618); (6656, 6678);
  (6688, 6740); (6784, 6793); (6800, 6809); (6823, 6823); (6917, 6963); (6981, 6988);
  (6992, 7001); (7043, 7072); (7086, 7141); (7168, 7203); (7232, 7241); (7245, 7293);
  (7296, 7304); (7312, 7354); (7357, 7359); (7401, 7404); (7406, 7411); (7413, 7414);
  (7418, 7418); (7424, 7615); (7680, 7957); (7960, 7965); (7968, 8005); (8008, 8013);
  (8016, 8023); (8025, 8025); (8027, 8027); (8029, 8029); (8031, 8061); (8064, 8116);
  (8118, 8124); (8126, 8126); (8130, 8132); (8134, 8140); (8144, 8147); (8150, 8155);
  (8160, 8172); (8178, 8180); (8182, 8188); (8304, 8305); (8308, 8313); (8319, 8329);
  (8336, 8348); (8450, 8450); (8455, 8455); (8458, 8467); (8469, 8469); (8473, 8477);
  (8484, 8484); (8486, 8486); (8488, 8488); (8490, 8493); (8495, 8505); (8508, 8511);
  (8517, 8521); (8526, 8526); (8528, 8585); (9312, 9371); (9450, 9471); (10102, 10131);
  (11264, 11492); (11499, 11502); (11506, 11507); (11517, 11517); (11520, 11557);
  (11559, 11559); (11565, 11565); (11568, 11623); (11631, 11631); (11648, 11670);
  (11680, 11686); (11688, 11694); (11696, 11702); (11704, 11710); (11712, 11718);
  (11720, 11726); (11728, 11734); (11736, 11742); (11823, 11823); (12293, 12295);
  (12321, 12329); (12337, 12341); (12344, 12348); (12353, 12438); (12445, 12447);
  (12449, 12538); (12540, 12543); (12549, 12591); (12593, 12686); (12690, 12693);
  (12704, 12735); (12784, 12799); (12832, 12841); (12872, 12879); (12881, 12895);
  (12928, 12937); (12977, 12991); (13312, 19903); (19968, 42124); (42192, 42237);
  (42240, 42508); (42512, 42539); (42560, 42606); (42623, 42653); (42656, 42735);
  (42775, 42783); (42786, 42888); (42891, 42954); (42960, 42961); (42963, 42963);
  (42965, 42969); (42994, 43009); (43011, 43013); (43015, 43018); (43020, 43042);
  (43056, 43061); (43072, 43123); (43138, 43187); (43216, 43225); (43250, 43255);
  (43259, 43259); (43261, 43262); (43264, 43301); (43312, 43334); (43360, 43388);
  (43396, 43442); (43471, 43481); (43488, 43492); (43494, 43518); (43520, 43560);
  (43584, 43586); (43588, 43595); (43600, 43609); (43616, 43638); (43642, 43642);
  (43646, 43695); (43697, 43697); (43701, 43702); (43705, 43709); (43712, 43712);
  (43714, 43714); (43739, 43741); (43744, 43754); (43762, 43764); (43777, 43782);
  (43785, 43790); (43793, 43798); (43808, 43814); (43816, 43822); (43824, 43866);
  (43868, 43881); (43888, 44002); (44016, 44025); (44032, 55203); (55216, 55238);
  (55243, 55291); (63744, 64109); (64112, 64217); (64256, 64262); (64275, 64279);
  (64285, 64285); (64287, 64296); (64298, 64310); (64312, 64316); (64318, 64318);
  (64320, 64321); (64323, 64324); (64326, 64433); (64467, 64829); (64848, 64911);
  (64914, 64967); (65008, 65019); (65136, 65140); (65142, 65276); (65296, 65305);
  (65313, 65338); (65345, 65370); (65382, 65470); (65474, 65479); (65482, 65487);
  (65490, 65495); (65498, 65500); (65536, 65547); (65549, 65574); (65576, 65594);
  (65596, 65597); (65599, 65613); (65616, 65629); (65664, 65786); (65799, 65843);
  (65856, 65912); (65930, 65931); (66176, 66204); (66208, 66256); (66273, 66299);
  (66304, 66339); (66349, 66378); (66384, 66421); (66432, 66461); (66464, 66499);
  (66504, 66511); (66513, 66517); (66560, 66717); (66720, 66729); (66736, 66771);
  (66776, 66811); (66816, 66855); (66864, 66915); (66928, 66938); (66940, 66954);
  (66956, 66962); (66964, 66965); (66967, 66977); (66979, 66993); (66995, 67001);
  (67003, 67004); (67072, 67382); (67392, 67413); (67424, 67431); (67456, 67461);
  (67463, 67504); (67506, 67514); (67584, 67589); (67592, 67592); (67594, 67637);
  (67639, 67640); (67644, 67644); (67647, 67669); (67672, 67702); (67705, 67742);
  (67751, 67759); (67808, 67826); (67828, 67829); (67835, 67867); (67872, 67897);
  (67968, 68023); (68028, 68047); (68050, 68096); (68112, 68115); (68117, 68119);
  (68121, 68149); (68160, 68168); (68192, 68222); (68224, 68255); (68288, 68295);
  (68297, 68324); (68331, 68335); (68352, 68405); (68416, 68437); (68440, 68466);
  (68472, 68497); (68521, 68527); (68608, 68680); (68736, 68786); (68800, 68850);
  (68858, 68899); (68912, 68921); (69216, 69246); (69248, 69289); (69296, 69297);
  (69376, 69415); (69424, 69445); (69457, 69460); (69488, 69505); (69552, 69579);
  (69600, 69622); (69635, 69687); (69714, 69743); (69745, 69746); (69749, 69749);
  (69763, 69807); (69840, 69864); (69872, 69881); (69891, 69926); (69942, 69951);
  (69956, 69956); (69959, 69959); (69968, 70002); (70006, 70006); (70019, 70066);
  (70081, 70084); (70096, 70106); (70108, 70108); (70113, 70132); (70144, 70161);
  (70163, 70187); (70272, 70278); (70280, 70280); (70282, 70285); (70287, 70301);
  (70303, 70312); (70320, 70366); (70384, 70393); (70405, 70412); (70415, 70416);
  (70419, 70440); (70442, 70448); (70450, 70451); (70453, 70457); (70461, 70461);
  (70480, 70480); (70493, 70497); (70656, 70708); (70727, 70730); (70736, 70745);
  (70751, 70753); (70784, 70831); (70852, 70853); (70855, 70855); (70864, 70873);
  (71040, 71086); (71128, 71131); (71168, 71215); (71236, 71236); (71248, 71257);
  (71296, 71338); (71352, 71352); (71360, 71369); (71424, 71450); (71472, 71483);
  (71488, 71494); (71680, 71723); (71840, 71922); (71935, 71942); (71945, 71945);
  (71948, 71955); (71957, 71958); (71960, 71983); (71999, 71999); (72001, 72001);
  (72016, 72025); (72096, 72103); (72106, 72144); (72161, 72161); (72163, 72163);
  (72192, 72192); (72203, 72242); (72250, 72250); (72272, 72272); (72284, 72329);
  (72349, 72349); (72368, 72440); (72704, 72712); (72714, 72750); (72768, 72768);
  (72784, 72812); (72818, 72847); (72960, 72966); (72968, 72969); (72971, 73008);
  (73030, 73030); (73040, 73049); (73056, 73061); (73063, 73064); (73066, 73097);
  (73112, 73112); (73120, 73129); (73440, 73458); (73648, 73648); (73664, 73684);
  (73728, 74649); (74752, 74862); (74880, 75075); (77712, 77808); (77824, 78894);
  (82944, 83526); (92160, 92728); (92736, 92766); (92768, 92777); (92784, 92862);
  (92864, 92873); (92880, 92909); (92928, 92975); (92992, 92995); (93008, 93017);
  (93019, 93025); (93027, 93047); (93053, 93071); (93760, 93846); (93952, 94026);
  (94032, 94032); (94099, 94111); (94176, 94177); (94179, 94179); (94208, 100343);
  (100352, 101589); (101632, 101640); (110576, 110579); (110581, 110587); (110589, 110590);
  (110592, 110882); (110928, 110930); (110948, 110951); (110960, 111355); (113664, 113770);
  (113776, 113788); (113792, 113800); (113808, 113817); (119520, 119539); (119648, 119672);
  (119808, 119892); (119894, 119964); (119966, 119967); (119970, 119970); (119973, 119974);
  (119977, 119980); (119982, 119993); (119995, 119995); (119997, 120003); (120005, 120069);
  (120071, 120074); (120077, 120084); (120086, 120092); (120094, 120121); (120123, 120126);
  (120128, 120132); (120134, 120134); (120138, 120144); (120146, 120485); (120488, 120512);
  (120514, 120538); (120540, 120570); (120572, 120596); (120598, 120628); (120630, 120654);
  (120656, 120686); (120688, 120712); (120714, 120744); (120746, 120770); (120772, 120779);
  (120782, 120831); (122624, 122654); (123136, 123180); (123191, 123197); (123200, 123209);
  (123214, 123214); (123536, 123565); (123584, 123627); (123632, 123641); (124896, 124902);
  (124904, 124907); (124909, 124910); (124912, 124926); (124928, 125124); (125127, 125135);
  (125184, 125251); (125259, 125259); (125264, 125273); (126065, 126123); (126125, 126127);
  (126129, 126132); (126209, 126253); (126255, 126269); (126464, 126467); (126469, 126495);
  (126497, 126498); (126500, 126500); (126503, 126503); (126505, 126514); (126516, 126519);
  (126521, 126521); (126523, 126523); (126530, 126530); (126535, 126535); (126537, 126537);
  (126539, 126539); (126541, 126543); (126545, 126546); (126548, 126548); (126551, 126551);
  (126553, 126553); (126555, 126555); (126557, 126557); (126559, 126559); (126561, 126562);
  (126564, 126564); (126567, 126570); (126572, 126578); (126580, 126583); (126585, 126588);
  (126590, 126590); (126592, 126601); (126603, 126619); (126625, 126627); (126629, 126633);
  (126635, 126651); (127232, 127244); (130032, 130041); (131072, 173791); (173824, 177976);
  (177984, 178205); (178208, 183969); (183984, 191456); (194560, 195101); (196608, 201546)]%Z.

(** Code points with [_sre.unicode_iscased(c)] ([c] differs from its lower or
    upper case), as ranges. *)
Definition cased_ranges : list (Z * Z) := [
  (65, 90); (97, 122); (181, 181); (192, 214); (216, 246); (248, 311); (313, 396); (398, 410);
  (412, 425); (428, 441); (444, 445); (447, 447); (452, 544); (546, 563); (570, 596);
  (598, 599); (601, 601); (603, 604); (608, 609); (611, 611); (613, 614); (616, 620);
  (623, 623); (625, 626); (629, 629); (637, 637); (640, 640); (642, 643); (647, 652);
  (658, 658); (669, 670); (837, 837); (880, 883); (886, 887); (891, 893); (895, 895);
  (902, 902); (904, 906); (908, 908); (910, 929); (931, 977); (981, 1013); (1015, 1019);
  (1021, 1153); (1162, 1327); (1329, 1366); (1377, 1415); (4256, 4293); (4295, 4295);
  (4301, 4301); (4304, 4346); (4349, 4351); (5024, 5109); (5112, 5117); (7296, 7304);
  (7312, 7354); (7357, 7359); (7545, 7545); (7549, 7549); (7566, 7566); (7680, 7835);
  (7838, 7838); (7840, 7957); (7960, 7965); (7968, 8005); (8008, 8013); (8016, 8023);
  (8025, 8025); (8027, 8027); (8029, 8029); (8031, 8061); (8064, 8116); (8118, 8124);
  (8126, 8126); (8130, 8132); (8134, 8140); (8144, 8147); (8150, 8155); (8160, 8172);
  (8178, 8180); (8182, 8188); (8486, 8486); (8490, 8491); (8498, 8498); (8526, 8526);
  (8544, 8575); (8579, 8580); (9398, 9449); (11264, 11376); (11378, 11379); (11381, 11382);
  (11390, 11491); (11499, 11502); (11506, 11507); (11520, 11557); (11559, 11559);
  (11565, 11565); (42560, 42605); (42624, 42651); (42786, 42799); (42802, 42863);
  (42873, 42887); (42891, 42893); (42896, 42900); (42902, 42926); (42928, 42954);
  (42960, 42961); (42966, 42969); (42997, 42998); (43859, 43859); (43888, 43967);
  (64256, 64262); (64275, 64279); (65313, 65338); (65345, 65370); (66560, 66639);
  (66736, 66771); (66776, 66811); (66928, 66938); (66940, 66954); (66956, 66962);
  (66964, 66965); (66967, 66977); (66979, 66993); (66995, 67001); (67003, 67004);
  (68736, 68786); (68800, 68850); (71840, 71903); (93760, 93823); (125184, 125251)]%Z.

(** [(c, _sre.unicode_tolower(c))] for every code point [c] that
    [_sre.unicode_tolower] changes. *)
Definition lower_table : list (Z * Z) := [
  (65, 97); (66, 98); (67, 99); (68, 100); (69, 101); (70, 102); (71, 103); (72, 104);
  (73, 105); (74, 106); (75, 107); (76, 108); (77, 109); (78, 110); (79, 111); (80, 112);
  (81, 113); (82, 114); (83, 115); (84, 116); (85, 117); (86, 118); (87, 119); (88, 120);
  (89, 121); (90, 122); (192, 224); (193, 225); (194, 226); (195, 227); (196, 228); (197, 229);
  (198, 230); (199, 231); (200, 232); (201, 233); (202, 234); (203, 235); (204, 236);
  (205, 237); (206, 238); (207, 239); (208, 240); (209, 241); (210, 242); (211, 243);
  (212, 244); (213, 245); (214, 246); (216, 248); (217, 249); (218, 250); (219, 251);
  (220, 252); (221, 253); (222, 254); (256, 257); (258, 259); (260, 261); (262, 263);
  (264, 265); (266, 267); (268, 269); (270, 271); (272, 273); (274, 275); (276, 277);
  (278, 279); (280, 281); (282, 283); (284, 285); (286, 287); (288, 289); (290, 291);
  (292, 293); (294, 295); (296, 297); (298, 299); (300, 301); (302, 303); (304, 105);
  (306, 307); (308, 309); (310, 311); (313, 314); (315, 316); (317, 318); (319, 320);
  (321, 322); (323, 324); (325, 326); (327, 328); (330, 331); (332, 333); (334, 335);
  (336, 337); (338, 339); (340, 341); (342, 343); (344, 345); (346, 347); (348, 349);
  (350, 351); (352, 353); (354, 355); (356, 357); (358, 359); (360, 361); (362, 363);
  (364, 365); (366, 367); (368, 369); (370, 371); (372, 373); (374, 375); (376, 255);
  (377, 378); (379, 380); (381, 382); (385, 595); (386, 387); (388, 389); (390, 596);
  (391, 392); (393, 598); (394, 599); (395, 396); (398, 477); (399, 601); (400, 603);
  (401, 402); (403, 608); (404, 611); (406, 617); (407, 616); (408, 409); (412, 623);
  (413, 626); (415, 629); (416, 417); (418, 419); (420, 421); (422, 640); (423, 424);
  (425, 643); (428, 429); (430, 648); (431, 432); (433, 650); (434, 651); (435, 436);
  (437, 438); (439, 658); (440, 441); (444, 445); (452, 454); (453, 454); (455, 457);
  (456, 457); (458, 460); (459, 460); (461, 462); (463, 464); (465, 466); (467, 468);
  (469, 470); (471, 472); (473, 474); (475, 476); (478, 479); (480, 481); (482, 483);
  (484, 485); (486, 487); (488, 489); (490, 491); (492, 493); (494, 495); (497, 499);
  (498, 499); (500, 501); (502, 405); (503, 447); (504, 505); (506, 507); (508, 509);
  (510, 511); (512, 513); (514, 515); (516, 517); (518, 519); (520, 521); (522, 523);
  (524, 525); (526, 527); (528, 529); (530, 531); (532, 533); (534, 535); (536, 537);
  (538, 539); (540, 541); (542, 543); (544, 414); (546, 547); (548, 549); (550, 551);
  (552, 553); (554, 555); (556, 557); (558, 559); (560, 561); (562, 563); (570, 11365);
  (571, 572); (573, 410); (574, 11366); (577, 578); (579, 384); (580, 649); (581, 652);
  (582, 583); (584, 585); (586, 587); (588, 589); (590, 591); (880, 881); (882, 883);
  (886, 887); (895, 1011); (902, 940); (904, 941); (905, 942); (906, 943); (908, 972);
  (910, 973); (911, 974); (913, 945); (914, 946); (915, 947); (916, 948); (917, 949);
  (918, 950); (919, 951); (920, 952); (921, 953); (922, 954); (923, 955); (924, 956);
  (925, 957); (926, 958); (927, 959); (928, 960); (929, 961); (931, 963); (932, 964);
  (933, 965); (934, 966); (935, 967); (936, 968); (937, 969); (938, 970); (939, 971);
  (975, 983); (984, 985); (986, 987); (988, 989); (990, 991); (992, 993); (994, 995);
  (996, 997); (998, 999); (1000, 1001); (1002, 1003); (1004, 1005); (1006, 1007); (1012, 952);
  (1015, 1016); (1017, 1010); (1018, 1019); (1021, 891); (1022, 892); (1023, 893);
  (1024, 1104); (1025, 1105); (1026, 1106); (1027, 1107); (1028, 1108); (1029, 1109);
  (1030, 1110); (1031, 1111); (1032, 1112); (1033, 1113); (1034, 1114); (1035, 1115);
  (1036, 1116); (1037, 1117); (1038, 1118); (1039, 1119); (1040, 1072); (1041, 1073);
  (1042, 1074); (1043, 1075); (1044, 1076); (1045, 1077); (1046, 1078); (1047, 1079);
  (1048, 1080); (1049, 1081); (1050, 1082); (1051, 1083); (1052, 1084); (1053, 1085);
  (1054, 1086); (1055, 1087); (1056, 1088); (1057, 1089); (1058, 1090); (1059, 1091);
  (1060, 1092); (1061, 1093); (1062, 1094); (1063, 1095); (1064, 1096); (1065, 1097);
  (1066, 1098); (1067, 1099); (1068, 1100); (1069, 1101); (1070, 1102); (1071, 1103);
  (1120, 1121); (1122, 1123); (1124, 1125); (1126, 1127); (1128, 1129); (1130, 1131);
  (1132, 1133); (1134, 1135); (1136, 1137); (1138, 1139); (1140, 1141); (1142, 1143);
  (1144, 1145); (1146, 1147); (1148, 1149); (1150, 1151); (1152, 1153); (1162, 1163);
  (1164, 1165); (1166, 1167); (1168, 1169); (1170, 1171); (1172, 1173); (1174, 1175);
  (1176, 1177); (1178, 1179); (1180, 1181); (1182, 1183); (1184, 1185); (1186, 1187);
  (1188, 1189); (1190, 1191); (1192, 1193); (1194, 1195); (1196, 1197); (1198, 1199);
  (1200, 1201); (1202, 1203); (1204, 1205); (1206, 1207); (1208, 1209); (1210, 1211);
  (1212, 1213); (1214, 1215); (1216, 1231); (1217, 1218); (1219, 1220); (1221, 1222);
  (1223, 1224); (1225, 1226); (1227, 1228); (1229, 1230); (1232, 1233); (1234, 1235);
  (1236, 1237); (1238, 1239); (1240, 1241); (1242, 1243); (1244, 1245); (1246, 1247);
  (1248, 1249); (1250, 1251); (1252, 1253); (1254, 1255); (1256, 1257); (1258, 1259);
  (1260, 1261); (1262, 1263); (1264, 1265); (1266, 1267); (1268, 1269); (1270, 1271);
  (1272, 1273); (1274, 1275); (1276, 1277); (1278, 1279); (1280, 1281); (1282, 1283);
  (1284, 1285); (1286, 1287); (1288, 1289); (1290, 1291); (1292, 1293); (1294, 1295);
  (1296, 1297); (1298, 1299); (1300, 1301); (1302, 1303); (1304, 1305); (1306, 1307);
  (1308, 1309); (1310, 1311); (1312, 1313); (1314, 1315); (1316, 1317); (1318, 1319);
  (1320, 1321); (1322, 1323); (1324, 1325); (1326, 1327); (1329, 1377); (1330, 1378);
  (1331, 1379); (1332, 1380); (1333, 1381); (1334, 1382); (1335, 1383); (1336, 1384);
  (1337, 1385); (1338, 1386); (1339, 1387); (1340, 1388); (1341, 1389); (1342, 1390);
  (1343, 1391); (1344, 1392); (1345, 1393); (1346, 1394); (1347, 1395); (1348, 1396);
  (1349, 1397); (1350, 1398); (1351, 1399); (1352, 1400); (1353, 1401); (1354, 1402);
  (1355, 1403); (1356, 1404); (1357, 1405); (1358, 1406); (1359, 1407); (1360, 1408);
  (1361, 1409); (1362, 1410); (1363, 1411); (1364, 1412); (1365, 1413); (1366, 1414);
  (4256, 11520); (4257, 11521); (4258, 11522); (4259, 11523); (4260, 11524); (4261, 11525);
  (4262, 11526); (4263, 11527); (4264, 11528); (4265, 11529); (4266, 11530); (4267, 11531);
  (4268, 11532); (4269, 11533); (4270, 11534); (4271, 11535); (4272, 11536); (4273, 11537);
  (4274, 11538); (4275, 11539); (4276, 11540); (4277, 11541); (4278, 11542); (4279, 11543);
  (4280, 11544); (4281, 11545); (4282, 11546); (4283, 11547); (4284, 11548); (4285, 11549);
  (4286, 11550); (4287, 11551); (4288, 11552); (4289, 11553); (4290, 11554); (4291, 11555);
  (4292, 11556); (4293, 11557); (4295, 11559); (4301, 11565); (5024, 43888); (5025, 43889);
  (5026, 43890); (5027, 43891); (5028, 43892); (5029, 43893); (5030, 43894); (5031, 43895);
  (5032, 43896); (5033, 43897); (5034, 43898); (5035, 43899); (5036, 43900); (5037, 43901);
  (5038, 43902); (5039, 43903); (5040, 43904); (5041, 43905); (5042, 43906); (5043, 43907);
  (5044, 43908); (5045, 43909); (5046, 43910); (5047, 43911); (5048, 43912); (5049, 43913);
  (5050, 43914); (5051, 43915); (5052, 43916); (5053, 43917); (5054, 43918); (5055, 43919);
  (5056, 43920); (5057, 43921); (5058, 43922); (5059, 43923); (5060, 43924); (5061, 43925);
  (5062, 43926); (5063, 43927); (5064, 43928); (5065, 43929); (5066, 43930); (5067, 43931);
  (5068, 43932); (5069, 43933); (5070, 43934); (5071, 43935); (5072, 43936); (5073, 43937);
  (5074, 43938); (5075, 43939); (5076, 43940); (5077, 43941); (5078, 43942); (5079, 43943);
  (5080, 43944); (5081, 43945); (5082, 43946); (5083, 43947); (5084, 43948); (5085, 43949);
  (5086, 43950); (5087, 43951); (5088, 43952); (5089, 43953); (5090, 43954); (5091, 43955);
  (5092, 43956); (5093, 43957); (5094, 43958); (5095, 43959); (5096, 43960); (5097, 43961);
  (5098, 43962); (5099, 43963); (5100, 43964); (5101, 43965); (5102, 43966); (5103, 43967);
  (5104, 5112); (5105, 5113); (5106, 5114); (5107, 5115); (5108, 5116); (5109, 5117);
  (7312, 4304); (7313, 4305); (7314, 4306); (7315, 4307); (7316, 4308); (7317, 4309);
  (7318, 4310); (7319, 4311); (7320, 4312); (7321, 4313); (7322, 4314); (7323, 4315);
  (7324, 4316); (7325, 4317); (7326, 4318); (7327, 4319); (7328, 4320); (7329, 4321);
  (7330, 4322); (7331, 4323); (7332, 4324); (7333, 4325); (7334, 4326); (7335, 4327);
  (7336, 4328); (7337, 4329); (7338, 4330); (7339, 4331); (7340, 4332); (7341, 4333);
  (7342, 4334); (7343, 4335); (7344, 4336); (7345, 4337); (7346, 4338); (7347, 4339);
  (7348, 4340); (7349, 4341); (7350, 4342); (7351, 4343); (7352, 4344); (7353, 4345);
  (7354, 4346); (7357, 4349); (7358, 4350); (7359, 4351); (7680, 7681); (7682, 7683);
  (7684, 7685); (7686, 7687); (7688, 7689); (7690, 7691); (7692, 7693); (7694, 7695);
  (7696, 7697); (7698, 7699); (7700, 7701); (7702, 7703); (7704, 7705); (7706, 7707);
  (7708, 7709); (7710, 7711); (7712, 7713); (7714, 7715); (7716, 7717); (7718, 7719);
  (7720, 7721); (7722, 7723); (7724, 7725); (7726, 7727); (7728, 7729); (7730, 7731);
  (7732, 7733); (7734, 7735); (7736, 7737); (7738, 7739); (7740, 7741); (7742, 7743);
  (7744, 7745); (7746, 7747); (7748, 7749); (7750, 7751); (7752, 7753); (7754, 7755);
  (7756, 7757); (7758, 7759); (7760, 7761); (7762, 7763); (7764, 7765); (7766, 7767);
  (7768, 7769); (7770, 7771); (7772, 7773); (7774, 7775); (7776, 7777); (7778, 7779);
  (7780, 7781); (7782, 7783); (7784, 7785); (7786, 7787); (7788, 7789); (7790, 7791);
  (7792, 7793); (7794, 7795); (7796, 7797); (7798, 7799); (7800, 7801); (7802, 7803);
  (7804, 7805); (7806, 7807); (7808, 7809); (7810, 7811); (7812, 7813); (7814, 7815);
  (7816, 7817); (7818, 7819); (7820, 7821); (7822, 7823); (7824, 7825); (7826, 7827);
  (7828, 7829); (7838, 223); (7840, 7841); (7842, 7843); (7844, 7845); (7846, 7847);
  (7848, 7849); (7850, 7851); (7852, 7853); (7854, 7855); (7856, 7857); (7858, 7859);
  (7860, 7861); (7862, 7863); (7864, 7865); (7866, 7867); (7868, 7869); (7870, 7871);
  (7872, 7873); (7874, 7875); (7876, 7877); (7878, 7879); (7880, 7881); (7882, 7883);
  (7884, 7885); (7886, 7887); (7888, 7889); (7890, 7891); (7892, 7893); (7894, 7895);
  (7896, 7897); (7898, 7899); (7900, 7901); (7902, 7903); (7904, 7905); (7906, 7907);
  (7908, 7909); (7910, 7911); (7912, 7913); (7914, 7915); (7916, 7917); (7918, 7919);
  (7920, 7921); (7922, 7923); (7924, 7925); (7926, 7927); (7928, 7929); (7930, 7931);
  (7932, 7933); (7934, 7935); (7944, 7936); (7945, 7937); (7946, 7938); (7947, 7939);
  (7948, 7940); (7949, 7941); (7950, 7942); (7951, 7943); (7960, 7952); (7961, 7953);
  (7962, 7954); (7963, 7955); (7964, 7956); (7965, 7957); (7976, 7968); (7977, 7969);
  (7978, 7970); (7979, 7971); (7980, 7972); (7981, 7973); (7982, 7974); (7983, 7975);
  (7992, 7984); (7993, 7985); (7994, 7986); (7995, 7987); (7996, 7988); (7997, 7989);
  (7998, 7990); (7999, 7991); (8008, 8000); (8009, 8001); (8010, 8002); (8011, 8003);
  (8012, 8004); (8013, 8005); (8025, 8017); (8027, 8019); (8029, 8021); (8031, 8023);
  (8040, 8032); (8041, 8033); (8042, 8034); (8043, 8035); (8044, 8036); (8045, 8037);
  (8046, 8038); (8047, 8039); (8072, 8064); (8073, 8065); (8074, 8066); (8075, 8067);
  (8076, 8068); (8077, 8069); (8078, 8070); (8079, 8071); (8088, 8080); (8089, 8081);
  (8090, 8082); (8091, 8083); (8092, 8084); (8093, 8085); (8094, 8086); (8095, 8087);
  (8104, 8096); (8105, 8097); (8106, 8098); (8107, 8099); (8108, 8100); (8109, 8101);
  (8110, 8102); (8111, 8103); (8120, 8112); (8121, 8113); (8122, 8048); (8123, 8049);
  (8124, 8115); (8136, 8050); (8137, 8051); (8138, 8052); (8139, 8053); (8140, 8131);
  (8152, 8144); (8153, 8145); (8154, 8054); (8155, 8055); (8168, 8160); (8169, 8161);
  (8170, 8058); (8171, 8059); (8172, 8165); (8184, 8056); (8185, 8057); (8186, 8060);
  (8187, 8061); (8188, 8179); (8486, 969); (8490, 107); (8491, 229); (8498, 8526);
  (8544, 8560); (8545, 8561); (8546, 8562); (8547, 8563); (8548, 8564); (8549, 8565);
  (8550, 8566); (8551, 8567); (8552, 8568); (8553, 8569); (8554, 8570); (8555, 8571);
  (8556, 8572); (8557, 8573); (8558, 8574); (8559, 8575); (8579, 8580); (9398, 9424);
  (9399, 9425); (9400, 9426); (9401, 9427); (9402, 9428); (9403, 9429); (9404, 9430);
  (9405, 9431); (9406, 9432); (9407, 9433); (9408, 9434); (9409, 9435); (9410, 9436);
  (9411, 9437); (9412, 9438); (9413, 9439); (9414, 9440); (9415, 9441); (9416, 9442);
  (9417, 9443); (9418, 9444); (9419, 9445); (9420, 9446); (9421, 9447); (9422, 9448);
  (9423, 9449); (11264, 11312); (11265, 11313); (11266, 11314); (11267, 11315); (11268, 11316);
  (11269, 11317); (11270, 11318); (11271, 11319); (11272, 11320); (11273, 11321);
  (11274, 11322); (11275, 11323); (11276, 11324); (11277, 11325); (11278, 11326);
  (11279, 11327); (11280, 11328); (11281, 11329); (11282, 11330); (11283, 11331);
  (11284, 11332); (11285, 11333); (11286, 11334); (11287, 11335); (11288, 11336);
  (11289, 11337); (11290, 11338); (11291, 11339); (11292, 11340); (11293, 11341);
  (11294, 11342); (11295, 11343); (11296, 11344); (11297, 11345); (11298, 11346);
  (11299, 11347); (11300, 11348); (11301, 11349); (11302, 11350); (11303, 11351);
  (11304, 11352); (11305, 11353); (11306, 11354); (11307, 11355); (11308, 11356);
  (11309, 11357); (11310, 11358); (11311, 11359); (11360, 11361); (11362, 619); (11363, 7549);
  (11364, 637); (11367, 11368); (11369, 11370); (11371, 11372); (11373, 593); (11374, 625);
  (11375, 592); (11376, 594); (11378, 11379); (11381, 11382); (11390, 575); (11391, 576);
  (11392, 11393); (11394, 11395); (11396, 11397); (11398, 11399); (11400, 11401);
  (11402, 11403); (11404, 11405); (11406, 11407); (11408, 11409); (11410, 11411);
  (11412, 11413); (11414, 11415); (11416, 11417); (11418, 11419); (11420, 11421);
  (11422, 11423); (11424, 11425); (11426, 11427); (11428, 11429); (11430, 11431);
  (11432, 11433); (11434, 11435); (11436, 11437); (11438, 11439); (11440, 11441);
  (11442, 11443); (11444, 11445); (11446, 11447); (11448, 11449); (11450, 11451);
  (11452, 11453); (11454, 11455); (11456, 11457); (11458, 11459); (11460, 11461);
  (11462, 11463); (11464, 11465); (11466, 11467); (11468, 11469); (11470, 11471);
  (11472, 11473); (11474, 11475); (11476, 11477); (11478, 11479); (11480, 11481);
  (11482, 11483); (11484, 11485); (11486, 11487); (11488, 11489); (11490, 11491);
  (11499, 11500); (11501, 11502); (11506, 11507); (42560, 42561); (42562, 42563);
  (42564, 42565); (42566, 42567); (42568, 42569); (42570, 42571); (42572, 42573);
  (42574, 42575); (42576, 42577); (42578, 42579); (42580, 42581); (42582, 42583);
  (42584, 42585); (42586, 42587); (42588, 42589); (42590, 42591); (42592, 42593);
  (42594, 42595); (42596, 42597); (42598, 42599); (42600, 42601); (42602, 42603);
  (42604, 42605); (42624, 42625); (42626, 42627); (42628, 42629); (42630, 42631);
  (42632, 42633); (42634, 42635); (42636, 42637); (42638, 42639); (42640, 42641);
  (42642, 42643); (42644, 42645); (42646, 42647); (42648, 42649); (42650, 42651);
  (42786, 42787); (42788, 42789); (42790, 42791); (42792, 42793); (42794, 42795);
  (42796, 42797); (42798, 42799); (42802, 42803); (42804, 42805); (42806, 42807);
  (42808, 42809); (42810, 42811); (42812, 42813); (42814, 42815); (42816, 42817);
  (42818, 42819); (42820, 42821); (42822, 42823); (42824, 42825); (42826, 42827);
  (42828, 42829); (42830, 42831); (42832, 42833); (42834, 42835); (42836, 42837);
  (42838, 42839); (42840, 42841); (42842, 42843); (42844, 42845); (42846, 42847);
  (42848, 42849); (42850, 42851); (42852, 42853); (42854, 42855); (42856, 42857);
  (42858, 42859); (42860, 42861); (42862, 42863); (42873, 42874); (42875, 42876);
  (42877, 7545); (42878, 42879); (42880, 42881); (42882, 42883); (42884, 42885);
  (42886, 42887); (42891, 42892); (42893, 613); (42896, 42897); (42898, 42899); (42902, 42903);
  (42904, 42905); (42906, 42907); (42908, 42909); (42910, 42911); (42912, 42913);
  (42914, 42915); (42916, 42917); (42918, 42919); (42920, 42921); (42922, 614); (42923, 604);
  (42924, 609); (42925, 620); (42926, 618); (42928, 670); (42929, 647); (42930, 669);
  (42931, 43859); (42932, 42933); (42934, 42935); (42936, 42937); (42938, 42939);
  (42940, 42941); (42942, 42943); (42944, 42945); (42946, 42947); (42948, 42900); (42949, 642);
  (42950, 7566); (42951, 42952); (42953, 42954); (42960, 42961); (42966, 42967);
  (42968, 42969); (42997, 42998); (65313, 65345); (65314, 65346); (65315, 65347);
  (65316, 65348); (65317, 65349); (65318, 65350); (65319, 65351); (65320, 65352);
  (65321, 65353); (65322, 65354); (65323, 65355); (65324, 65356); (65325, 65357);
  (65326, 65358); (65327, 65359); (65328, 65360); (65329, 65361); (65330, 65362);
  (65331, 65363); (65332, 65364); (65333, 65365); (65334, 65366); (65335, 65367);
  (65336, 65368); (65337, 65369); (65338, 65370); (66560, 66600); (66561, 66601);
  (66562, 66602); (66563, 66603); (66564, 66604); (66565, 66605); (66566, 66606);
  (66567, 66607); (66568, 66608); (66569, 66609); (66570, 66610); (66571, 66611);
  (66572, 66612); (66573, 66613); (66574, 66614); (66575, 66615); (66576, 66616);
  (66577, 66617); (66578, 66618); (66579, 66619); (66580, 66620); (66581, 66621);
  (66582, 66622); (66583, 66623); (66584, 66624); (66585, 66625); (66586, 66626);
  (66587, 66627); (66588, 66628); (66589, 66629); (66590, 66630); (66591, 66631);
  (66592, 66632); (66593, 66633); (66594, 66634); (66595, 66635); (66596, 66636);
  (66597, 66637); (66598, 66638); (66599, 66639); (66736, 66776); (66737, 66777);
  (66738, 66778); (66739, 66779); (66740, 66780); (66741, 66781); (66742, 66782);
  (66743, 66783); (66744, 66784); (66745, 66785); (66746, 66786); (66747, 66787);
  (66748, 66788); (66749, 66789); (66750, 66790); (66751, 66791); (66752, 66792);
  (66753, 66793); (66754, 66794); (66755, 66795); (66756, 66796); (66757, 66797);
  (66758, 66798); (66759, 66799); (66760, 66800); (66761, 66801); (66762, 66802);
  (66763, 66803); (66764, 66804); (66765, 66805); (66766, 66806); (66767, 66807);
  (66768, 66808); (66769, 66809); (66770, 66810); (66771, 66811); (66928, 66967);
  (66929, 66968); (66930, 66969); (66931, 66970); (66932, 66971); (66933, 66972);
  (66934, 66973); (66935, 66974); (66936, 66975); (66937, 66976); (66938, 66977);
  (66940, 66979); (66941, 66980); (66942, 66981); (66943, 66982); (66944, 66983);
  (66945, 66984); (66946, 66985); (66947, 66986); (66948, 66987); (66949, 66988);
  (66950, 66989); (66951, 66990); (66952, 66991); (66953, 66992); (66954, 66993);
  (66956, 66995); (66957, 66996); (66958, 66997); (66959, 66998); (66960, 66999);
  (66961, 67000); (66962, 67001); (66964, 67003); (66965, 67004); (68736, 68800);
  (68737, 68801); (68738, 68802); (68739, 68803); (68740, 68804); (68741, 68805);
  (68742, 68806); (68743, 68807); (68744, 68808); (68745, 68809); (68746, 68810);
  (68747, 68811); (68748, 68812); (68749, 68813); (68750, 68814); (68751, 68815);
  (68752, 68816); (68753, 68817); (68754, 68818); (68755, 68819); (68756, 68820);
  (68757, 68821); (68758, 68822); (68759, 68823); (68760, 68824); (68761, 68825);
  (68762, 68826); (68763, 68827); (68764, 68828); (68765, 68829); (68766, 68830);
  (68767, 68831); (68768, 68832); (68769, 68833); (68770, 68834); (68771, 68835);
  (68772, 68836); (68773, 68837); (68774, 68838); (68775, 68839); (68776, 68840);
  (68777, 68841); (68778, 68842); (68779, 68843); (68780, 68844); (68781, 68845);
  (68782, 68846); (68783, 68847); (68784, 68848); (68785, 68849); (68786, 68850);
  (71840, 71872); (71841, 71873); (71842, 71874); (71843, 71875); (71844, 71876);
  (71845, 71877); (71846, 71878); (71847, 71879); (71848, 71880); (71849, 71881);
  (71850, 71882); (71851, 71883); (71852, 71884); (71853, 71885); (71854, 71886);
  (71855, 71887); (71856, 71888); (71857, 71889); (71858, 71890); (71859, 71891);
  (71860, 71892); (71861, 71893); (71862, 71894); (71863, 71895); (71864, 71896);
  (71865, 71897); (71866, 71898); (71867, 71899); (71868, 71900); (71869, 71901);
  (71870, 71902); (71871, 71903); (93760, 93792); (93761, 93793); (93762, 93794);
  (93763, 93795); (93764, 93796); (93765, 93797); (93766, 93798); (93767, 93799);
  (93768, 93800); (93769, 93801); (93770, 93802); (93771, 93803); (93772, 93804);
  (93773, 93805); (93774, 93806); (93775, 93807); (93776, 93808); (93777, 93809);
  (93778, 93810); (93779, 93811); (93780, 93812); (93781, 93813); (93782, 93814);
  (93783, 93815); (93784, 93816); (93785, 93817); (93786, 93818); (93787, 93819);
  (93788, 93820); (93789, 93821); (93790, 93822); (93791, 93823); (125184, 125218);
  (125185, 125219); (125186, 125220); (125187, 125221); (125188, 125222); (125189, 125223);
  (125190, 125224); (125191, 125225); (125192, 125226); (125193, 125227); (125194, 125228);
  (125195, 125229); (125196, 125230); (125197, 125231); (125198, 125232); (125199, 125233);
  (125200, 125234); (125201, 125235); (125202, 125236); (125203, 125237); (125204, 125238);
  (125205, 125239); (125206, 125240); (125207, 125241); (125208, 125242); (125209, 125243);
  (125210, 125244); (125211, 125245); (125212, 125246); (125213, 125247); (125214, 125248);
  (125215, 125249); (125216, 125250); (125217, 125251)]%Z.

(** Code points with [c.isspace()] ([Py_UNICODE_ISSPACE]), as ranges. *)
Definition space_ranges : list (Z * Z) := [
  (9, 13); (28, 32); (133, 133); (160, 160); (5760, 5760); (8192, 8202); (8232, 8233);
  (8239, 8239); (8287, 8287); (12288, 12288)]%Z.

(** Code points that may start an identifier ([XID_Start] or ['_']), as
    ranges. *)
Definition id_start_ranges : list (Z * Z) := [
  (65, 90); (95, 95); (97, 122); (170, 170); (181, 181); (186, 186); (192, 214); (216, 246);
  (248, 705); (710, 721); (736, 740); (748, 748); (750, 750); (880, 884); (886, 887);
  (891, 893); (895, 895); (902, 902); (904, 906); (908, 908); (910, 929); (931, 1013);
  (1015, 1153); (1162, 1327); (1329, 1366); (1369, 1369); (1376, 1416); (1488, 1514);
  (1519, 1522); (1568, 1610); (1646, 1647); (1649, 1747); (1749, 1749); (1765, 1766);
  (1774, 1775); (1786, 1788); (1791, 1791); (1808, 1808); (1810, 1839); (1869, 1957);
  (1969, 1969); (1994, 2026); (2036, 2037); (2042, 2042); (2048, 2069); (2074, 2074);
  (2084, 2084); (2088, 2088); (2112, 2136); (2144, 2154); (2160, 2183); (2185, 2190);
  (2208, 2249); (2308, 2361); (2365, 2365); (2384, 2384); (2392, 2401); (2417, 2432);
  (2437, 2444); (2447, 2448); (2451, 2472); (2474, 2480); (2482, 2482); (2486, 2489);
  (2493, 2493); (2510, 2510); (2524, 2525); (2527, 2529); (2544, 2545); (2556, 2556);
  (2565, 2570); (2575, 2576); (2579, 2600); (2602, 2608); (2610, 2611); (2613, 2614);
  (2616, 2617); (2649, 2652); (2654, 2654); (2674, 2676); (2693, 2701); (2703, 2705);
  (2707, 2728); (2730, 2736); (2738, 2739); (2741, 2745); (2749, 2749); (2768, 2768);
  (2784, 2785); (2809, 2809); (2821, 2828); (2831, 2832); (2835, 2856); (2858, 2864);
  (2866, 2867); (2869, 2873); (2877, 2877); (2908, 2909); (2911, 2913); (2929, 2929);
  (2947, 2947); (2949, 2954); (2958, 2960); (2962, 2965); (2969, 2970); (2972, 2972);
  (2974, 2975); (2979, 2980); (2984, 2986); (2990, 3001); (3024, 3024); (3077, 3084);
  (3086, 3088); (3090, 3112); (3114, 3129); (3133, 3133); (3160, 3162); (3165, 3165);
  (3168, 3169); (3200, 3200); (3205, 3212); (3214, 3216); (3218, 3240); (3242, 3251);
  (3253, 3257); (3261, 3261); (3293, 3294); (3296, 3297); (3313, 3314); (3332, 3340);
  (3342, 3344); (3346, 3386); (3389, 3389); (3406, 3406); (3412, 3414); (3423, 3425);
  (3450, 3455); (3461, 3478); (3482, 3505); (3507, 3515); (3517, 3517); (3520, 3526);
  (3585, 3632); (3634, 3634); (3648, 3654); (3713, 3714); (3716, 3716); (3718, 3722);
  (3724, 3747); (3749, 3749); (3751, 3760); (3762, 3762); (3773, 3773); (3776, 3780);
  (3782, 3782); (3804, 3807); (3840, 3840); (3904, 3911); (3913, 3948); (3976, 3980);
  (4096, 4138); (4159, 4159); (4176, 4181); (4186, 4189); (4193, 4193); (4197, 4198);
  (4206, 4208); (4213, 4225); (4238, 4238); (4256, 4293); (4295, 4295); (4301, 4301);
  (4304, 4346); (4348, 4680); (4682, 4685); (4688, 4694); (4696, 4696); (4698, 4701);
  (4704, 4744); (4746, 4749); (4752, 4784); (4786, 4789); (4792, 4798); (4800, 4800);
  (4802, 4805); (4808, 4822); (4824, 4880); (4882, 4885); (4888, 4954); (4992, 5007);
  (5024, 5109); (5112, 5117); (5121, 5740); (5743, 5759); (5761, 5786); (5792, 5866);
  (5870, 5880); (5888, 5905); (5919, 5937); (5952, 5969); (5984, 5996); (5998, 6000);
  (6016, 6067); (6103, 6103); (6108, 6108); (6176, 6264); (6272, 6312); (6314, 6314);
  (6320, 6389); (6400, 6430); (6480, 6509); (6512, 6516); (6528, 6571); (6576, 6601);
  (6656, 6678); (6688, 6740); (6823, 6823); (6917, 6963); (6981, 6988); (7043, 7072);
  (7086, 7087); (7098, 7141); (7168, 7203); (7245, 7247); (7258, 7293); (7296, 7304);
  (7312, 7354); (7357, 7359); (7401, 7404); (7406, 7411); (7413, 7414); (7418, 7418);
  (7424, 7615); (7680, 7957); (7960, 7965); (7968, 8005); (8008, 8013); (8016, 8023);
  (8025, 8025); (8027, 8027); (8029, 8029); (8031, 8061); (8064, 8116); (8118, 8124);
  (8126, 8126); (8130, 8132); (8134, 8140); (8144, 8147); (8150, 8155); (8160, 8172);
  (8178, 8180); (8182, 8188); (8305, 8305); (8319, 8319); (8336, 8348); (8450, 8450);
  (8455, 8455); (8458, 8467); (8469, 8469); (8472, 8477); (8484, 8484); (8486, 8486);
  (8488, 8488); (8490, 8505); (8508, 8511); (8517, 8521); (8526, 8526); (8544, 8584);
  (11264, 11492); (11499, 11502); (11506, 11507); (11520, 11557); (11559, 11559);
  (11565, 11565); (11568, 11623); (11631, 11631); (11648, 11670); (11680, 11686);
  (11688, 11694); (11696, 11702); (11704, 11710); (11712, 11718); (11720, 11726);
  (11728, 11734); (11736, 11742); (12293, 12295); (12321, 12329); (12337, 12341);
  (12344, 12348); (12353, 12438); (12445, 12447); (12449, 12538); (12540, 12543);
  (12549, 12591); (12593, 12686); (12704, 12735); (12784, 12799); (13312, 19903);
  (19968, 42124); (42192, 42237); (42240, 42508); (42512, 42527); (42538, 42539);
  (42560, 42606); (42623, 42653); (42656, 42735); (42775, 42783); (42786, 42888);
  (42891, 42954); (42960, 42961); (42963, 42963); (42965, 42969); (42994, 43009);
  (43011, 43013); (43015, 43018); (43020, 43042); (43072, 43123); (43138, 43187);
  (43250, 43255); (43259, 43259); (43261, 43262); (43274, 43301); (43312, 43334);
  (43360, 43388); (43396, 43442); (43471, 43471); (43488, 43492); (43494, 43503);
  (43514, 43518); (43520, 43560); (43584, 43586); (43588, 43595); (43616, 43638);
  (43642, 43642); (43646, 43695); (43697, 43697); (43701, 43702); (43705, 43709);
  (43712, 43712); (43714, 43714); (43739, 43741); (43744, 43754); (43762, 43764);
  (43777, 43782); (43785, 43790); (43793, 43798); (43808, 43814); (43816, 43822);
  (43824, 43866); (43868, 43881); (43888, 44002); (44032, 55203); (55216, 55238);
  (55243, 55291); (63744, 64109); (64112, 64217); (64256, 64262); (64275, 64279);
  (64285, 64285); (64287, 64296); (64298, 64310); (64312, 64316); (64318, 64318);
  (64320, 64321); (64323, 64324); (64326, 64433); (64467, 64605); (64612, 64829);
  (64848, 64911); (64914, 64967); (65008, 65017); (65137, 65137); (65139, 65139);
  (65143, 65143); (65145, 65145); (65147, 65147); (65149, 65149); (65151, 65276);
  (65313, 65338); (65345, 65370); (65382, 65437); (65440, 65470); (65474, 65479);
  (65482, 65487); (65490, 65495); (65498, 65500); (65536, 65547); (65549, 65574);
  (65576, 65594); (65596, 65597); (65599, 65613); (65616, 65629); (65664, 65786);
  (65856, 65908); (66176, 66204); (66208, 66256); (66304, 66335); (66349, 66378);
  (66384, 66421); (66432, 66461); (66464, 66499); (66504, 66511); (66513, 66517);
  (66560, 66717); (66736, 66771); (66776, 66811); (66816, 66855); (66864, 66915);
  (66928, 66938); (66940, 66954); (66956, 66962); (66964, 66965); (66967, 66977);
  (66979, 66993); (66995, 67001); (67003, 67004); (67072, 67382); (67392, 67413);
  (67424, 67431); (67456, 67461); (67463, 67504); (67506, 67514); (67584, 67589);
  (67592, 67592); (67594, 67637); (67639, 67640); (67644, 67644); (67647, 67669);
  (67680, 67702); (67712, 67742); (67808, 67826); (67828, 67829); (67840, 67861);
  (67872, 67897); (67968, 68023); (68030, 68031); (68096, 68096); (68112, 68115);
  (68117, 68119); (68121, 68149); (68192, 68220); (68224, 68252); (68288, 68295);
  (68297, 68324); (68352, 68405); (68416, 68437); (68448, 68466); (68480, 68497);
  (68608, 68680); (68736, 68786); (68800, 68850); (68864, 68899); (69248, 69289);
  (69296, 69297); (69376, 69404); (69415, 69415); (69424, 69445); (69488, 69505);
  (69552, 69572); (69600, 69622); (69635, 69687); (69745, 69746); (69749, 69749);
  (69763, 69807); (69840, 69864); (69891, 69926); (69956, 69956); (69959, 69959);
  (69968, 70002); (70006, 70006); (70019, 70066); (70081, 70084); (70106, 70106);
  (70108, 70108); (70144, 70161); (70163, 70187); (70272, 70278); (70280, 70280);
  (70282, 70285); (70287, 70301); (70303, 70312); (70320, 70366); (70405, 70412);
  (70415, 70416); (70419, 70440); (70442, 70448); (70450, 70451); (70453, 70457);
  (70461, 70461); (70480, 70480); (70493, 70497); (70656, 70708); (70727, 70730);
  (70751, 70753); (70784, 70831); (70852, 70853); (70855, 70855); (71040, 71086);
  (71128, 71131); (71168, 71215); (71236, 71236); (71296, 71338); (71352, 71352);
  (71424, 71450); (71488, 71494); (71680, 71723); (71840, 71903); (71935, 71942);
  (71945, 71945); (71948, 71955); (71957, 71958); (71960, 71983); (71999, 71999);
  (72001, 72001); (72096, 72103); (72106, 72144); (72161, 72161); (72163, 72163);
  (72192, 72192); (72203, 72242); (72250, 72250); (72272, 72272); (72284, 72329);
  (72349, 72349); (72368, 72440); (72704, 72712); (72714, 72750); (72768, 72768);
  (72818, 72847); (72960, 72966); (72968, 72969); (72971, 73008); (73030, 73030);
  (73056, 73061); (73063, 73064); (73066, 73097); (73112, 73112); (73440, 73458);
  (73648, 73648); (73728, 74649); (74752, 74862); (74880, 75075); (77712, 77808);
  (77824, 78894); (82944, 83526); (92160, 92728); (92736, 92766); (92784, 92862);
  (92880, 92909); (92928, 92975); (92992, 92995); (93027, 93047); (93053, 93071);
  (93760, 93823); (93952, 94026); (94032, 94032); (94099, 94111); (94176, 94177);
  (94179, 94179); (94208, 100343); (100352, 101589); (101632, 101640); (110576, 110579);
  (110581, 110587); (110589, 110590); (110592, 110882); (110928, 110930); (110948, 110951);
  (110960, 111355); (113664, 113770); (113776, 113788); (113792, 113800); (113808, 113817);
  (119808, 119892); (119894, 119964); (119966, 119967); (119970, 119970); (119973, 119974);
  (119977, 119980); (119982, 119993); (119995, 119995); (119997, 120003); (120005, 120069);
  (120071, 120074); (120077, 120084); (120086, 120092); (120094, 120121); (120123, 120126);
  (120128, 120132); (120134, 120134); (120138, 120144); (120146, 120485); (120488, 120512);
  (120514, 120538); (120540, 120570); (120572, 120596); (120598, 120628); (120630, 120654);
  (120656, 120686); (120688, 120712); (120714, 120744); (120746, 120770); (120772, 120779);
  (122624, 122654); (123136, 123180); (123191, 123197); (123214, 123214); (123536, 123565);
  (123584, 123627); (124896, 124902); (124904, 124907); (124909, 124910); (124912, 124926);
  (124928, 125124); (125184, 125251); (125259, 125259); (126464, 126467); (126469, 126495);
  (126497, 126498); (126500, 126500); (126503, 126503); (126505, 126514); (126516, 126519);
  (126521, 126521); (126523, 126523); (126530, 126530); (126535, 126535); (126537, 126537);
  (126539, 126539); (126541, 126543); (126545, 126546); (126548, 126548); (126551, 126551);
  (126553, 126553); (126555, 126555); (126557, 126557); (126559, 126559); (126561, 126562);
  (126564, 126564); (126567, 126570); (126572, 126578); (126580, 126583); (126585, 126588);
  (126590, 126590); (126592, 126601); (126603, 126619); (126625, 126627); (126629, 126633);
  (126635, 126651); (131072, 173791); (173824, 177976); (177984, 178205); (178208, 183969);
  (183984, 191456); (194560, 195101); (196608, 201546)]%Z.

(** Code points that may continue an identifier ([XID_Continue]), as ranges. *)
Definition id_continue_ranges : list (Z * Z) := [
  (48, 57); (65, 90); (95, 95); (97, 122); (170, 170); (181, 181); (183, 183); (186, 186);
  (192, 214); (216, 246); (248, 705); (710, 721); (736, 740); (748, 748); (750, 750);
  (768, 884); (886, 887); (891, 893); (895, 895); (902, 906); (908, 908); (910, 929);
  (931, 1013); (1015, 1153); (1155, 1159); (1162, 1327); (1329, 1366); (1369, 1369);
  (1376, 1416); (1425, 1469); (1471, 1471); (1473, 1474); (1476, 1477); (1479, 1479);
  (1488, 1514); (1519, 1522); (1552, 1562); (1568, 1641); (1646, 1747); (1749, 1756);
  (1759, 1768); (1770, 1788); (1791, 1791); (1808, 1866); (1869, 1969); (1984, 2037);
  (2042, 2042); (2045, 2045); (2048, 2093); (2112, 2139); (2144, 2154); (2160, 2183);
  (2185, 2190); (2200, 2273); (2275, 2403); (2406, 2415); (2417, 2435); (2437, 2444);
  (2447, 2448); (2451, 2472); (2474, 2480); (2482, 2482); (2486, 2489); (2492, 2500);
  (2503, 2504); (2507, 2510); (2519, 2519); (2524, 2525); (2527, 2531); (2534, 2545);
  (2556, 2556); (2558, 2558); (2561, 2563); (2565, 2570); (2575, 2576); (2579, 2600);
  (2602, 2608); (2610, 2611); (2613, 2614); (2616, 2617); (2620, 2620); (2622, 2626);
  (2631, 2632); (2635, 2637); (2641, 2641); (2649, 2652); (2654, 2654); (2662, 2677);
  (2689, 2691); (2693, 2701); (2703, 2705); (2707, 2728); (2730, 2736); (2738, 2739);
  (2741, 2745); (2748, 2757); (2759, 2761); (2763, 2765); (2768, 2768); (2784, 2787);
  (2790, 2799); (2809, 2815); (2817, 2819); (2821, 2828); (2831, 2832); (2835, 2856);
  (2858, 2864); (2866, 2867); (2869, 2873); (2876, 2884); (2887, 2888); (2891, 2893);
  (2901, 2903); (2908, 2909); (2911, 2915); (2918, 2927); (2929, 2929); (2946, 2947);
  (2949, 2954); (2958, 2960); (2962, 2965); (2969, 2970); (2972, 2972); (2974, 2975);
  (2979, 2980); (2984, 2986); (2990, 3001); (3006, 3010); (3014, 3016); (3018, 3021);
  (3024, 3024); (3031, 3031); (3046, 3055); (3072, 3084); (3086, 3088); (3090, 3112);
  (3114, 3129); (3132, 3140); (3142, 3144); (3146, 3149); (3157, 3158); (3160, 3162);
  (3165, 3165); (3168, 3171); (3174, 3183); (3200, 3203); (3205, 3212); (3214, 3216);
  (3218, 3240); (3242, 3251); (3253, 3257); (3260, 3268); (3270, 3272); (3274, 3277);
  (3285, 3286); (3293, 3294); (3296, 3299); (3302, 3311); (3313, 3314); (3328, 3340);
  (3342, 3344); (3346, 3396); (3398, 3400); (3402, 3406); (3412, 3415); (3423, 3427);
  (3430, 3439); (3450, 3455); (3457, 3459); (3461, 3478); (3482, 3505); (3507, 3515);
  (3517, 3517); (3520, 3526); (3530, 3530); (3535, 3540); (3542, 3542); (3544, 3551);
  (3558, 3567); (3570, 3571); (3585, 3642); (3648, 3662); (3664, 3673); (3713, 3714);
  (3716, 3716); (3718, 3722); (3724, 3747); (3749, 3749); (3751, 3773); (3776, 3780);
  (3782, 3782); (3784, 3789); (3792, 3801); (3804, 3807); (3840, 3840); (3864, 3865);
  (3872, 3881); (3893, 3893); (3895, 3895); (3897, 3897); (3902, 3911); (3913, 3948);
  (3953, 3972); (3974, 3991); (3993, 4028); (4038, 4038); (4096, 4169); (4176, 4253);
  (4256, 4293); (4295, 4295); (4301, 4301); (4304, 4346); (4348, 4680); (4682, 4685);
  (4688, 4694); (4696, 4696); (4698, 4701); (4704, 4744); (4746, 4749); (4752, 4784);
  (4786, 4789); (4792, 4798); (4800, 4800); (4802, 4805); (4808, 4822); (4824, 4880);
  (4882, 4885); (4888, 4954); (4957, 4959); (4969, 4977); (4992, 5007); (5024, 5109);
  (5112, 5117); (5121, 5740); (5743, 5759); (5761, 5786); (5792, 5866); (5870, 5880);
  (5888, 5909); (5919, 5940); (5952, 5971); (5984, 5996); (5998, 6000); (6002, 6003);
  (6016, 6099); (6103, 6103); (6108, 6109); (6112, 6121); (6155, 6157); (6159, 6169);
  (6176, 6264); (6272, 6314); (6320, 6389); (6400, 6430); (6432, 6443); (6448, 6459);
  (6470, 6509); (6512, 6516); (6528, 6571); (6576, 6601); (6608, 6618); (6656, 6683);
  (6688, 6750); (6752, 6780); (6783, 6793); (6800, 6809); (6823, 6823); (6832, 6845);
  (6847, 6862); (6912, 6988); (6992, 7001); (7019, 7027); (7040, 7155); (7168, 7223);
  (7232, 7241); (7245, 7293); (7296, 7304); (7312, 7354); (7357, 7359); (7376, 7378);
  (7380, 7418); (7424, 7957); (7960, 7965); (7968, 8005); (8008, 8013); (8016, 8023);
  (8025, 8025); (8027, 8027); (8029, 8029); (8031, 8061); (8064, 8116); (8118, 8124);
  (8126, 8126); (8130, 8132); (8134, 8140); (8144, 8147); (8150, 8155); (8160, 8172);
  (8178, 8180); (8182, 8188); (8255, 8256); (8276, 8276); (8305, 8305); (8319, 8319);
  (8336, 8348); (8400, 8412); (8417, 8417); (8421, 8432); (8450, 8450); (8455, 8455);
  (8458, 8467); (8469, 8469); (8472, 8477); (8484, 8484); (8486, 8486); (8488, 8488);
  (8490, 8505); (8508, 8511); (8517, 8521); (8526, 8526); (8544, 8584); (11264, 11492);
  (11499, 11507); (11520, 11557); (11559, 11559); (11565, 11565); (11568, 11623);
  (11631, 11631); (11647, 11670); (11680, 11686); (11688, 11694); (11696, 11702);
  (11704, 11710); (11712, 11718); (11720, 11726); (11728, 11734); (11736, 11742);
  (11744, 11775); (12293, 12295); (12321, 12335); (12337, 12341); (12344, 12348);
  (12353, 12438); (12441, 12442); (12445, 12447); (12449, 12538); (12540, 12543);
  (12549, 12591); (12593, 12686); (12704, 12735); (12784, 12799); (13312, 19903);
  (19968, 42124); (42192, 42237); (42240, 42508); (42512, 42539); (42560, 42607);
  (42612, 42621); (42623, 42737); (42775, 42783); (42786, 42888); (42891, 42954);
  (42960, 42961); (42963, 42963); (42965, 42969); (42994, 43047); (43052, 43052);
  (43072, 43123); (43136, 43205); (43216, 43225); (43232, 43255); (43259, 43259);
  (43261, 43309); (43312, 43347); (43360, 43388); (43392, 43456); (43471, 43481);
  (43488, 43518); (43520, 43574); (43584, 43597); (43600, 43609); (43616, 43638);
  (43642, 43714); (43739, 43741); (43744, 43759); (43762, 43766); (43777, 43782);
  (43785, 43790); (43793, 43798); (43808, 43814); (43816, 43822); (43824, 43866);
  (43868, 43881); (43888, 44010); (44012, 44013); (44016, 44025); (44032, 55203);
  (55216, 55238); (55243, 55291); (63744, 64109); (64112, 64217); (64256, 64262);
  (64275, 64279); (64285, 64296); (64298, 64310); (64312, 64316); (64318, 64318);
  (64320, 64321); (64323, 64324); (64326, 64433); (64467, 64605); (64612, 64829);
  (64848, 64911); (64914, 64967); (65008, 65017); (65024, 65039); (65056, 65071);
  (65075, 65076); (65101, 65103); (65137, 65137); (65139, 65139); (65143, 65143);
  (65145, 65145); (65147, 65147); (65149, 65149); (65151, 65276); (65296, 65305);
  (65313, 65338); (65343, 65343); (65345, 65370); (65382, 65470); (65474, 65479);
  (65482, 65487); (65490, 65495); (65498, 65500); (65536, 65547); (65549, 65574);
  (65576, 65594); (65596, 65597); (65599, 65613); (65616, 65629); (65664, 65786);
  (65856, 65908); (66045, 66045); (66176, 66204); (66208, 66256); (66272, 66272);
  (66304, 66335); (66349, 66378); (66384, 66426); (66432, 66461); (66464, 66499);
  (66504, 66511); (66513, 66517); (66560, 66717); (66720, 66729); (66736, 66771);
  (66776, 66811); (66816, 66855); (66864, 66915); (66928, 66938); (66940, 66954);
  (66956, 66962); (66964, 66965); (66967, 66977); (66979, 66993); (66995, 67001);
  (67003, 67004); (67072, 67382); (67392, 67413); (67424, 67431); (67456, 67461);
  (67463, 67504); (67506, 67514); (67584, 67589); (67592, 67592); (67594, 67637);
  (67639, 67640); (67644, 67644); (67647, 67669); (67680, 67702); (67712, 67742);
  (67808, 67826); (67828, 67829); (67840, 67861); (67872, 67897); (67968, 68023);
  (68030, 68031); (68096, 68099); (68101, 68102); (68108, 68115); (68117, 68119);
  (68121, 68149); (68152, 68154); (68159, 68159); (68192, 68220); (68224, 68252);
  (68288, 68295); (68297, 68326); (68352, 68405); (68416, 68437); (68448, 68466);
  (68480, 68497); (68608, 68680); (68736, 68786); (68800, 68850); (68864, 68903);
  (68912, 68921); (69248, 69289); (69291, 69292); (69296, 69297); (69376, 69404);
  (69415, 69415); (69424, 69456); (69488, 69509); (69552, 69572); (69600, 69622);
  (69632, 69702); (69734, 69749); (69759, 69818); (69826, 69826); (69840, 69864);
  (69872, 69881); (69888, 69940); (69942, 69951); (69956, 69959); (69968, 70003);
  (70006, 70006); (70016, 70084); (70089, 70092); (70094, 70106); (70108, 70108);
  (70144, 70161); (70163, 70199); (70206, 70206); (70272, 70278); (70280, 70280);
  (70282, 70285); (70287, 70301); (70303, 70312); (70320, 70378); (70384, 70393);
  (70400, 70403); (70405, 70412); (70415, 70416); (70419, 70440); (70442, 70448);
  (70450, 70451); (70453, 70457); (70459, 70468); (70471, 70472); (70475, 70477);
  (70480, 70480); (70487, 70487); (70493, 70499); (70502, 70508); (70512, 70516);
  (70656, 70730); (70736, 70745); (70750, 70753); (70784, 70853); (70855, 70855);
  (70864, 70873); (71040, 71093); (71096, 71104); (71128, 71133); (71168, 71232);
  (71236, 71236); (71248, 71257); (71296, 71352); (71360, 71369); (71424, 71450);
  (71453, 71467); (71472, 71481); (71488, 71494); (71680, 71738); (71840, 71913);
  (71935, 71942); (71945, 71945); (71948, 71955); (71957, 71958); (71960, 71989);
  (71991, 71992); (71995, 72003); (72016, 72025); (72096, 72103); (72106, 72151);
  (72154, 72161); (72163, 72164); (72192, 72254); (72263, 72263); (72272, 72345);
  (72349, 72349); (72368, 72440); (72704, 72712); (72714, 72758); (72760, 72768);
  (72784, 72793); (72818, 72847); (72850, 72871); (72873, 72886); (72960, 72966);
  (72968, 72969); (72971, 73014); (73018, 73018); (73020, 73021); (73023, 73031);
  (73040, 73049); (73056, 73061); (73063, 73064); (73066, 73102); (73104, 73105);
  (73107, 73112); (73120, 73129); (73440, 73462); (73648, 73648); (73728, 74649);
  (74752, 74862); (74880, 75075); (77712, 77808); (77824, 78894); (82944, 83526);
  (92160, 92728); (92736, 92766); (92768, 92777); (92784, 92862); (92864, 92873);
  (92880, 92909); (92912, 92916); (92928, 92982); (92992, 92995); (93008, 93017);
  (93027, 93047); (93053, 93071); (93760, 93823); (93952, 94026); (94031, 94087);
  (94095, 94111); (94176, 94177); (94179, 94180); (94192, 94193); (94208, 100343);
  (100352, 101589); (101632, 101640); (110576, 110579); (110581, 110587); (110589, 110590);
  (110592, 110882); (110928, 110930); (110948, 110951); (110960, 111355); (113664, 113770);
  (113776, 113788); (113792, 113800); (113808, 113817); (113821, 113822); (118528, 118573);
  (118576, 118598); (119141, 119145); (119149, 119154); (119163, 119170); (119173, 119179);
  (119210, 119213); (119362, 119364); (119808, 119892); (119894, 119964); (119966, 119967);
  (119970, 119970); (119973, 119974); (119977, 119980); (119982, 119993); (119995, 119995);
  (119997, 120003); (120005, 120069); (120071, 120074); (120077, 120084); (120086, 120092);
  (120094, 120121); (120123, 120126); (120128, 120132); (120134, 120134); (120138, 120144);
  (120146, 120485); (120488, 120512); (120514, 120538); (120540, 120570); (120572, 120596);
  (120598, 120628); (120630, 120654); (120656, 120686); (120688, 120712); (120714, 120744);
  (120746, 120770); (120772, 120779); (120782, 120831); (121344, 121398); (121403, 121452);
  (121461, 121461); (121476, 121476); (121499, 121503); (121505, 121519); (122624, 122654);
  (122880, 122886); (122888, 122904); (122907, 122913); (122915, 122916); (122918, 122922);
  (123136, 123180); (123184, 123197); (123200, 123209); (123214, 123214); (123536, 123566);
  (123584, 123641); (124896, 124902); (124904, 124907); (124909, 124910); (124912, 124926);
  (124928, 125124); (125136, 125142); (125184, 125259); (125264, 125273); (126464, 126467);
  (126469, 126495); (126497, 126498); (126500, 126500); (126503, 126503); (126505, 126514);
  (126516, 126519); (126521, 126521); (126523, 126523); (126530, 126530); (126535, 126535);
  (126537, 126537); (126539, 126539); (126541, 126543); (126545, 126546); (126548, 126548);
  (126551, 126551); (126553, 126553); (126555, 126555); (126557, 126557); (126559, 126559);
  (126561, 126562); (126564, 126564); (126567, 126570); (126572, 126578); (126580, 126583);
  (126585, 126588); (126590, 126590); (126592, 126601); (126603, 126619); (126625, 126627);
  (126629, 126633); (126635, 126651); (130032, 130041); (131072, 173791); (173824, 177976);
  (177984, 178205); (178208, 183969); (183984, 191456); (194560, 195101); (196608, 201546);
  (917760, 917999)]%Z.

(** The code points of decimal value 0; the digits [1..9] of each decimal
    system follow its zero ([Py_UNICODE_TODECIMAL]). *)
Definition decimal_zeros : list Z := [
  48; 1632; 1776; 1984; 2406; 2534; 2662; 2790; 2918; 3046; 3174; 3302; 3430; 3558; 3664; 3792; 3872; 4160; 4240; 6112; 6160; 6470; 6608; 6784; 6800; 6992; 7088; 7232; 7248; 42528; 43216; 43264; 43472; 43504; 43600; 44016; 65296; 66720; 68912; 69734; 69872; 69942; 70096; 70384; 70736; 70864; 71248; 71360; 71472; 71904; 72016; 72784; 73040; 73120; 92768; 92864; 93008; 120782; 120792; 120802; 120812; 120822; 123200; 123632; 125264; 130032]%Z.

(** [re._casefix._EXTRA_CASES]: lower-case code points that share their
    upper case with other lower-case code points. *)
Definition extra_cases : list (Z * list Z) := [
  (105, [305]);
  (115, [383]);
  (181, [956]);
  (305, [105]);
  (383, [115]);
  (837, [953; 8126]);
  (912, [8147]);
  (944, [8163]);
  (946, [976]);
  (949, [1013]);
  (952, [977]);
  (953, [837; 8126]);
  (954, [1008]);
  (956, [181]);
  (960, [982]);
  (961, [1009]);
  (962, [963]);
  (963, [962]);
  (966, [981]);
  (976, [946]);
  (977, [952]);
  (981, [966]);
  (982, [960]);
  (1008, [954]);
  (1009, [961]);
  (1013, [949]);
  (1074, [7296]);
  (1076, [7297]);
  (1086, [7298]);
  (1089, [7299]);
  (1090, [7300; 7301]);
  (1098, [7302]);
  (1123, [7303]);
  (7296, [1074]);
  (7297, [1076]);
  (7298, [1086]);
  (7299, [1089]);
  (7300, [1090; 7301]);
  (7301, [1090; 7300]);
  (7302, [1098]);
  (7303, [1123]);
  (7304, [42571]);
  (7777, [7835]);
  (7835, [7777]);
  (8126, [837; 953]);
  (8147, [912]);
  (8163, [944]);
  (42571, [7304]);
  (64261, [64262]);
  (64262, [64261])]%Z.

(** [SRE_UNI_IS_WORD]. *)
Definition is_word (c : Z) : bool := in_ranges c word_ranges.

(** [_sre.unicode_tolower]. *)
Definition tolower (c : Z) : Z :=
  match zlookup c lower_table with Some l => l | None => c end.

(** [_sre.unicode_iscased]. *)
Definition iscased (c : Z) : bool := in_ranges c cased_ranges.

(** A pattern character [p] (after [re.escape]) against a text character
    [c] under [re.IGNORECASE] ([re._compiler._compile]): an uncased [p] is
    a [LITERAL] matched exactly; a cased one whose lower case has extra
    cases is an [IN_UNI_IGNORE] set of these lower cases; any other is a
    [LITERAL_UNI_IGNORE] compared after [tolower].  [p] comes first. *)
Definition ci_eq (p c : Z) : bool :=
  if negb (iscased p) then (c =? p)%Z
  else
    let lo := tolower p in
    match zlookup lo extra_cases with
    | Some fixes => existsb (Z.eqb (tolower c)) (lo :: fixes)
    | None => (tolower c =? lo)%Z
    end.

(** For a cased [p], the text characters matching [p] are those whose
    [tolower] is in this list; an uncased [p] matches only itself. *)
Definition case_set (p : Z) : list Z :=
  if negb (iscased p) then [p]
  else
    let lo := tolower p in
    match zlookup lo extra_cases with
    | Some fixes => lo :: fixes
    | None => [lo]
    end.

(** Every character matching [p] is a word character / none is. *)
Definition word_class (p : Z) : bool := forallb is_word (case_set p).
Definition nonword_class (p : Z) : bool := forallb (fun s => negb (is_word s)) (case_set p).

Definition word_opt (c : option Z) : bool :=
  match c with Some c => is_word c | None => false end.

(** [\b] between the character before a position and the one at it
    ([None] for the ends of the string). *)
Definition boundary (before after : option Z) : bool :=
  xorb (word_opt before) (word_opt after).

(** [str.isidentifier]. *)
Definition isidentifier (s : str) : bool :=
  match s with
  | [] => false
  | c :: s' => in_ranges c id_start_ranges && forallb (fun d => in_ranges d id_continue_ranges) s'
  end.

(** [Py_UNICODE_TODECIMAL]. *)
Definition to_decimal (c : Z) : option Z :=
  match find (fun z => in_range z (z + 9) c) decimal_zeros with
  | Some z => Some (c - z)%Z
  | None => None
  end.

(** [_PyUnicode_TransformDecimalAndSpaceToASCII], done by [int(s)] before
    parsing: a non-ASCII space becomes [' '], a non-ASCII decimal digit its
    ASCII digit, any other non-ASCII character makes [int] fail. *)
Definition int_char (c : Z) : option Z :=
  if (c <? 127)%Z then Some c
  else if in_ranges c space_ranges then Some 32%Z
  else match to_decimal c with Some d => Some (48 + d)%Z | None => None end.

Fixpoint map_option (f : Z -> option Z) (s : str) : option str :=
  match s with
  | [] => Some []
  | c :: s' =>
      match f c, map_option f s' with
      | Some d, Some r => Some (d :: r)
      | _, _ => None
      end
  end.

(** [Py_ISSPACE]. *)
Definition c_isspace (c : Z) : bool := (c =? 32)%Z || in_range 9 13 c.

Fixpoint skip_space (s : str) : str :=
  match s with
  | c :: s' => if c_isspace c then skip_space s' else s
  | [] => []
  end.

Definition skip_sign (s : str) : str :=
  match s with
  | c :: s' => if (c =? 43)%Z || (c =? 45)%Z then s' else s
  | [] => []
  end.

(** [PyLong_FromString] in base 10 after the first digit: more digits, each
    possibly preceded by one ['_'].  The result says whether all the digits
    are ['0'] and how many digits there are, and gives the rest of the
    string. *)
Fixpoint digit_tail (s : str) : option (bool * Z * str) :=
  match s with
  | c :: s' =>
      if is_digit c then
        match digit_tail s' with
        | Some (z, n, r) => Some ((c =? 48)%Z && z, n + 1, r)%Z
        | None => None
        end
      else if (c =? 95)%Z then
        match s' with
        | d :: s'' =>
            if is_digit d then
              match digit_tail s'' with
              | Some (z, n, r) => Some ((d =? 48)%Z && z, n + 1, r)%Z
              | None => None
              end
            else None
        | [] => None
        end
      else Some (true, 0%Z, s)
  | [] => Some (true, 0%Z, [])
  end.

(** [int(name) == 0]: [int(name)] succeeds (spaces, an optional sign,
    digits with single underscores between them, spaces; at most 4300
    digits, the default [sys.get_int_max_str_digits()]) and is zero. *)
Definition int_is_zero (name : str) : bool :=
  match map_option int_char name with
  | None => false
  | Some a =>
      match skip_sign (skip_space a) with
      | d :: s =>
          is_digit d &&
          match digit_tail s with
          | Some (z, n, r) =>
              (d =? 48)%Z && z && (n + 1 <=? 4300)%Z
              && match skip_space r with [] => true | _ => false end
          | None => false
          end
      | [] => false
      end
  end.

(** ** Replacement templates ([re._parser.parse_template])

    [pattern.sub(kor, text)] does not insert [kor] as it is: [kor] is a
    template, parsed before any matching is done.  The compiled pattern
    [\bENG\b] has no groups, so the only group a template may name is
    group 0.  The parser reads the template through a tokenizer whose
    tokens are single characters and backslash pairs; a backslash at the
    very end raises [re.error] as soon as the tokenizer advances onto it. *)
Inductive titem :=
| TLit (c : Z)   (** a literal character *)
| TGroup0.       (** [\g<0>]: the whole match *)

Inductive tok :=
| TChar (c : Z)  (** a character other than a backslash *)
| TEsc (c : Z).  (** a backslash and the character after it *)

(** The tokens, and whether the template ends with a lone backslash. *)
Fixpoint tokenize (t : str) : list tok * bool :=
  match t with
  | [] => ([], false)
  | c :: t' =>
      if (c =? 92)%Z then
        match t' with
        | [] => ([], true)
        | e :: t'' => let '(ts, bad) := tokenize t'' in (TEsc e :: ts, bad)
        end
      else let '(ts, bad) := tokenize t' in (TChar c :: ts, bad)
  end.

(** [Tokenizer.__next] after a token is consumed, when [rest] is what
    remains: it raises on the lone trailing backslash. *)
Definition advance (rest : list tok) (bad : bool) : result unit :=
  match rest with
  | [] => if bad then Raise ReError else Ok tt      (* bad escape (end of pattern) *)
  | _ => Ok tt
  end.

(** [ESCAPES] of [re._parser] usable in templates. *)
Definition escape_code (e : Z) : option Z :=
  if (e =? 97)%Z then Some 7%Z          (* \a *)
  else if (e =? 98)%Z then Some 8%Z     (* \b *)
  else if (e =? 102)%Z then Some 12%Z   (* \f *)
  else if (e =? 110)%Z then Some 10%Z   (* \n *)
  else if (e =? 114)%Z then Some 13%Z   (* \r *)
  else if (e =? 116)%Z then Some 9%Z    (* \t *)
  else if (e =? 118)%Z then Some 11%Z   (* \v *)
  else if (e =? 92)%Z then Some 92%Z    (* \\ *)
  else None.

(** [s.getuntil(">", "group name")]: the name (escaped tokens contribute
    both their characters) and the tokens after the [>]. *)
Fixpoint getuntil_gt (ts : list tok) (bad : bool) (name : str) : result (str * list tok) :=
  match ts with
  | [] => Raise ReError                             (* missing >, unterminated name *)
  | x :: rest =>
      _ <- advance rest bad ;;
      match x with
      | TChar c =>
          if (c =? 62)%Z then
            match name with
            | [] => Raise ReError                   (* missing group name *)
            | _ => Ok (name, rest)
            end
          else getuntil_gt rest bad (name ++ [c])
      | TEsc c => getuntil_gt rest bad (name ++ [92; c]%Z)
      end
  end.

Definition oct_value (ds : str) : Z :=
  fold_left (fun acc d => (acc * 8 + (d - 48))%Z) ds 0%Z.

Definition cons_items (its : list titem) (r : result (list titem)) : result (list titem) :=
  items <- r ;; Ok (its ++ items).

Fixpoint parse_toks (fuel : nat) (ts : list tok) (bad : bool) : result (list titem) :=
  match fuel with
  | O => Ok []
  | S fuel' =>
    match ts with
    | [] => Ok []
    | x :: rest =>
      _ <- advance rest bad ;;                        (* this = sget() *)
      match x with
      | TChar c => cons_items [TLit c] (parse_toks fuel' rest bad)
      | TEsc e =>
        if (e =? 103)%Z then                          (* \g<name> *)
          match rest with
          | TChar l :: rest' =>
            if (l =? 60)%Z then
              _ <- advance rest' bad ;;
              nr <- getuntil_gt rest' bad [] ;;
              let '(name, rest'') := nr in
              if isidentifier name then Raise IndexError   (* unknown group name *)
              else if int_is_zero name
              then cons_items [TGroup0] (parse_toks fuel' rest'' bad)
              else Raise ReError                      (* bad character / invalid group reference *)
            else Raise ReError                        (* missing < *)
          | _ => Raise ReError                        (* missing < *)
          end
        else if (e =? 48)%Z then                      (* \0, \0o, \0oo *)
          match rest with
          | TChar d1 :: rest' =>
            if is_octdigit d1 then
              _ <- advance rest' bad ;;
              match rest' with
              | TChar d2 :: rest'' =>
                if is_octdigit d2 then
                  _ <- advance rest'' bad ;;
                  cons_items [TLit (Z.land (oct_value [d1; d2]) 255)] (parse_toks fuel' rest'' bad)
                else cons_items [TLit (oct_value [d1])] (parse_toks fuel' rest' bad)
              | _ => cons_items [TLit (oct_value [d1])] (parse_toks fuel' rest' bad)
              end
            else cons_items [TLit 0%Z] (parse_toks fuel' rest bad)
          | _ => cons_items [TLit 0%Z] (parse_toks fuel' rest bad)
          end
        else if is_digit e then                       (* \ooo, or a group number *)
          match rest with
          | TChar d2 :: rest' =>
            if is_digit d2 then
              _ <- advance rest' bad ;;
              if is_octdigit e && is_octdigit d2 then
                match rest' with
                | TChar d3 :: rest'' =>
                  if is_octdigit d3 then
                    _ <- advance rest'' bad ;;
                    let v := oct_value [e; d2; d3] in
                    if (v <=? 255)%Z
                    then cons_items [TLit v] (parse_toks fuel' rest'' bad)
                    else Raise ReError                (* octal escape out of range *)
                  else Raise ReError                  (* invalid group reference *)
                | _ => Raise ReError                  (* invalid group reference *)
                end
              else Raise ReError                      (* invalid group reference *)
            else Raise ReError                        (* invalid group reference *)
          | _ => Raise ReError                        (* invalid group reference *)
          end
        else
          match escape_code e with
          | Some v => cons_items [TLit v] (parse_toks fuel' rest bad)
          | None =>
            if is_ascii_letter e then Raise ReError   (* bad escape *)
            else cons_items [TLit 92%Z; TLit e] (parse_toks fuel' rest bad)
          end
      end
    end
  end.

Definition parse_template (t : str) : result (list titem) :=
  let '(ts, bad) := tokenize t in
  _ <- advance ts bad ;;                              (* Tokenizer.__init__ *)
  parse_toks (S (length ts)) ts bad.

Definition expand (items : list titem) (matched : str) : str :=
  flat_map (fun it => match it with TLit c => [c] | TGroup0 => matched end) items.


(** ** [translate_text]

    [re.compile(r'\b' + re.escape(eng) + r'\b', re.IGNORECASE)] matches at
    a position when there is a word boundary there, the next [len(eng)]
    characters match [eng] ignoring case ([ci_eq]), and there is a word boundary after
    them.  The pattern has a fixed length, so matching at a position does
    not backtrack. *)
Fixpoint prefix_ci (pat t : str) : bool :=
  match pat, t with
  | [], _ => true
  | p :: pat', c :: t' => ci_eq p c && prefix_ci pat' t'
  | _ :: _, [] => false
  end.

(** [prev] is the character before the current position; [t] is the rest
    of the string from it. *)
Definition matches_at (pat : str) (prev : option Z) (t : str) : bool :=
  let last := match pat with [] => prev | _ => nth_error t (length pat - 1) end in
  boundary prev (hd_error t) && prefix_ci pat t
  && boundary last (nth_error t (length pat)).

(** [pattern.sub(repl, text)]: scan left to right; at a match emit the
    expanded template and resume after the match.  [k] counts characters
    of the current match still to be skipped.  An empty match (only for
    [eng = ""]) is followed by the character after it, as in Python 3.7+. *)
Fixpoint sub_go (pat : str) (items : list titem) (k : nat) (prev : option Z) (t : str)
  : str :=
  match t with
  | [] =>
      match k with
      | O => if matches_at pat prev [] then expand items [] else []
      | S _ => []
      end
  | c :: t' =>
      match k with
      | S k' => sub_go pat items k' (Some c) t'
      | O =>
          if matches_at pat prev t then
            match pat with
            | [] => expand items [] ++ c :: sub_go pat items 0 (Some c) t'
            | _ :: _ =>
                expand items (firstn (length pat) t)
                  ++ sub_go pat items (length pat - 1) (Some c) t'
            end
          else c :: sub_go pat items 0 (Some c) t'
      end
  end.

Definition pattern_sub (eng kor text : str) : result str :=
  items <- parse_template kor ;;
  Ok (sub_go eng items 0 None text).

(** [sorted(MEDICAL_TERMS.items(), key=lambda x: len(x[0]), reverse=True)]:
    a stable sort on decreasing length of the source term (Python's
    [reverse=True] keeps equal keys in their original order). *)
Fixpoint insert_by_len (x : str * str) (l : list (str * str)) : list (str * str) :=
  match l with
  | [] => [x]
  | y :: l' =>
      if (length (fst y) <=? length (fst x))%nat then x :: y :: l'
      else y :: insert_by_len x l'
  end.

Fixpoint sort_terms (terms : list (str * str)) : list (str * str) :=
  match terms with
  | [] => []
  | x :: l => insert_by_len x (sort_terms l)
  end.

(** [for eng, kor in sorted_terms: translated = pattern.sub(kor, translated)] *)
Fixpoint apply_terms (sorted_terms : list (str * str)) (translated : str) : result str :=
  match sorted_terms with
  | [] => Ok translated
  | (eng, kor) :: rest =>
      translated' <- pattern_sub eng kor translated ;;
      apply_terms rest translated'
  end.

Definition translate_text (MEDICAL_TERMS : list (str * str)) (text : pyval) : result pyval :=
  match text with
  | VStr ((_ :: _) as s) =>
      translated <- apply_terms (sort_terms MEDICAL_TERMS) s ;;
      Ok (VStr translated)
  | _ => Ok text     (* if not text or not isinstance(text, str): return text *)
  end.

(** ** [fix_output_label] *)

Definition open_tag : str := lit "<label>".
Definition close_tag : str := lit "</label>".

Fixpoint is_prefix (p t : str) : bool :=
  match p, t with
  | [], _ => true
  | a :: p', b :: t' => (a =? b)%Z && is_prefix p' t'
  | _ :: _, [] => false
  end.

(** The non-greedy group [(.*?)] followed by [</label>], tried on the text
    after [<label>]: the shortest run of non-newline characters ([.] does
    not match ['\n'] without [re.DOTALL]) that is followed by [</label>]. *)
Fixpoint lazy_group (t : str) : option str :=
  if is_prefix close_tag t then Some []
  else match t with
       | [] => None
       | c :: t' => if (c =? 10)%Z then None else option_map (cons c) (lazy_group t')
       end.

Definition label_match_at (t : str) : option str :=
  if is_prefix open_tag t then lazy_group (skipn (length open_tag) t) else None.

(** [re.search(r'<label>(.*?)</label>', output)]: the group of the match at
    the leftmost position where the pattern matches. *)
Fixpoint search_label (t : str) : option str :=
  match label_match_at t with
  | Some g => Some g
  | None => match t with [] => None | _ :: t' => search_label t' end
  end.

(** [str.replace(old, new)]: every non-overlapping occurrence, left to
    right; [k] counts characters of the current occurrence still to be
    skipped.  For an empty [old], [new] goes before every character and at
    the end. *)
Fixpoint replace_go (old new : str) (k : nat) (t : str) : str :=
  match t with
  | [] => match old, k with [], O => new | _, _ => [] end
  | c :: t' =>
      match k with
      | S k' => replace_go old new k' t'
      | O =>
          match old with
          | [] => new ++ c :: replace_go old new 0 t'
          | _ :: _ =>
              if is_prefix old t then new ++ replace_go old new (length old - 1) t'
              else c :: replace_go old new 0 t'
          end
      end
  end.

Definition py_replace (t old new : str) : str := replace_go old new 0 t.

(** [dict.get(key, default)] on an association list in insertion order. *)
Fixpoint dict_get (d : list (str * str)) (key default : str) : str :=
  match d with
  | [] => default
  | (k, v) :: d' => if list_eq_dec Z.eq_dec k key then v else dict_get d' key default
  end.

Fixpoint dict_lookup (d : list (str * str)) (key : str) : option str :=
  match d with
  | [] => None
  | (k, v) :: d' => if list_eq_dec Z.eq_dec k key then Some v else dict_lookup d' key
  end.

Definition fix_output_label (LABEL_MAPPING : list (str * str)) (output : pyval)
  : result pyval :=
  if negb (truthy output) then Ok output          (* if not output: return output *)
  else match output with
       | VStr t =>
           match search_label t with
           | Some old_label =>
               let new_label := dict_get LABEL_MAPPING old_label old_label in
               Ok (VStr (py_replace t (open_tag ++ old_label ++ close_tag)
                                      (open_tag ++ new_label ++ close_tag)))
           | None => Ok output
           end
       | _ => Raise TypeError                      (* re.search on a non-str *)
       end.

(** ** [process_dataset]

    The body of the loop over one split: [output = example['output']]; an
    empty value is kept; otherwise [translate_text] then [fix_output_label],
    counting the record as changed when the result differs. *)
Definition transform_output (MEDICAL_TERMS LABEL_MAPPING : list (str * str)) (output : pyval)
  : result pyval :=
  if negb (truthy output) then Ok output
  else output1 <- translate_text MEDICAL_TERMS output ;;
       fix_output_label LABEL_MAPPING output1.

(** [for example in dataset[split]: ...] with the accumulators
    [outputs] and [changed]. *)
Fixpoint process_loop (MEDICAL_TERMS LABEL_MAPPING : list (str * str))
    (column : list pyval) (outputs : list pyval) (changed : nat)
  : result (list pyval * nat) :=
  match column with
  | [] => Ok (outputs, changed)
  | output :: rest =>
      if negb (truthy output) then
        process_loop MEDICAL_TERMS LABEL_MAPPING rest (outputs ++ [output]) changed
      else
        let original := output in
        output1 <- translate_text MEDICAL_TERMS output ;;
        output2 <- fix_output_label LABEL_MAPPING output1 ;;
        process_loop MEDICAL_TERMS LABEL_MAPPING rest (outputs ++ [output2])
          (if pyval_eqb output2 original then changed else S changed)
  end.

(** *** The record store ([datasets.Dataset], [DatasetDict])

    A split is an Arrow table: a row count and named columns in order.
    A [DatasetDict] maps split names to splits. *)
Record Dataset := mkDataset {
  num_rows : nat;
  columns : list (string * list pyval)
}.

Definition DatasetDict := list (string * Dataset).

Fixpoint col_lookup (name : string) (cols : list (string * list pyval)) : option (list pyval) :=
  match cols with
  | [] => None
  | (n, c) :: cols' => if String.eqb n name then Some c else col_lookup name cols'
  end.

(** [dataset[split]] *)
Fixpoint dd_get (name : string) (dd : DatasetDict) : result Dataset :=
  match dd with
  | [] => Raise KeyError
  | (n, ds) :: dd' => if String.eqb n name then Ok ds else dd_get name dd'
  end.

(** [dataset[split] = ds]: the value of an existing key is replaced in
    place; a new key is added at the end. *)
Fixpoint dd_set (name : string) (ds : Dataset) (dd : DatasetDict) : DatasetDict :=
  match dd with
  | [] => [(name, ds)]
  | (n, ds0) :: dd' =>
      if String.eqb n name then (n, ds) :: dd' else (n, ds0) :: dd_set name ds dd'
  end.

(** [example[name]] for every row, in row order: a missing column raises
    [KeyError] at the first row. *)
Definition read_column (name : string) (ds : Dataset) : result (list pyval) :=
  match col_lookup name (columns ds) with
  | Some c => Ok c
  | None => match num_rows ds with O => Ok [] | S _ => Raise KeyError end
  end.

Definition other_columns (name : string) (cols : list (string * list pyval))
  : list (string * list pyval) :=
  filter (fun nc => negb (String.eqb (fst nc) name)) cols.

(** [Dataset.remove_columns(name)]: [ValueError] for an unknown column. *)
Definition remove_columns (name : string) (ds : Dataset) : result Dataset :=
  match col_lookup name (columns ds) with
  | Some _ => Ok (mkDataset (num_rows ds) (other_columns name (columns ds)))
  | None => Raise ValueError
  end.

(** [Dataset.add_column(name, column)]: the new column goes last; a
    duplicate name or a column of the wrong length is refused. *)
Definition add_column (name : string) (column : list pyval) (ds : Dataset) : result Dataset :=
  match col_lookup name (columns ds) with
  | Some _ => Raise ValueError
  | None =>
      if (length column =? num_rows ds)%nat
      then Ok (mkDataset (num_rows ds) (columns ds ++ [(name, column)]))
      else Raise ValueError
  end.

(** One split: the loop over [dataset[split]] reading [example['output']]. *)
Definition process_split (MEDICAL_TERMS LABEL_MAPPING : list (str * str)) (ds : Dataset)
  : result (list pyval * nat) :=
  column <- read_column "output" ds ;;
  process_loop MEDICAL_TERMS LABEL_MAPPING column [] 0.

(** [process_dataset] after [load_from_disk] and before [save_to_disk]: the
    dataset that is saved and the two changed-counts that are reported. *)
Definition process_dataset (MEDICAL_TERMS LABEL_MAPPING : list (str * str)) (dataset : DatasetDict)
  : result (DatasetDict * (nat * nat)) :=
  train <- dd_get "train" dataset ;;
  train_r <- process_split MEDICAL_TERMS LABEL_MAPPING train ;;
  test <- dd_get "test" dataset ;;
  test_r <- process_split MEDICAL_TERMS LABEL_MAPPING test ;;
  train0 <- dd_get "train" dataset ;;
  train1 <- remove_columns "output" train0 ;;
  let dataset := dd_set "train" train1 dataset in
  train2 <- add_column "output" (fst train_r) train1 ;;
  let dataset := dd_set "train" train2 dataset in
  test0 <- dd_get "test" dataset ;;
  test1 <- remove_columns "output" test0 ;;
  let dataset := dd_set "test" test1 dataset in
  test2 <- add_column "output" (fst test_r) test1 ;;
  let dataset := dd_set "test" test2 dataset in
  Ok (dataset, (snd train_r, snd test_r)).

(** ** Concrete tables and inputs used below *)

Definition pibuam : str := [54588; 48512; 50516]%Z.   (* U+D53C U+BD80 U+C554 *)
Definition am : str := [50516]%Z.                     (* U+C554 *)
Definition baljin : str := [48156; 51652]%Z.          (* U+BC1C U+C9C4 *)

(** A split of three records with another column next to [output]. *)
Definition split3 : Dataset :=
  mkDataset 3
    [("input"%string, [VInt 1; VInt 2; VInt 3]);
     ("output"%string, [VStr (lit "skin cancer found"); VNone; VStr (lit "<label>old</label> ok")])].

(** The word-boundary reading of a match: the character before and the
    character after the [length pat] matched characters are non-word
    characters or string ends. *)
Definition bounded_by_nonword (pat : str) (prev : option Z) (t : str) : Prop :=
  word_opt prev = false /\ word_opt (nth_error t (length pat)) = false.


(** [t] contains the span [<label>INNER</label>] after [p], with an
    [INNER] the group [(.*?)] can match (no newline). *)
Definition label_span (t p inner r : str) : Prop :=
  t = p ++ open_tag ++ inner ++ close_tag ++ r /\ ~ In 10%Z inner.

(** ** Edits that keep a text free of term matches *)

(** The character before the end of [u], read after [prev]. *)
Fixpoint lastp (u : str) (prev : option Z) : option Z :=
  match u with
  | [] => prev
  | c :: u' => lastp u' (Some c)
  end.

(** No position of [t] (read after [prev]) matches [\bPAT\b]. *)
Fixpoint nomatch (pat : str) (prev : option Z) (t : str) : bool :=
  negb (matches_at pat prev t)
  && match t with [] => true | c :: t' => nomatch pat (Some c) t' end.

(** [ed F G prev t o]: [o] is [t] with some non-empty blocks replaced by
    non-empty blocks of characters satisfying [F], whose first and last
    characters are word characters exactly when those of the block they
    replace are; every kept character starts a position satisfying [G].
    Both [pattern.sub] and the [str.replace] of [fix_output_label] produce
    such an [o]. *)
Inductive ed (F : Z -> bool) (G : option Z -> str -> bool) : option Z -> str -> str -> Prop :=
| ed_nil prev : ed F G prev [] []
| ed_keep prev c t o :
    G prev (c :: t) = true -> ed F G (Some c) t o -> ed F G prev (c :: t) (c :: o)
| ed_swap prev u v t o :
    u <> [] -> v <> [] -> forallb F v = true ->
    word_opt (hd_error u) = word_opt (hd_error v) ->
    word_opt (lastp u None) = word_opt (lastp v None) ->
    ed F G (lastp u prev) t o -> ed F G prev (u ++ t) (v ++ o).

(** No character of a source term matches [x] ignoring case. *)
Definition foreign (MEDICAL_TERMS : list (str * str)) (x : Z) : bool :=
  forallb (fun y => negb (ci_eq y x)) (flat_map fst MEDICAL_TERMS).

Definition word_ends (s : str) : bool :=
  match s with
  | [] => false
  | c :: _ => is_word c && is_word (last s 0%Z)
  end.

(** A source term whose first and last characters match, ignoring case,
    only word characters. *)
Definition term_ends (s : str) : bool :=
  match s with
  | [] => false
  | c :: _ => word_class c && word_class (last s 0%Z)
  end.

(** Conditions on the term table under which the transform is idempotent:
    no character of a source term matches [<] or [>] ignoring case; every
    source term is non-empty and its first and last characters match,
    ignoring case, only word characters; every replacement is non-empty
    and starts and ends with a word character; a replacement has no
    backslash and no character that a character of a source term matches
    ignoring case. *)
Definition term_table_ok (MEDICAL_TERMS : list (str * str)) : bool :=
  foreign MEDICAL_TERMS 60 && foreign MEDICAL_TERMS 62
  && forallb (fun ek => term_ends (fst ek) && word_ends (snd ek)
                        && negb (existsb (Z.eqb 92) (snd ek))
                        && forallb (foreign MEDICAL_TERMS) (snd ek))
       MEDICAL_TERMS.

(** Conditions on the label map: a mapped value has no newline, no [<] and
    no character of a source term, and the map sends it to itself. *)
Definition label_table_ok (MEDICAL_TERMS LABEL_MAPPING : list (str * str)) : bool :=
  forallb (fun kv => negb (existsb (Z.eqb 10) (snd kv))
                     && negb (existsb (Z.eqb 60) (snd kv))
                     && forallb (foreign MEDICAL_TERMS) (snd kv)
                     && (if list_eq_dec Z.eq_dec (dict_get LABEL_MAPPING (snd kv) (snd kv)) (snd kv)
                         then true else false))
    LABEL_MAPPING.

(** The text [fix_output_label] returns for a [str] argument. *)
Definition fix_label_str (LABEL_MAPPING : list (str * str)) (t : str) : str :=
  match search_label t with
  | Some old_label =>
      py_replace t (open_tag ++ old_label ++ close_tag)
        (open_tag ++ dict_get LABEL_MAPPING old_label old_label ++ close_tag)
  | None => t
  end.

(** ** Definitions for the further properties *)

(** The number of positions where [after] differs from [before]: what the
    counters [train_changed] and [test_changed] count. *)
Fixpoint count_changed (before after : list pyval) : nat :=
  match before, after with
  | v :: before', w :: after' => (if pyval_eqb w v then 0 else 1) + count_changed before' after'
  | _, _ => 0
  end.

(** A split after [remove_columns("output")] then [add_column("output", outputs)]. *)
Definition with_output_last (ds : Dataset) (outputs : list pyval) : Dataset :=
  mkDataset (num_rows ds) (other_columns "output" (columns ds) ++ [("output"%string, outputs)]).

(** The [output] column [split3] gets with the term table
    [{"skin cancer": pibuam}] and the label map [{"old": "new"}]. *)
Definition fixed3_output : list pyval :=
  [VStr (pibuam ++ lit " found"); VNone; VStr (lit "<label>new</label> ok")].

(** A split without an [output] column, and an empty one. *)
Definition no_output3 : Dataset := mkDataset 3 [("input"%string, [VInt 1; VInt 2; VInt 3])].
Definition empty0 : Dataset := mkDataset 0 [("input"%string, [])].

(** * Proofs *)

Lemma insert_by_len_perm : forall x l, Permutation (x :: l) (insert_by_len x l).
Proof.
  intros x l; induction l as [|y l IH]; simpl; [reflexivity|].
  destruct (length (fst y) <=? length (fst x))%nat; [reflexivity|].
  rewrite perm_swap. constructor. exact IH.
Qed.

Lemma sort_terms_perm : forall l, Permutation l (sort_terms l).
Proof.
  induction l as [|x l IH]; simpl; [constructor|].
  rewrite <- insert_by_len_perm. constructor. exact IH.
Qed.



(** C3.  A truthy [output] that is not a [str] is not passed through:
    [translate_text] returns it, then [fix_output_label] calls
    [re.search] on it, which raises [TypeError]. *)
Theorem transform_output_nonstr_raises : forall terms labels v,
  truthy v = true -> (forall s, v <> VStr s) ->
  transform_output terms labels v = Raise TypeError.
Proof.
  intros terms labels v Ht Hns.
  destruct v as [|b|z|s]; [discriminate| | |exfalso; exact (Hns s eq_refl)];
    unfold transform_output, fix_output_label; simpl in *; rewrite Ht; reflexivity.
Qed.

Lemma transform_output_nonstr_raises_witness :
  truthy (VInt 1) = true /\ (forall s, VInt 1 <> VStr s)
  /\ transform_output [] [] (VInt 1) = Raise TypeError.
Proof.
  assert (H1 : truthy (VInt 1) = true) by reflexivity.
  assert (H2 : forall s, VInt 1 <> VStr s) by discriminate.
  split; [exact H1|]. split; [exact H2|].
  exact (transform_output_nonstr_raises [] [] (VInt 1) H1 H2).
Defined.

(** C4.  The replacement is a [re] template, not inserted verbatim: the
    two-character replacement [\n] inserts one newline character, and the
    replacement [\1] makes [translate_text] raise [re.error]. *)
Theorem translate_replacement_is_template :
  translate_text [(lit "x", lit "\n")] (VStr (lit "x")) = Ok (VStr [10%Z])
  /\ lit "\n" <> [10%Z]
  /\ translate_text [(lit "x", lit "\1")] (VStr (lit "x")) = Raise ReError.
Proof.
  split; [vm_compute; reflexivity|]. split; [discriminate|]. vm_compute; reflexivity.
Qed.

(** C5.  The spec's end-to-end scenario on one split. *)
Theorem process_split_scenario :
  process_split [(lit "skin cancer", pibuam)] [(lit "old", lit "new")] split3
  = Ok ([VStr (pibuam ++ lit " found"); VNone; VStr (lit "<label>new</label> ok")], 2%nat).
Proof. vm_compute. reflexivity. Qed.

(** *** Word characters and case folding *)

Lemma zlookup_in : forall (A : Type) k (l : list (Z * A)) v, zlookup k l = Some v -> In (k, v) l.
Proof.
  intros A k l v; induction l as [|[k' v'] l IH]; simpl; [discriminate|].
  destruct (k =? k')%Z eqn:E; [apply Z.eqb_eq in E; subst; intro H; injection H as <-; left; reflexivity|].
  intro H. right. exact (IH H).
Qed.

Lemma lower_table_word :
  forallb (fun cl => Bool.eqb (is_word (snd cl)) (is_word (fst cl))) lower_table = true.
Proof. vm_compute. reflexivity. Qed.

(** [tolower] never changes whether a character is a word character. *)
Lemma is_word_tolower : forall c, is_word (tolower c) = is_word c.
Proof.
  intro c. unfold tolower. destruct (zlookup c lower_table) as [l|] eqn:E; [|reflexivity].
  apply zlookup_in in E.
  pose proof lower_table_word as H. rewrite forallb_forall in H.
  apply H in E. simpl in E. apply eqb_prop in E. exact E.
Qed.

(** A text character matching [p] has the word-ness of some member of
    [case_set p]. *)
Lemma ci_eq_case_set : forall p c, ci_eq p c = true ->
  exists s, In s (case_set p) /\ is_word s = is_word c.
Proof.
  intros p c H. unfold ci_eq, case_set in *.
  destruct (iscased p); cbn [negb] in *.
  - destruct (zlookup (tolower p) extra_cases) as [fixes|].
    + apply existsb_exists in H as [s [Hs Heq]]. apply Z.eqb_eq in Heq.
      exists s. split; [exact Hs|]. rewrite <- Heq. apply is_word_tolower.
    + apply Z.eqb_eq in H. exists (tolower p). split; [left; reflexivity|].
      rewrite <- H. apply is_word_tolower.
  - apply Z.eqb_eq in H. subst c. exists p. split; [left|]; reflexivity.
Qed.

Lemma word_class_ci : forall p c, word_class p = true -> ci_eq p c = true -> is_word c = true.
Proof.
  intros p c Hw H. destruct (ci_eq_case_set p c H) as [s [Hs Hsw]].
  unfold word_class in Hw. rewrite forallb_forall in Hw. rewrite <- Hsw. exact (Hw s Hs).
Qed.

Lemma nonword_class_ci : forall p c, nonword_class p = true -> ci_eq p c = true -> is_word c = false.
Proof.
  intros p c Hw H. destruct (ci_eq_case_set p c H) as [s [Hs Hsw]].
  unfold nonword_class in Hw. rewrite forallb_forall in Hw.
  rewrite <- Hsw. apply negb_true_iff. exact (Hw s Hs).
Qed.

Lemma ci_eq_refl : forall p, ci_eq p p = true.
Proof.
  intro p. unfold ci_eq. destruct (iscased p); cbn [negb]; [|apply Z.eqb_refl].
  destruct (zlookup (tolower p) extra_cases); cbn [existsb]; rewrite Z.eqb_refl; reflexivity.
Qed.

Lemma word_class_is_word : forall p, word_class p = true -> is_word p = true.
Proof. intros p H. exact (word_class_ci p p H (ci_eq_refl p)). Qed.

(** The code points of a list of ranges. *)
Definition range_points (rs : list (Z * Z)) : list Z :=
  flat_map (fun r => map (fun i => fst r + Z.of_nat i)%Z (seq 0 (Z.to_nat (snd r - fst r + 1)))) rs.

Lemma in_ranges_points : forall c rs, in_ranges c rs = true -> In c (range_points rs).
Proof.
  intros c rs H. unfold in_ranges in H. apply existsb_exists in H as [[lo hi] [Hr Hin]].
  unfold in_range in Hin. simpl in Hin. apply andb_true_iff in Hin as [H1 H2].
  apply Z.leb_le in H1. apply Z.leb_le in H2.
  apply in_flat_map. exists (lo, hi). split; [exact Hr|]. simpl.
  apply in_map_iff. exists (Z.to_nat (c - lo)). split; [lia|].
  apply in_seq. lia.
Qed.

Lemma cased_classes :
  forallb (fun p => (negb (is_word p) || word_class p || existsb (Z.eqb p) [921; 953; 8126]%Z)
                    && (is_word p || nonword_class p || (p =? 837)%Z))
          (range_points cased_ranges) = true.
Proof. vm_compute. reflexivity. Qed.

Lemma class_of_uncased : forall p, iscased p = false -> case_set p = [p].
Proof. intros p H. unfold case_set. rewrite H. reflexivity. Qed.

Lemma prefix_ci_nth : forall pat t i, prefix_ci pat t = true -> (i < length pat)%nat ->
  exists c, nth_error t i = Some c /\ ci_eq (nth i pat 0%Z) c = true.
Proof.
  induction pat as [|p pat IH]; intros t i H Hi; simpl in Hi; [lia|].
  destruct t as [|c t]; [discriminate|]. simpl in H. apply andb_true_iff in H as [H1 H2].
  destruct i as [|i]; simpl.
  - exists c. auto.
  - apply IH; [exact H2 | lia].
Qed.

Lemma last_nth : forall (l : list Z) d, l <> [] -> last l d = nth (length l - 1) l d.
Proof.
  induction l as [|a l IH]; intros d H; [contradiction|].
  destruct l as [|b l]; [reflexivity|].
  transitivity (last (b :: l) d); [reflexivity|].
  rewrite IH by discriminate. simpl length.
  replace (S (S (length l)) - 1)%nat with (S (length l)) by lia.
  replace (S (length l) - 1)%nat with (length l) by lia. reflexivity.
Qed.

Lemma boundary_word_after : forall b a,
  boundary b a = true -> word_opt a = true -> word_opt b = false.
Proof. intros b a. unfold boundary. destruct (word_opt b), (word_opt a); simpl; congruence. Qed.

Lemma boundary_word_before : forall b a,
  boundary b a = true -> word_opt b = true -> word_opt a = false.
Proof. intros b a. unfold boundary. destruct (word_opt b), (word_opt a); simpl; congruence. Qed.

Lemma boundary_nonword_after : forall b a,
  boundary b a = true -> word_opt a = false -> word_opt b = true.
Proof. intros b a. unfold boundary. destruct (word_opt b), (word_opt a); simpl; congruence. Qed.

Lemma boundary_nonword_before : forall b a,
  boundary b a = true -> word_opt b = false -> word_opt a = true.
Proof. intros b a. unfold boundary. destruct (word_opt b), (word_opt a); simpl; congruence. Qed.

(** C7 (as amended).  Let [\bENG\b] match (ignoring case) at a position,
    [prev] being the character before it and [nth_error t (length eng)]
    the character after the match ([None] for a string end).  If every
    character that the first character of [eng] matches ignoring case is
    a word character ([word_class]), [prev] is a non-word character or
    the start; if every such character is a non-word character
    ([nonword_class]), [prev] is a word character; the same holds on the
    right for the last character of [eng].  Every word character is in
    the first case except U+0399, U+03B9 and U+1FBE (they also match the
    non-word U+0345), and every non-word character is in the second except
    U+0345.  With [{"rash": "발진"}] the text ["crash course"] is unchanged. *)
Theorem term_match_is_bounded :
  (forall eng prev t,
     eng <> [] -> matches_at eng prev t = true ->
     (word_class (hd 0%Z eng) = true -> word_opt prev = false)
     /\ (word_class (last eng 0%Z) = true -> word_opt (nth_error t (length eng)) = false)
     /\ (nonword_class (hd 0%Z eng) = true -> word_opt prev = true)
     /\ (nonword_class (last eng 0%Z) = true -> word_opt (nth_error t (length eng)) = true))
  /\ (forall p, is_word p = true -> word_class p = false -> In p [921; 953; 8126]%Z)
  /\ (forall p, is_word p = false -> nonword_class p = false -> p = 837%Z)
  /\ translate_text [(lit "rash", baljin)] (VStr (lit "crash course"))
     = Ok (VStr (lit "crash course")).
Proof.
  split; [|split; [|split]].
  - intros eng prev t Hne Hm.
    destruct eng as [|p ps]; [contradiction|].
    unfold matches_at in Hm. apply andb_true_iff in Hm as [Hm Hb2].
    apply andb_true_iff in Hm as [Hb1 Hp].
    assert (Hlen : (0 < length (p :: ps))%nat) by (simpl; lia).
    destruct (prefix_ci_nth _ _ 0 Hp Hlen) as [c0 [Hc0 Hci0]].
    assert (Hlen' : (length (p :: ps) - 1 < length (p :: ps))%nat) by (simpl; lia).
    destruct (prefix_ci_nth _ _ _ Hp Hlen') as [cl [Hcl Hcil]].
    cbn [nth] in Hci0. rewrite <- last_nth in Hcil by discriminate.
    destruct t as [|t0 t']; [discriminate|]. simpl in Hc0. injection Hc0 as <-.
    cbn [hd_error] in Hb1. cbn [hd].
    set (nx := nth_error (t0 :: t') (length (p :: ps))) in *.
    set (lx := nth_error (t0 :: t') (length (p :: ps) - 1)) in Hb2.
    assert (Hlx : lx = Some cl) by exact Hcl.
    rewrite Hlx in Hb2.
    split; [|split; [|split]]; intro Hc.
    + apply (boundary_word_after prev (Some t0)); [exact Hb1|].
      exact (word_class_ci _ _ Hc Hci0).
    + apply (boundary_word_before (Some cl)); [exact Hb2|].
      exact (word_class_ci _ _ Hc Hcil).
    + apply (boundary_nonword_after prev (Some t0)); [exact Hb1|].
      exact (nonword_class_ci _ _ Hc Hci0).
    + apply (boundary_nonword_before (Some cl)); [exact Hb2|].
      exact (nonword_class_ci _ _ Hc Hcil).
  - intros p Hw Hc.
    destruct (iscased p) eqn:Ec.
    + pose proof cased_classes as H. rewrite forallb_forall in H.
      specialize (H p (in_ranges_points _ _ Ec)).
      rewrite Hw, Hc in H. cbn [negb orb] in H.
      apply andb_true_iff in H as [H _].
      apply existsb_exists in H as [x [Hx Hpx]]. apply Z.eqb_eq in Hpx. subst x. exact Hx.
    + unfold word_class in Hc. rewrite class_of_uncased in Hc by exact Ec.
      simpl in Hc. rewrite Hw in Hc. discriminate.
  - intros p Hw Hc.
    destruct (iscased p) eqn:Ec.
    + pose proof cased_classes as H. rewrite forallb_forall in H.
      specialize (H p (in_ranges_points _ _ Ec)).
      rewrite Hw, Hc in H. cbn [negb orb] in H. rewrite andb_true_l in H.
      apply Z.eqb_eq. exact H.
    + unfold nonword_class in Hc. rewrite class_of_uncased in Hc by exact Ec.
      simpl in Hc. rewrite Hw in Hc. discriminate.
  - vm_compute. reflexivity.
Qed.

Lemma term_match_is_bounded_witness :
  (word_opt (Some 32%Z) = false /\ word_opt (nth_error (lit "rash course") 4) = false)
  /\ (word_opt (Some 120%Z) = true /\ word_opt (nth_error (lit "++y") 2) = true).
Proof.
  split.
  - destruct (proj1 term_match_is_bounded (lit "rash") (Some 32%Z) (lit "rash course")
                ltac:(discriminate) ltac:(vm_compute; reflexivity)) as [H1 [H2 _]].
    split; [apply H1 | apply H2]; vm_compute; reflexivity.
  - destruct (proj1 term_match_is_bounded (lit "++") (Some 120%Z) (lit "++y")
                ltac:(discriminate) ltac:(vm_compute; reflexivity)) as [_ [_ [H3 H4]]].
    split; [apply H3 | apply H4]; vm_compute; reflexivity.
Defined.

(** C7 as stated fails for a source term with a non-word last character:
    [\b] after [+] needs a word character next, so ["c++"] matches in
    ["c++y"] although ['y'] is a word character.  It also fails for the
    Greek iota, which matches the non-word U+0345 ignoring case: ["ι"]
    matches in ["x\u0345y"], between two word characters. *)
Lemma term_match_not_bounded_counterexample :
  ~ (forall eng prev t, matches_at eng prev t = true -> bounded_by_nonword eng prev t)
  /\ translate_text [(lit "c++", lit "C")] (VStr (lit "c++y")) = Ok (VStr (lit "Cy"))
  /\ translate_text [([953%Z], lit "Z")] (VStr [120; 837; 121]%Z) = Ok (VStr (lit "xZy")).
Proof.
  split; [|split; vm_compute; reflexivity].
  intro H.
  destruct (H (lit "c++") None (lit "c++y") ltac:(vm_compute; reflexivity)) as [_ H2].
  vm_compute in H2. discriminate.
Qed.

(** *** Tags, [re.search] and [str.replace] *)

Lemma open_tag_eq : open_tag = [60; 108; 97; 98; 101; 108; 62]%Z.
Proof. reflexivity. Qed.

Lemma close_tag_eq : close_tag = [60; 47; 108; 97; 98; 101; 108; 62]%Z.
Proof. reflexivity. Qed.

Lemma is_prefix_app : forall p u, is_prefix p (p ++ u) = true.
Proof. induction p as [|a p IH]; intro u; simpl; [reflexivity|]. rewrite Z.eqb_refl. apply IH. Qed.

Lemma is_prefix_true : forall p t, is_prefix p t = true -> exists u, t = p ++ u.
Proof.
  induction p as [|a p IH]; intros t H; [exists t; reflexivity|].
  destruct t as [|b t]; [discriminate|]. simpl in H. apply andb_true_iff in H as [H1 H2].
  apply Z.eqb_eq in H1. subst b. destruct (IH t H2) as [u ->]. exists u. reflexivity.
Qed.

Lemma is_prefix_lt : forall p c t, hd_error p = Some 60%Z -> c <> 60%Z -> is_prefix p (c :: t) = false.
Proof.
  intros p c t Hp Hc. destruct p as [|a p]; [discriminate|]. simpl in Hp. injection Hp as ->.
  cbn [is_prefix]. replace (60 =? c)%Z with false by (symmetry; apply Z.eqb_neq; congruence).
  reflexivity.
Qed.

Lemma label_match_at_nil : label_match_at [] = None.
Proof. reflexivity. Qed.

Lemma label_match_at_not_lt : forall c t, c <> 60%Z -> label_match_at (c :: t) = None.
Proof.
  intros c t Hc. unfold label_match_at. rewrite is_prefix_lt by (reflexivity || exact Hc). reflexivity.
Qed.

Lemma search_label_eq : forall t, search_label t =
  match label_match_at t with
  | Some g => Some g
  | None => match t with [] => None | _ :: t' => search_label t' end
  end.
Proof. destruct t; reflexivity. Qed.

Lemma search_label_skip : forall p u, ~ In 60%Z p -> search_label (p ++ u) = search_label u.
Proof.
  induction p as [|c p IH]; intros u Hp; [reflexivity|].
  simpl app. simpl search_label. rewrite label_match_at_not_lt by (intro; apply Hp; left; auto).
  apply IH. intro; apply Hp; right; auto.
Qed.

Lemma lazy_group_eq : forall t, lazy_group t =
  if is_prefix close_tag t then Some []
  else match t with
       | [] => None
       | c :: t' => if (c =? 10)%Z then None else option_map (cons c) (lazy_group t')
       end.
Proof. destruct t; reflexivity. Qed.

Lemma lazy_group_plain : forall g r, ~ In 10%Z g -> ~ In 60%Z g ->
  lazy_group (g ++ close_tag ++ r) = Some g.
Proof.
  induction g as [|c g IH]; intros r H10 H60; rewrite lazy_group_eq.
  - rewrite app_nil_l, is_prefix_app. reflexivity.
  - rewrite <- app_comm_cons, is_prefix_lt by (reflexivity || (intro; apply H60; left; auto)).
    replace (c =? 10)%Z with false by (symmetry; apply Z.eqb_neq; intro; apply H10; left; auto).
    rewrite IH; [reflexivity| |]; intro; [apply H10 | apply H60]; right; auto.
Qed.

Lemma label_match_at_tag : forall inner r, ~ In 10%Z inner -> ~ In 60%Z inner ->
  label_match_at (open_tag ++ inner ++ close_tag ++ r) = Some inner.
Proof.
  intros inner r H10 H60. unfold label_match_at. rewrite is_prefix_app.
  rewrite skipn_app, skipn_all, Nat.sub_diag. simpl. apply lazy_group_plain; assumption.
Qed.

Lemma replace_go_skip : forall old new l u,
  replace_go old new (length l) (l ++ u) = replace_go old new 0 u.
Proof. intros old new l u. induction l as [|c l IH]; [reflexivity|]. simpl. exact IH. Qed.

Lemma replace_go_old : forall old new u, old <> [] ->
  replace_go old new 0 (old ++ u) = new ++ replace_go old new 0 u.
Proof.
  intros old new u Hne. destruct old as [|o os]; [contradiction|].
  simpl app. cbn [replace_go].
  replace (is_prefix (o :: os) (o :: os ++ u)) with true by (symmetry; exact (is_prefix_app (o :: os) u)).
  replace (length (o :: os) - 1)%nat with (length os) by (simpl; lia).
  rewrite replace_go_skip. reflexivity.
Qed.

Lemma replace_go_keep : forall old new p u, hd_error old = Some 60%Z -> ~ In 60%Z p ->
  replace_go old new 0 (p ++ u) = p ++ replace_go old new 0 u.
Proof.
  intros old new p u Hold. induction p as [|c p IH]; intro Hp; [reflexivity|].
  destruct old as [|o os]; [discriminate|]. simpl app. cbn [replace_go].
  rewrite is_prefix_lt by (exact Hold || (intro; apply Hp; left; auto)).
  rewrite IH by (intro; apply Hp; right; auto). reflexivity.
Qed.

Lemma replace_go_same : forall old k t, replace_go old old k t = skipn k t.
Proof.
  intros old k t. revert k. induction t as [|c t IH]; intro k.
  - destruct old, k; reflexivity.
  - destruct k as [|k]; [|simpl; apply IH].
    destruct old as [|o os].
    + simpl. rewrite IH. reflexivity.
    + cbn [replace_go]. destruct (is_prefix (o :: os) (c :: t)) eqn:E.
      * apply is_prefix_true in E as [u Hu]. injection Hu as -> ->.
        rewrite IH. replace (length (o :: os) - 1)%nat with (length os) by (simpl; lia).
        rewrite skipn_app, skipn_all, Nat.sub_diag. reflexivity.
      * rewrite IH. reflexivity.
Qed.

Lemma dict_get_absent : forall d k def, dict_lookup d k = None -> dict_get d k def = def.
Proof.
  induction d as [|[k' v] d IH]; intros k def H; [reflexivity|]. simpl in *.
  destruct (list_eq_dec Z.eq_dec k' k); [discriminate|]. apply IH. exact H.
Qed.

(** C9.  When the [INNER] of the span [re.search] finds is not a key of the
    label map, [fix_output_label] returns the text unchanged. *)
Theorem fix_output_label_unmapped_identity : forall labels t inner,
  search_label t = Some inner -> dict_lookup labels inner = None ->
  fix_output_label labels (VStr t) = Ok (VStr t).
Proof.
  intros labels t inner Hs Hd. unfold fix_output_label.
  destruct (truthy (VStr t)); simpl; [|reflexivity].
  rewrite Hs, dict_get_absent by exact Hd.
  unfold py_replace. rewrite replace_go_same. reflexivity.
Qed.

Lemma fix_output_label_unmapped_identity_witness :
  search_label (lit "<label>B</label> text") = Some (lit "B")
  /\ dict_lookup [(lit "A", lit "X")] (lit "B") = None
  /\ fix_output_label [(lit "A", lit "X")] (VStr (lit "<label>B</label> text"))
     = Ok (VStr (lit "<label>B</label> text")).
Proof.
  assert (H1 : search_label (lit "<label>B</label> text") = Some (lit "B")) by (vm_compute; reflexivity).
  assert (H2 : dict_lookup [(lit "A", lit "X")] (lit "B") = None) by (vm_compute; reflexivity).
  split; [exact H1|]. split; [exact H2|].
  exact (fix_output_label_unmapped_identity _ _ _ H1 H2).
Defined.

(** C2 as stated fails: with two copies of [<label>A</label>] the second one
    is rewritten too. *)
Lemma fix_output_label_first_only_counterexample :
  fix_output_label [(lit "A", lit "X")] (VStr (lit "<label>A</label> <label>A</label>"))
    = Ok (VStr (lit "<label>X</label> <label>X</label>"))
  /\ fix_output_label [(lit "A", lit "X")] (VStr (lit "<label>A</label> <label>A</label>"))
    <> Ok (VStr (lit "<label>X</label> <label>A</label>")).
Proof. split; vm_compute; [reflexivity | discriminate]. Qed.

(** *** What [re.search(r'<label>(.*?)</label>', output)] finds *)

Lemma lazy_group_some : forall u g, lazy_group u = Some g ->
  (exists r, u = g ++ close_tag ++ r) /\ ~ In 10%Z g
  /\ (forall g' r', u = g' ++ close_tag ++ r' -> (length g <= length g')%nat).
Proof.
  induction u as [|c u IH]; intros g H; rewrite lazy_group_eq in H.
  - rewrite close_tag_eq in H. discriminate.
  - destruct (is_prefix close_tag (c :: u)) eqn:Ep.
    + injection H as <-. apply is_prefix_true in Ep as [r Hr].
      split; [exists r; exact Hr|]. split; [intros []|]. intros; simpl; lia.
    + destruct (c =? 10)%Z eqn:E10; [discriminate|].
      destruct (lazy_group u) as [g0|] eqn:Eg; [|discriminate]. simpl in H. injection H as <-.
      destruct (IH g0 eq_refl) as [[r Hr] [Hn Hs]].
      split; [exists r; rewrite Hr; reflexivity|].
      split; [intros [Hc|Hc]; [subst; discriminate | exact (Hn Hc)]|].
      intros g' r' Hu. destruct g' as [|c' g'].
      * rewrite app_nil_l in Hu. rewrite Hu, is_prefix_app in Ep. discriminate.
      * injection Hu as <- Hu. simpl. apply le_n_S. exact (Hs g' r' Hu).
Qed.

Lemma lazy_group_none : forall u, lazy_group u = None ->
  forall g r, ~ In 10%Z g -> u <> g ++ close_tag ++ r.
Proof.
  induction u as [|c u IH]; intros H g r Hg Hu.
  - destruct g; rewrite close_tag_eq in Hu; discriminate.
  - rewrite lazy_group_eq in H. destruct g as [|c' g].
    + rewrite app_nil_l in Hu. rewrite Hu, is_prefix_app in H. discriminate.
    + injection Hu as <- Hu.
      destruct (is_prefix close_tag (c :: u)); [discriminate|].
      destruct (c =? 10)%Z eqn:E10.
      * apply Hg. left. apply Z.eqb_eq. exact E10.
      * destruct (lazy_group u) eqn:Eg; [discriminate|].
        apply (IH eq_refl g r); [intro; apply Hg; right; assumption | exact Hu].
Qed.

Lemma label_match_at_some : forall u g, label_match_at u = Some g ->
  (exists r, u = open_tag ++ g ++ close_tag ++ r) /\ ~ In 10%Z g
  /\ (forall g' r', u = open_tag ++ g' ++ close_tag ++ r' -> (length g <= length g')%nat).
Proof.
  intros u g H. unfold label_match_at in H.
  destruct (is_prefix open_tag u) eqn:Ep; [|discriminate].
  apply is_prefix_true in Ep as [w ->].
  rewrite skipn_app, skipn_all, Nat.sub_diag in H. simpl in H.
  destruct (lazy_group_some w g H) as [[r Hr] [Hn Hs]].
  split; [exists r; rewrite Hr; reflexivity|]. split; [exact Hn|].
  intros g' r' Hu. apply app_inv_head in Hu. exact (Hs g' r' Hu).
Qed.

Lemma label_match_at_none : forall u, label_match_at u = None ->
  forall g r, ~ In 10%Z g -> u <> open_tag ++ g ++ close_tag ++ r.
Proof.
  intros u H g r Hg Hu. subst u. unfold label_match_at in H.
  rewrite is_prefix_app, skipn_app, skipn_all, Nat.sub_diag in H. simpl in H.
  exact (lazy_group_none _ H g r Hg eq_refl).
Qed.

Lemma search_label_some : forall t inner, search_label t = Some inner ->
  exists p r, label_span t p inner r
    /\ (forall p' i' r', label_span t p' i' r' -> (length p <= length p')%nat)
    /\ (forall i' r', label_span t p i' r' -> (length inner <= length i')%nat).
Proof.
  induction t as [|c t IH]; intros inner H; rewrite search_label_eq in H.
  - discriminate.
  - destruct (label_match_at (c :: t)) as [g|] eqn:Em.
    + injection H as <-. destruct (label_match_at_some _ _ Em) as [[r Hr] [Hn Hs]].
      exists [], r. split; [split; assumption|]. split; [intros; simpl; lia|].
      intros i' r' [Hu _]. exact (Hs i' r' Hu).
    + destruct (IH inner H) as [p [r [[Hr Hn] [Hleft Hshort]]]].
      exists (c :: p), r. split; [split; [rewrite Hr; reflexivity | exact Hn]|]. split.
      * intros p' i' r' [Hu Hi]. destruct p' as [|c' p'].
        -- exfalso. exact (label_match_at_none _ Em i' r' Hi Hu).
        -- injection Hu as <- Hu. simpl. apply le_n_S. exact (Hleft p' i' r' (conj Hu Hi)).
      * intros i' r' [Hu Hi]. injection Hu as Hu. exact (Hshort i' r' (conj Hu Hi)).
Qed.

Lemma search_label_none : forall t, search_label t = None ->
  forall p inner r, ~ label_span t p inner r.
Proof.
  induction t as [|c t IH]; intros H p inner r [Hu Hi].
  - destruct p; rewrite open_tag_eq in Hu; discriminate.
  - rewrite search_label_eq in H.
    destruct (label_match_at (c :: t)) eqn:Em; [discriminate|].
    destruct p as [|c' p].
    + exact (label_match_at_none _ Em inner r Hi Hu).
    + injection Hu as <- Hu. exact (IH H p inner r (conj Hu Hi)).
Qed.

(** C8 (as amended).  [fix_output_label] finds the leftmost span
    [<label>INNER</label>] whose [INNER] has no newline ([.] does not match
    ['\n']), with the shortest such [INNER] at that position (the first
    closing tag ends it), and rewrites the text through the label map with
    [INNER] as key; when the text has no such span it is returned
    unchanged. *)
Theorem fix_output_label_tag_span : forall labels t,
  ((exists p inner r, label_span t p inner r) ->
   exists p inner r,
     search_label t = Some inner /\ label_span t p inner r
     /\ (forall p' i' r', label_span t p' i' r' -> (length p <= length p')%nat)
     /\ (forall i' r', label_span t p i' r' -> (length inner <= length i')%nat)
     /\ fix_output_label labels (VStr t)
        = Ok (VStr (py_replace t (open_tag ++ inner ++ close_tag)
                                 (open_tag ++ dict_get labels inner inner ++ close_tag))))
  /\ ((forall p inner r, ~ label_span t p inner r) ->
      fix_output_label labels (VStr t) = Ok (VStr t)).
Proof.
  intros labels t. split.
  - intros [p0 [i0 [r0 Hspan]]].
    destruct (search_label t) as [inner|] eqn:Es.
    + destruct (search_label_some t inner Es) as [p [r [Hsp [Hleft Hshort]]]].
      exists p, inner, r. split; [reflexivity|]. split; [exact Hsp|].
      split; [exact Hleft|]. split; [exact Hshort|].
      unfold fix_output_label. destruct Hsp as [Ht _].
      replace (truthy (VStr t)) with true
        by (rewrite Ht, open_tag_eq; destruct p; reflexivity).
      simpl negb. cbv iota. rewrite Es. reflexivity.
    + exfalso. exact (search_label_none t Es p0 i0 r0 Hspan).
  - intros Hnone. unfold fix_output_label.
    destruct (truthy (VStr t)); [|reflexivity]. simpl negb. cbv iota.
    destruct (search_label t) as [inner|] eqn:Es; [|reflexivity].
    destruct (search_label_some t inner Es) as [p [r [Hsp _]]].
    exfalso. exact (Hnone p inner r Hsp).
Qed.

Lemma fix_output_label_tag_span_witness :
  fix_output_label [(lit "A", lit "X")] (VStr (lit "no tag here")) = Ok (VStr (lit "no tag here")).
Proof.
  apply (proj2 (fix_output_label_tag_span [(lit "A", lit "X")] (lit "no tag here"))).
  apply search_label_none. vm_compute. reflexivity.
Defined.

(** C8 as stated fails for an [INNER] with a newline: the text
    ["<label>a\nb</label>"] is exactly such a span, yet [re.search] finds
    nothing, so the mapped value for ["a\nb"] is never looked up. *)
Lemma fix_output_label_newline_counterexample :
  ~ (forall t p inner r, t = p ++ open_tag ++ inner ++ close_tag ++ r ->
       exists g, search_label t = Some g)
  /\ fix_output_label [(lit "a" ++ [10%Z] ++ lit "b", lit "X")]
       (VStr (open_tag ++ lit "a" ++ [10%Z] ++ lit "b" ++ close_tag))
     = Ok (VStr (open_tag ++ lit "a" ++ [10%Z] ++ lit "b" ++ close_tag)).
Proof.
  split; [|vm_compute; reflexivity].
  intro H.
  destruct (H (open_tag ++ lit "a" ++ [10%Z] ++ lit "b" ++ close_tag) [] (lit "a" ++ [10%Z] ++ lit "b") []
              ltac:(rewrite !app_nil_r, <- !app_assoc; reflexivity)) as [g Hg].
  vm_compute in Hg. discriminate.
Qed.

(** *** Rebuilding the [output] column *)

Lemma process_loop_spec : forall terms labels column outputs changed outs n,
  process_loop terms labels column outputs changed = Ok (outs, n) ->
  exists ws, outs = outputs ++ ws
    /\ Forall2 (fun v w => transform_output terms labels v = Ok w) column ws.
Proof.
  intros terms labels column. induction column as [|v column IH];
    intros outputs changed outs n H; simpl in H.
  - injection H as <- _. exists []. rewrite app_nil_r. split; [reflexivity | constructor].
  - destruct (truthy v) eqn:Et; simpl in H.
    + destruct (translate_text terms v) as [v1|e] eqn:E1; [|discriminate]. simpl in H.
      destruct (fix_output_label labels v1) as [v2|e] eqn:E2; [|discriminate]. simpl in H.
      destruct (IH _ _ _ _ H) as [ws [-> Hf]].
      exists (v2 :: ws). rewrite <- app_assoc. split; [reflexivity|].
      constructor; [|exact Hf].
      unfold transform_output. rewrite Et, E1. exact E2.
    + destruct (IH _ _ _ _ H) as [ws [-> Hf]].
      exists (v :: ws). rewrite <- app_assoc. split; [reflexivity|].
      constructor; [|exact Hf].
      unfold transform_output. rewrite Et. reflexivity.
Qed.

Lemma dd_get_set_same : forall name ds dd, dd_get name (dd_set name ds dd) = Ok ds.
Proof.
  intros name ds dd. induction dd as [|[n ds0] dd IH]; simpl.
  - rewrite String.eqb_refl. reflexivity.
  - destruct (String.eqb n name) eqn:E; simpl; rewrite E; [reflexivity | exact IH].
Qed.

Lemma dd_get_set_other : forall name name' ds dd, name <> name' ->
  dd_get name' (dd_set name ds dd) = dd_get name' dd.
Proof.
  intros name name' ds dd Hne. induction dd as [|[n ds0] dd IH]; simpl.
  - destruct (String.eqb name name') eqn:E; [apply String.eqb_eq in E; contradiction | reflexivity].
  - destruct (String.eqb n name) eqn:E; simpl.
    + apply String.eqb_eq in E. subst n.
      destruct (String.eqb name name') eqn:E'; [apply String.eqb_eq in E'; contradiction | reflexivity].
    + destruct (String.eqb n name'); [reflexivity | exact IH].
Qed.

Lemma col_lookup_app : forall name a b,
  col_lookup name (a ++ b) = match col_lookup name a with Some c => Some c | None => col_lookup name b end.
Proof.
  intros name a b. induction a as [|[n c] a IH]; simpl; [reflexivity|].
  destruct (String.eqb n name); [reflexivity | exact IH].
Qed.

Lemma col_lookup_other_columns : forall name cols, col_lookup name (other_columns name cols) = None.
Proof.
  intros name cols. induction cols as [|[n c] cols IH]; simpl; [reflexivity|].
  destruct (String.eqb n name) eqn:E; simpl; [exact IH|]. rewrite E. exact IH.
Qed.

Lemma other_columns_rebuilt : forall name cols column,
  other_columns name (other_columns name cols ++ [(name, column)]) = other_columns name cols.
Proof.
  intros name cols column. unfold other_columns.
  rewrite filter_app. simpl. rewrite String.eqb_refl, app_nil_r.
  induction cols as [|[n c] cols IH]; simpl; [reflexivity|].
  destruct (String.eqb n name) eqn:E; simpl; [exact IH|]. rewrite E. simpl. f_equal. exact IH.
Qed.

(** Dropping and re-adding a column keeps the row count and the other
    columns and makes the new values the column's content. *)
Lemma rebuild_column : forall name column ds ds1 ds2,
  remove_columns name ds = Ok ds1 -> add_column name column ds1 = Ok ds2 ->
  (exists before, col_lookup name (columns ds) = Some before)
  /\ col_lookup name (columns ds2) = Some column
  /\ length column = num_rows ds
  /\ num_rows ds2 = num_rows ds
  /\ other_columns name (columns ds2) = other_columns name (columns ds).
Proof.
  intros name column ds ds1 ds2 H1 H2. unfold remove_columns in H1.
  destruct (col_lookup name (columns ds)) as [before|] eqn:Eb; [|discriminate].
  injection H1 as <-. unfold add_column in H2. simpl in H2.
  rewrite col_lookup_other_columns in H2.
  destruct (length column =? num_rows ds)%nat eqn:El; [|discriminate].
  injection H2 as <-. simpl. apply Nat.eqb_eq in El.
  split; [exists before; reflexivity|].
  split; [rewrite col_lookup_app, col_lookup_other_columns; simpl; rewrite String.eqb_refl; reflexivity|].
  split; [exact El|]. split; [reflexivity|]. apply other_columns_rebuilt.
Qed.

Ltac bind_ok H :=
  match type of H with
  | bind ?m _ = Ok _ =>
      let E := fresh "E" in
      destruct m eqn:E; [cbn [bind] in H | discriminate H]
  end.

Lemma process_split_spec : forall terms labels ds outs n before,
  process_split terms labels ds = Ok (outs, n) ->
  col_lookup "output" (columns ds) = Some before ->
  Forall2 (fun v w => transform_output terms labels v = Ok w) before outs.
Proof.
  intros terms labels ds outs n before H Hb. unfold process_split, read_column in H.
  rewrite Hb in H. cbn [bind] in H.
  destruct (process_loop_spec _ _ _ _ _ _ _ H) as [ws [-> Hf]]. exact Hf.
Qed.

(** C6.  In every completed run, for [train] and for [test]: the saved
    split's [output] column has as many values as the loaded one, the value
    at position [i] is the transform of the value at position [i], the row
    count is the same, and every other column is unchanged. *)
Theorem process_dataset_frame : forall terms labels dataset saved counts split,
  process_dataset terms labels dataset = Ok (saved, counts) ->
  split = "train"%string \/ split = "test"%string ->
  exists ds ds' before after,
    dd_get split dataset = Ok ds /\ dd_get split saved = Ok ds'
    /\ col_lookup "output" (columns ds) = Some before
    /\ col_lookup "output" (columns ds') = Some after
    /\ length after = length before
    /\ Forall2 (fun v w => transform_output terms labels v = Ok w) before after
    /\ num_rows ds' = num_rows ds
    /\ other_columns "output" (columns ds') = other_columns "output" (columns ds).
Proof.
  intros terms labels dataset saved counts split H Hsplit.
  unfold process_dataset in H.
  repeat (cbv zeta in H; bind_ok H).
  injection H as <- _.
  rename a into train, a0 into train_r, a1 into test, a2 into test_r,
         a3 into train1, a4 into train2, a5 into test0, a6 into test1, a7 into test2.
  rewrite dd_get_set_other, dd_get_set_other, E1 in E5 by discriminate.
  injection E5 as <-.
  destruct train_r as [train_outs train_n], test_r as [test_outs test_n].
  cbn [fst] in *.
  destruct Hsplit as [-> | ->].
  - destruct (rebuild_column _ _ _ _ _ E3 E4) as [[before Hb] [Ha [Hl [Hn Ho]]]].
    exists train, train2, before, train_outs.
    split; [exact E|].
    split; [rewrite !dd_get_set_other by discriminate; apply dd_get_set_same|].
    split; [exact Hb|]. split; [exact Ha|].
    pose proof (process_split_spec _ _ _ _ _ _ E0 Hb) as Hf.
    split; [symmetry; exact (Forall2_length Hf)|].
    split; [exact Hf|]. split; [exact Hn | exact Ho].
  - destruct (rebuild_column _ _ _ _ _ E6 E7) as [[before Hb] [Ha [Hl [Hn Ho]]]].
    exists test, test2, before, test_outs.
    split; [exact E1|].
    split; [apply dd_get_set_same|].
    split; [exact Hb|]. split; [exact Ha|].
    pose proof (process_split_spec _ _ _ _ _ _ E2 Hb) as Hf.
    split; [symmetry; exact (Forall2_length Hf)|].
    split; [exact Hf|]. split; [exact Hn | exact Ho].
Qed.

Lemma process_dataset_frame_witness :
  process_dataset [(lit "skin cancer", pibuam)] [(lit "old", lit "new")]
    [("train"%string, split3); ("test"%string, split3)]
  = Ok ([("train"%string, mkDataset 3
           [("input"%string, [VInt 1; VInt 2; VInt 3]);
            ("output"%string, [VStr (pibuam ++ lit " found"); VNone; VStr (lit "<label>new</label> ok")])]);
         ("test"%string, mkDataset 3
           [("input"%string, [VInt 1; VInt 2; VInt 3]);
            ("output"%string, [VStr (pibuam ++ lit " found"); VNone; VStr (lit "<label>new</label> ok")])])],
        (2, 2))
  /\ exists ds ds' before after,
    dd_get "train" [("train"%string, split3); ("test"%string, split3)] = Ok ds
    /\ dd_get "train" [("train"%string, mkDataset 3
           [("input"%string, [VInt 1; VInt 2; VInt 3]);
            ("output"%string, [VStr (pibuam ++ lit " found"); VNone; VStr (lit "<label>new</label> ok")])]);
         ("test"%string, mkDataset 3
           [("input"%string, [VInt 1; VInt 2; VInt 3]);
            ("output"%string, [VStr (pibuam ++ lit " found"); VNone; VStr (lit "<label>new</label> ok")])])] = Ok ds'
    /\ col_lookup "output" (columns ds) = Some before
    /\ col_lookup "output" (columns ds') = Some after
    /\ length after = length before
    /\ Forall2 (fun v w => transform_output [(lit "skin cancer", pibuam)] [(lit "old", lit "new")] v = Ok w) before after
    /\ num_rows ds' = num_rows ds
    /\ other_columns "output" (columns ds') = other_columns "output" (columns ds).
Proof.
  assert (H : process_dataset [(lit "skin cancer", pibuam)] [(lit "old", lit "new")]
    [("train"%string, split3); ("test"%string, split3)]
  = Ok ([("train"%string, mkDataset 3
           [("input"%string, [VInt 1; VInt 2; VInt 3]);
            ("output"%string, [VStr (pibuam ++ lit " found"); VNone; VStr (lit "<label>new</label> ok")])]);
         ("test"%string, mkDataset 3
           [("input"%string, [VInt 1; VInt 2; VInt 3]);
            ("output"%string, [VStr (pibuam ++ lit " found"); VNone; VStr (lit "<label>new</label> ok")])])],
        (2, 2))) by (vm_compute; reflexivity).
  split; [exact H|].
  exact (process_dataset_frame _ _ _ _ _ "train"%string H (or_introl eq_refl)).
Defined.


(** ** Idempotence of the transform *)

Lemma matches_at_prefix_false : forall q prev t,
  prefix_ci q t = false -> matches_at q prev t = false.
Proof. intros q prev t H. unfold matches_at. rewrite H, andb_false_r. reflexivity. Qed.

Lemma prefix_ci_nil : forall q, q <> [] -> prefix_ci q [] = false.
Proof. intros [|a q] H; [contradiction | reflexivity]. Qed.

Lemma matches_at_wordy : forall q prev t, q <> [] ->
  word_class (hd 0%Z q) = true -> word_class (last q 0%Z) = true ->
  matches_at q prev t
  = negb (word_opt prev) && prefix_ci q t && negb (word_opt (nth_error t (length q))).
Proof.
  intros q prev t Hne Hh Hl. destruct (prefix_ci q t) eqn:Ep.
  - unfold matches_at. rewrite Ep.
    destruct q as [|a q']; [contradiction|].
    destruct (prefix_ci_nth _ _ 0 Ep) as [c [Hc Hac]]; [simpl; lia|].
    destruct (prefix_ci_nth _ _ (length (a :: q') - 1) Ep) as [l [Hlt Hal]]; [simpl; lia|].
    rewrite <- last_nth in Hal by discriminate.
    cbn [nth] in Hac. simpl in Hh.
    apply (word_class_ci _ _ Hh) in Hac. apply (word_class_ci _ _ Hl) in Hal.
    destruct t as [|c0 t]; [discriminate|]. simpl in Hc. injection Hc as ->.
    cbn [hd_error]. rewrite Hlt. unfold boundary. cbn [word_opt].
    rewrite Hac, Hal. destruct (word_opt prev), (word_opt (nth_error _ _)); reflexivity.
  - rewrite matches_at_prefix_false by exact Ep. rewrite andb_false_r. reflexivity.
Qed.

Lemma lastp_word : forall e m t prev, e <> [] -> word_class (last e 0%Z) = true ->
  length m = length e -> prefix_ci e (m ++ t) = true -> word_opt (lastp m prev) = true.
Proof.
  induction e as [|a e IH]; intros m t prev Hne Hl Hlen Hp; [contradiction|].
  destruct m as [|c m]; [discriminate|]. simpl in Hlen. injection Hlen as Hlen.
  cbn [app prefix_ci] in Hp. apply andb_true_iff in Hp as [Hac Hp].
  destruct e as [|b e].
  - destruct m; [|discriminate]. simpl. simpl in Hl. exact (word_class_ci _ _ Hl Hac).
  - cbn [lastp]. apply (IH m t); [discriminate | exact Hl | exact Hlen | exact Hp].
Qed.

Lemma lastp_nonempty : forall u p p', u <> [] -> lastp u p = lastp u p'.
Proof.
  intros [|c u] p p' H; [contradiction|]. reflexivity.
Qed.

Lemma lastp_last : forall u p, u <> [] -> lastp u p = Some (last u 0%Z).
Proof.
  induction u as [|c u IH]; intros p H; [contradiction|].
  destruct u as [|d u]; [reflexivity|].
  change (lastp (d :: u) (Some c) = Some (last (c :: d :: u) 0%Z)).
  rewrite IH by discriminate. reflexivity.
Qed.

Lemma nomatch_app : forall q u t prev,
  nomatch q prev (u ++ t) = true -> nomatch q (lastp u prev) t = true.
Proof.
  induction u as [|c u IH]; intros t prev H; [exact H|].
  cbn [app nomatch] in H. apply andb_true_iff in H as [_ H]. exact (IH _ _ H).
Qed.

Lemma nomatch_foreign_block : forall q v o pw, q <> [] ->
  (forall x, In x v -> forall y, In y q -> ci_eq y x = false) ->
  nomatch q (lastp v pw) o = true -> nomatch q pw (v ++ o) = true.
Proof.
  intros q v. induction v as [|x v IH]; intros o pw Hq Hf H; [exact H|].
  cbn [app nomatch]. apply andb_true_iff. split.
  - destruct q as [|a q]; [contradiction|].
    rewrite matches_at_prefix_false; [reflexivity|].
    cbn [prefix_ci]. rewrite (Hf x (or_introl eq_refl) a (or_introl eq_refl)). reflexivity.
  - apply IH; [exact Hq | intros x' Hx'; apply Hf; right; exact Hx' | exact H].
Qed.

Section Edit.

Variable F : Z -> bool.
Variable G : option Z -> str -> bool.

Lemma ed_window : forall prev t o, ed F G prev t o ->
  forall q, (forall x, F x = true -> forall y, In y q -> ci_eq y x = false) ->
  prefix_ci q o = true ->
  prefix_ci q t = true
  /\ word_opt (nth_error o (length q)) = word_opt (nth_error t (length q)).
Proof.
  intros prev t o Hed. induction Hed as [prev|prev c t o HG Hed IH|prev u v t o Hu Hv HF Hh Hl Hed IH];
    intros q Hq Hp.
  - destruct q; [split; reflexivity | discriminate].
  - destruct q as [|a q]; [split; reflexivity|].
    cbn [prefix_ci] in Hp. apply andb_true_iff in Hp as [Hac Hp].
    destruct (IH q (fun x Hx y Hy => Hq x Hx y (or_intror Hy)) Hp) as [Hp' Hn].
    split; [cbn [prefix_ci]; rewrite Hac, Hp'; reflexivity | exact Hn].
  - destruct q as [|a q].
    + split; [reflexivity|]. destruct u as [|x u]; [contradiction|].
      destruct v as [|y v]; [contradiction|]. exact (eq_sym Hh).
    + destruct v as [|y v]; [contradiction|]. cbn [app prefix_ci] in Hp.
      simpl in HF. apply andb_true_iff in HF as [HF _].
      rewrite (Hq y HF a (or_introl eq_refl)) in Hp. discriminate.
Qed.

Lemma ed_nomatch : forall prev t o, ed F G prev t o ->
  forall q, q <> [] -> word_class (hd 0%Z q) = true -> word_class (last q 0%Z) = true ->
  (forall x, F x = true -> forall y, In y q -> ci_eq y x = false) ->
  (forall p s, G p s = true -> matches_at q p s = false) \/ nomatch q prev t = true ->
  forall pw, word_opt pw = word_opt prev -> nomatch q pw o = true.
Proof.
  intros prev t o Hed. induction Hed as [prev|prev c t o HG Hed IH|prev u v t o Hu Hv HF Hh Hl Hed IH];
    intros q Hne Hh1 Hl1 Hq Hgq pw Hpw.
  - cbn [nomatch]. rewrite matches_at_prefix_false by (apply prefix_ci_nil; exact Hne).
    reflexivity.
  - cbn [nomatch]. apply andb_true_iff. split.
    + apply negb_true_iff. destruct (matches_at q pw (c :: o)) eqn:Em; [|reflexivity].
      exfalso. rewrite matches_at_wordy in Em by assumption.
      apply andb_true_iff in Em as [Em Hn]. apply andb_true_iff in Em as [Hw Hp].
      destruct (ed_window _ _ _ (ed_keep F G prev c t o HG Hed) q Hq Hp) as [Hp' Hn'].
      assert (Hm : matches_at q prev (c :: t) = true).
      { rewrite matches_at_wordy by assumption. rewrite <- Hpw, Hw, Hp', <- Hn', Hn. reflexivity. }
      destruct Hgq as [Hg | Hg].
      * rewrite (Hg _ _ HG) in Hm. discriminate.
      * cbn [nomatch] in Hg. rewrite Hm in Hg. discriminate.
    + apply (IH q Hne Hh1 Hl1 Hq); [|reflexivity].
      destruct Hgq as [Hg | Hg]; [left; exact Hg | right].
      cbn [nomatch] in Hg. apply andb_true_iff in Hg as [_ Hg]. exact Hg.
  - apply nomatch_foreign_block; [exact Hne| |].
    + intros x Hx y Hy. apply (Hq x); [|exact Hy].
      rewrite forallb_forall in HF. exact (HF x Hx).
    + apply (IH q Hne Hh1 Hl1 Hq).
      * destruct Hgq as [Hg | Hg]; [left; exact Hg | right]. exact (nomatch_app _ _ _ _ Hg).
      * rewrite (lastp_nonempty v pw None Hv), (lastp_nonempty u prev None Hu). exact (eq_sym Hl).
Qed.

End Edit.

Lemma sub_go_skip : forall p items u w prev,
  sub_go p items (length u) prev (u ++ w) = sub_go p items 0 (lastp u prev) w.
Proof. intros p items u. induction u as [|c u IH]; intros w prev; [reflexivity|]. simpl. apply IH. Qed.

Lemma expand_lits : forall k m, expand (map TLit k) m = k.
Proof. induction k as [|c k IH]; intro m; [reflexivity|]. simpl. f_equal. apply IH. Qed.

Lemma prefix_ci_length : forall q t, prefix_ci q t = true -> (length q <= length t)%nat.
Proof.
  induction q as [|a q IH]; intros t H; [simpl; lia|].
  destruct t as [|c t]; [discriminate|]. cbn [prefix_ci] in H.
  apply andb_true_iff in H as [_ H]. simpl. apply IH in H. lia.
Qed.

Lemma word_ends_spec : forall s, word_ends s = true ->
  s <> [] /\ is_word (hd 0%Z s) = true /\ is_word (last s 0%Z) = true.
Proof.
  intros [|c s] H; [discriminate|]. simpl in H. apply andb_true_iff in H as [H1 H2].
  split; [discriminate|]. split; [exact H1 | exact H2].
Qed.

Lemma term_ends_spec : forall s, term_ends s = true ->
  s <> [] /\ word_class (hd 0%Z s) = true /\ word_class (last s 0%Z) = true.
Proof.
  intros [|c s] H; [discriminate|]. simpl in H. apply andb_true_iff in H as [H1 H2].
  split; [discriminate|]. split; [exact H1 | exact H2].
Qed.

Lemma sub_go_ed : forall F e k, e <> [] -> word_class (hd 0%Z e) = true -> word_class (last e 0%Z) = true ->
  word_ends k = true -> forallb F k = true ->
  forall t prev, ed F (fun p s => negb (matches_at e p s)) prev t (sub_go e (map TLit k) 0 prev t).
Proof.
  intros F e k He Hh Hl Hk HF.
  destruct (word_ends_spec k Hk) as [Hkne [Hkh Hkl]].
  assert (M : forall n t prev, (length t <= n)%nat ->
    ed F (fun p s => negb (matches_at e p s)) prev t (sub_go e (map TLit k) 0 prev t)).
  { induction n as [|n IH]; intros t prev Hlen.
    - destruct t; [|simpl in Hlen; lia]. cbn [sub_go].
      rewrite matches_at_prefix_false by (apply prefix_ci_nil; exact He). apply ed_nil.
    - destruct t as [|c t].
      + cbn [sub_go]. rewrite matches_at_prefix_false by (apply prefix_ci_nil; exact He).
        apply ed_nil.
      + cbn [sub_go]. destruct (matches_at e prev (c :: t)) eqn:Em.
        * destruct e as [|a e']; [contradiction|].
          rewrite expand_lits.
          assert (Hp : prefix_ci (a :: e') (c :: t) = true).
          { unfold matches_at in Em. apply andb_true_iff in Em as [Em _].
            apply andb_true_iff in Em as [_ Em]. exact Em. }
          pose proof (prefix_ci_length _ _ Hp) as Hle. simpl in Hle.
          set (m' := firstn (length e') t). set (w := skipn (length e') t).
          assert (Ht : t = m' ++ w) by (symmetry; apply firstn_skipn).
          assert (Hm' : length m' = length e') by (apply firstn_length_le; lia).
          replace (length (a :: e') - 1)%nat with (length m') by (simpl; lia).
          rewrite Ht, sub_go_skip.
          change (c :: m' ++ w) with ((c :: m') ++ w).
          apply ed_swap.
          -- discriminate.
          -- exact Hkne.
          -- exact HF.
          -- cbn [prefix_ci] in Hp. apply andb_true_iff in Hp as [Hac _].
             simpl in Hh. apply (word_class_ci _ _ Hh) in Hac.
             destruct k as [|y k']; [contradiction|]. simpl. simpl in Hkh. congruence.
          -- rewrite (lastp_last k None Hkne). cbn [word_opt]. rewrite Hkl.
             apply (lastp_word (a :: e') (c :: m') w None); [discriminate | exact Hl | simpl; lia |].
             cbn [app]. rewrite <- Ht. exact Hp.
          -- apply IH. simpl in Hlen. rewrite Ht, length_app in Hlen. lia.
        * apply ed_keep; [rewrite Em; reflexivity|]. apply IH. simpl in Hlen. lia. }
  intros t prev. apply (M (length t)). lia.
Qed.

Lemma sub_go_nomatch : forall p items t prev, nomatch p prev t = true ->
  sub_go p items 0 prev t = t.
Proof.
  intros p items. induction t as [|c t IH]; intros prev H; cbn [nomatch] in H;
    apply andb_true_iff in H as [H1 H2]; apply negb_true_iff in H1; cbn [sub_go]; rewrite H1.
  - reflexivity.
  - f_equal. apply IH. exact H2.
Qed.

Lemma tokenize_plain : forall k, existsb (Z.eqb 92) k = false ->
  tokenize k = (map TChar k, false).
Proof.
  induction k as [|c k IH]; intro Hb; [reflexivity|].
  cbn [existsb] in Hb. apply orb_false_iff in Hb as [Hc Hb].
  cbn [tokenize]. rewrite Z.eqb_sym, Hc, IH by exact Hb. reflexivity.
Qed.

Lemma parse_toks_plain : forall k fuel, (length k < fuel)%nat ->
  parse_toks fuel (map TChar k) false = Ok (map TLit k).
Proof.
  induction k as [|c k IH]; intros fuel Hf; (destruct fuel as [|fuel]; [simpl in Hf; lia|]).
  - reflexivity.
  - cbn [map parse_toks]. replace (advance (map TChar k) false) with (Ok tt : result unit)
      by (destruct k; reflexivity).
    cbn [bind]. unfold cons_items. rewrite IH by (simpl in Hf; lia). reflexivity.
Qed.

(** A replacement without a backslash is a template of literal characters. *)
Lemma parse_template_plain : forall k, existsb (Z.eqb 92) k = false ->
  parse_template k = Ok (map TLit k).
Proof.
  intros k Hb. unfold parse_template. rewrite tokenize_plain by exact Hb.
  replace (advance (map TChar k) false) with (Ok tt : result unit) by (destruct k; reflexivity).
  cbn [bind]. apply parse_toks_plain. rewrite length_map. lia.
Qed.

Lemma pattern_sub_plain : forall e k t, existsb (Z.eqb 92) k = false ->
  pattern_sub e k t = Ok (sub_go e (map TLit k) 0 None t).
Proof.
  intros e k t Hb. unfold pattern_sub. rewrite parse_template_plain by exact Hb. reflexivity.
Qed.

Lemma foreign_src : forall terms x, foreign terms x = true ->
  forall q, In q (map fst terms) -> forall y, In y q -> ci_eq y x = false.
Proof.
  intros terms x H q Hq y Hy. unfold foreign in H. rewrite forallb_forall in H.
  apply negb_true_iff. apply H. apply in_flat_map.
  apply in_map_iff in Hq as [[e k] [He Hin]]. simpl in He. subst e.
  exists (q, k). split; [exact Hin | exact Hy].
Qed.

Lemma term_table_ok_spec : forall terms, term_table_ok terms = true ->
  foreign terms 60 = true /\ foreign terms 62 = true
  /\ forall e k, In (e, k) terms ->
       term_ends e = true /\ word_ends k = true /\ existsb (Z.eqb 92) k = false
       /\ forallb (foreign terms) k = true.
Proof.
  intros terms H. unfold term_table_ok in H.
  apply andb_true_iff in H as [H H3]. apply andb_true_iff in H as [H1 H2].
  split; [exact H1|]. split; [exact H2|].
  intros e k Hin. rewrite forallb_forall in H3. specialize (H3 _ Hin). simpl in H3.
  apply andb_true_iff in H3 as [H3 H6]. apply andb_true_iff in H3 as [H3 H5].
  apply andb_true_iff in H3 as [H3 H4].
  split; [exact H3|]. split; [exact H4|]. split; [apply negb_true_iff; exact H5 | exact H6].
Qed.

Lemma term_source_ok : forall terms q, term_table_ok terms = true -> In q (map fst terms) ->
  q <> [] /\ word_class (hd 0%Z q) = true /\ word_class (last q 0%Z) = true.
Proof.
  intros terms q H Hq. destruct (term_table_ok_spec _ H) as [_ [_ Ht]].
  apply in_map_iff in Hq as [[e k] [He Hin]]. simpl in He. subst e.
  destruct (Ht _ _ Hin) as [Hw _]. exact (term_ends_spec _ Hw).
Qed.

Lemma apply_terms_nomatch : forall terms L t t',
  term_table_ok terms = true -> incl L terms -> apply_terms L t = Ok t' ->
  forall q, In q (map fst terms) -> nomatch q None t = true \/ In q (map fst L) ->
  nomatch q None t' = true.
Proof.
  intros terms L. induction L as [|[e k] L IH]; intros t t' Hok Hincl H q Hq Hnm.
  - cbn [apply_terms] in H. injection H as <-.
    destruct Hnm as [Hnm | []]. exact Hnm.
  - destruct (term_table_ok_spec _ Hok) as [_ [_ Ht]].
    assert (Hek : In (e, k) terms) by (apply Hincl; left; reflexivity).
    destruct (Ht _ _ Hek) as [He [Hk [Hb HF]]].
    destruct (term_ends_spec _ He) as [Hene [Heh Hel]].
    cbn [apply_terms] in H. rewrite pattern_sub_plain in H by exact Hb. cbn [bind] in H.
    pose proof (sub_go_ed (foreign terms) e k Hene Heh Hel Hk HF t None) as Hed.
    destruct (term_source_ok _ _ Hok Hq) as [Hqne [Hqh Hql]].
    assert (Hqf : forall x, foreign terms x = true -> forall y, In y q -> ci_eq y x = false)
      by (intros x Hx; exact (foreign_src _ _ Hx q Hq)).
    apply (IH _ _ Hok (fun a Ha => Hincl a (or_intror Ha)) H q Hq).
    destruct Hnm as [Hnm | [Heq | Hin]].
    + left. exact (ed_nomatch _ _ _ _ _ Hed q Hqne Hqh Hql Hqf (or_intror Hnm) None eq_refl).
    + left. simpl in Heq. subst q.
      apply (ed_nomatch _ _ _ _ _ Hed e Hqne Hqh Hql Hqf); [|reflexivity].
      left. intros p s Hg. apply negb_true_iff. exact Hg.
    + right. exact Hin.
Qed.

Lemma apply_terms_id : forall L t,
  (forall e k, In (e, k) L -> existsb (Z.eqb 92) k = false /\ nomatch e None t = true) ->
  apply_terms L t = Ok t.
Proof.
  induction L as [|[e k] L IH]; intros t H; [reflexivity|].
  destruct (H e k (or_introl eq_refl)) as [Hb Hn].
  cbn [apply_terms]. rewrite pattern_sub_plain by exact Hb. cbn [bind].
  rewrite sub_go_nomatch by exact Hn. apply IH. intros e' k' Hin. apply H. right. exact Hin.
Qed.

Lemma ed_keeps : forall F l prev t o, ed F (fun _ _ => true) (lastp l prev) t o ->
  ed F (fun _ _ => true) prev (l ++ t) (l ++ o).
Proof.
  intros F l. induction l as [|c l IH]; intros prev t o H; [exact H|].
  simpl. apply ed_keep; [reflexivity|]. apply IH. exact H.
Qed.

Lemma replace_go_ed_gen : forall F o os new l1 u v l2,
  o :: os = l1 ++ u ++ l2 -> new = l1 ++ v ++ l2 ->
  u <> [] -> v <> [] -> forallb F v = true ->
  word_opt (hd_error u) = word_opt (hd_error v) ->
  word_opt (lastp u None) = word_opt (lastp v None) ->
  forall t prev, ed F (fun _ _ => true) prev t (replace_go (o :: os) new 0 t).
Proof.
  intros F o os new l1 u v l2 Hold Hnew Hu Hv HF Hh Hl.
  assert (M : forall n t prev, (length t <= n)%nat ->
    ed F (fun _ _ => true) prev t (replace_go (o :: os) new 0 t)).
  { induction n as [|n IH]; intros t prev Hlen.
    - destruct t; [apply ed_nil | simpl in Hlen; lia].
    - destruct t as [|c t]; [apply ed_nil|].
      cbn [replace_go]. destruct (is_prefix (o :: os) (c :: t)) eqn:Ep.
      + apply is_prefix_true in Ep as [w Hw]. injection Hw as -> Ht.
        replace (length (o :: os) - 1)%nat with (length os) by (simpl; lia).
        rewrite Ht, replace_go_skip.
        assert (IHw : ed F (fun _ _ => true) (lastp l2 (lastp u (lastp l1 prev))) w
                        (replace_go (o :: os) new 0 w))
          by (apply IH; simpl in Hlen; rewrite Ht, length_app in Hlen; lia).
        set (rw := replace_go (o :: os) new 0 w) in *.
        change (o :: os ++ w) with ((o :: os) ++ w). rewrite Hold, Hnew, <- !app_assoc.
        apply ed_keeps. apply ed_swap; try assumption.
        apply ed_keeps. exact IHw.
      + apply ed_keep; [reflexivity|]. apply IH. simpl in Hlen. lia. }
  intros t prev. apply (M (length t)). lia.
Qed.

Lemma py_replace_ed : forall F A B, forallb F (62%Z :: B ++ [60%Z]) = true ->
  forall t, ed F (fun _ _ => true) None t
    (py_replace t (open_tag ++ A ++ close_tag) (open_tag ++ B ++ close_tag)).
Proof.
  intros F A B HF t. unfold py_replace.
  assert (Hold : open_tag ++ A ++ close_tag
    = 60%Z :: ([108; 97; 98; 101; 108] ++ (62 :: A ++ [60]) ++ [47; 108; 97; 98; 101; 108; 62])%Z).
  { rewrite open_tag_eq, close_tag_eq. simpl. rewrite <- app_assoc. reflexivity. }
  rewrite Hold.
  apply (replace_go_ed_gen F _ _ _ [60; 108; 97; 98; 101; 108]%Z (62 :: A ++ [60])%Z
           (62 :: B ++ [60])%Z [47; 108; 97; 98; 101; 108; 62]%Z).
  - reflexivity.
  - rewrite open_tag_eq, close_tag_eq. simpl. rewrite <- app_assoc. reflexivity.
  - discriminate.
  - discriminate.
  - exact HF.
  - reflexivity.
  - rewrite !lastp_last by discriminate.
    change (62 :: A ++ [60])%Z with ((62 :: A) ++ [60])%Z.
    change (62 :: B ++ [60])%Z with ((62 :: B) ++ [60])%Z.
    rewrite !last_last. reflexivity.
Qed.

Lemma app_len_inv : forall (a b c d : str), length a = length c -> a ++ b = c ++ d -> a = c /\ b = d.
Proof.
  induction a as [|x a IH]; intros b c d Hl H; destruct c as [|y c]; try discriminate.
  - split; [reflexivity | exact H].
  - simpl in Hl, H. injection Hl as Hl. injection H as -> H.
    destruct (IH _ _ _ Hl H) as [-> ->]. split; reflexivity.
Qed.

Lemma search_label_unique : forall t p g r, label_span t p g r ->
  (forall p' i' r', label_span t p' i' r' -> (length p <= length p')%nat) ->
  (forall i' r', label_span t p i' r' -> (length g <= length i')%nat) ->
  search_label t = Some g.
Proof.
  intros t p g r Hs Hl Hsh. destruct (search_label t) as [g0|] eqn:Es.
  - destruct (search_label_some _ _ Es) as [p0 [r0 [Hs0 [Hl0 Hsh0]]]].
    pose proof (Hl _ _ _ Hs0) as H1. pose proof (Hl0 _ _ _ Hs) as H2.
    pose proof Hs0 as [Ht0 Hn0]. pose proof Hs as [Ht Hn].
    rewrite Ht in Ht0. apply app_len_inv in Ht0 as [Ep Ht0]; [|lia]. subst p0.
    pose proof (Hsh _ _ Hs0) as H3. pose proof (Hsh0 _ _ Hs) as H4.
    apply app_inv_head in Ht0. apply app_len_inv in Ht0 as [-> _]; [reflexivity | lia].
  - exfalso. exact (search_label_none t Es p g r Hs).
Qed.

Lemma tag_head : forall (tag l l0 : str), ~ In 60%Z (tl tag) ->
  tag = l ++ 60%Z :: l0 -> l = [].
Proof.
  intros tag l l0 Hn H. destruct l as [|a l]; [reflexivity|]. exfalso.
  destruct tag as [|b tag]; [discriminate|]. simpl in Hn. injection H as _ H.
  apply Hn. rewrite H. apply in_or_app. right. left. reflexivity.
Qed.

Lemma tag_align : forall (tag tag2 X l Y : str),
  ~ In 60%Z (tl tag) -> hd_error tag2 = Some 60%Z ->
  tag ++ X = l ++ tag2 ++ Y -> l = [] \/ exists m, l = tag ++ m.
Proof.
  intros tag tag2 X l Y Hn Hh H. destruct tag2 as [|b tag2]; [discriminate|].
  injection Hh as ->. apply app_eq_app in H as [l0 [[E1 E2] | [E1 E2]]].
  - destruct l0 as [|a l0].
    + right. exists []. rewrite app_nil_r in E1. rewrite E1, app_nil_r. reflexivity.
    + left. simpl in E2. injection E2 as <- _. exact (tag_head tag l l0 Hn E1).
  - right. exists l0. exact E1.
Qed.

Lemma open_tag_tl : ~ In 60%Z (tl open_tag).
Proof. rewrite open_tag_eq. simpl. intuition discriminate. Qed.

Lemma close_tag_tl : ~ In 60%Z (tl close_tag).
Proof. rewrite close_tag_eq. simpl. intuition discriminate. Qed.

Lemma replace_go_prefix_free : forall old new p s, old <> [] ->
  (forall p1 p2, p = p1 ++ p2 -> p2 <> [] -> is_prefix old (p2 ++ s) = false) ->
  replace_go old new 0 (p ++ s) = p ++ replace_go old new 0 s.
Proof.
  intros old new p s Hold. induction p as [|c p IH]; intro H; [reflexivity|].
  destruct old as [|o os]; [contradiction|]. cbn [app replace_go].
  pose proof (H [] (c :: p) eq_refl) as E. cbn [app] in E. rewrite E by discriminate.
  f_equal. apply IH. intros p1 p2 Ep Hne. apply (H (c :: p1) p2); [rewrite Ep; reflexivity | exact Hne].
Qed.

Lemma B_shortest : forall B i' x x', ~ In 60%Z B ->
  B ++ close_tag ++ x = i' ++ close_tag ++ x' -> (length B <= length i')%nat.
Proof.
  intros B i' x x' HB H. apply app_eq_app in H as [l [[E1 E2] | [E1 E2]]].
  - destruct l as [|a l].
    + rewrite app_nil_r in E1. rewrite E1. lia.
    + exfalso. rewrite close_tag_eq in E2. simpl in E2. injection E2 as <- _.
      apply HB. rewrite E1. apply in_or_app. right. left. reflexivity.
  - rewrite E1, length_app. lia.
Qed.

Lemma app_prefix : forall (a b c d : str), a ++ b = c ++ d -> (length a <= length c)%nat ->
  exists m, c = a ++ m /\ b = m ++ d.
Proof.
  intros a b c d H Hl. apply app_eq_app in H as [l [[E1 E2] | [E1 E2]]].
  - destruct l as [|x l].
    + exists []. rewrite app_nil_r in E1. subst. split; [rewrite app_nil_r|]; reflexivity.
    + exfalso. rewrite E1, length_app in Hl. simpl in Hl. lia.
  - exists l. split; [exact E1 | exact E2].
Qed.

Lemma app_suffix : forall (a b c d : str), a ++ b = c ++ d -> (length b <= length d)%nat ->
  exists m, d = m ++ b /\ a = c ++ m.
Proof.
  intros a b c d H Hl. apply app_eq_app in H as [l [[E1 E2] | [E1 E2]]].
  - exists l. split; [exact E2 | exact E1].
  - destruct l as [|x l].
    + exists []. simpl in E2. subst. split; [reflexivity|]. rewrite !app_nil_r. reflexivity.
    + exfalso. rewrite E2, length_app in Hl. simpl in Hl. lia.
Qed.

Lemma is_prefix_mono : forall p x r, is_prefix p x = true -> is_prefix p (x ++ r) = true.
Proof.
  intros p x r H. apply is_prefix_true in H as [u ->]. rewrite <- app_assoc. apply is_prefix_app.
Qed.

Lemma is_prefix_short : forall p x r, is_prefix p (x ++ r) = true -> (length p <= length x)%nat ->
  is_prefix p x = true.
Proof.
  intros p x r H Hl. apply is_prefix_true in H as [u Hu].
  destruct (app_prefix p u x r (eq_sym Hu) Hl) as [m [-> _]]. apply is_prefix_app.
Qed.

(** [str.replace] splits at an occurrence of [old] that no occurrence
    starting in [u] overlaps. *)
Lemma replace_go_split : forall old new u rest, old <> [] ->
  (forall u1 u2, u = u1 ++ u2 -> u2 <> [] -> is_prefix old (u2 ++ rest) = true ->
     (length old <= length u2)%nat) ->
  forall k, (k <= length u)%nat ->
  replace_go old new k (u ++ rest) = replace_go old new k u ++ replace_go old new 0 rest.
Proof.
  intros old new u rest Hold. induction u as [|c u IH]; intros H k Hk.
  - destruct k; [|simpl in Hk; lia]. destruct old; [contradiction|]. reflexivity.
  - assert (H' : forall u1 u2, u = u1 ++ u2 -> u2 <> [] -> is_prefix old (u2 ++ rest) = true ->
                   (length old <= length u2)%nat)
      by (intros u1 u2 E; apply (H (c :: u1) u2); rewrite E; reflexivity).
    destruct k as [|k]; [|cbn [app replace_go]; apply IH; [exact H' | simpl in Hk; lia]].
    destruct old as [|o os]; [contradiction|]. cbn [app replace_go].
    destruct (is_prefix (o :: os) (c :: u ++ rest)) eqn:E.
    + pose proof (H [] (c :: u) eq_refl ltac:(discriminate) E) as Hl.
      rewrite (is_prefix_short (o :: os) (c :: u) rest E Hl).
      rewrite IH by (exact H' || (simpl in Hl |- *; lia)). rewrite app_assoc. reflexivity.
    + replace (is_prefix (o :: os) (c :: u)) with false
        by (symmetry; destruct (is_prefix (o :: os) (c :: u)) eqn:E'; [|reflexivity];
            rewrite <- E; symmetry; exact (is_prefix_mono _ (c :: u) rest E')).
      rewrite IH by (exact H' || lia). reflexivity.
Qed.

(** The span [<label>A</label>] found by [re.search] has no proper border:
    [</label>] occurs in [A ++ </label>] only at its end, since the group
    is the shortest one. *)
Lemma label_old_no_border : forall t A, search_label t = Some A ->
  forall z y y', open_tag ++ A ++ close_tag = z ++ y -> open_tag ++ A ++ close_tag = y' ++ z ->
  z <> [] -> y <> [] -> False.
Proof.
  intros t A Hs z y y' E1 E2 Hz Hy.
  destruct (search_label_some _ _ Hs) as [p [r [[Ht HA] [_ Hshort]]]].
  destruct (Nat.le_gt_cases (length close_tag) (length z)) as [Hlz|Hlz].
  - (* [z] ends with [</label>] *)
    rewrite app_assoc in E2.
    destruct (app_suffix _ _ _ _ E2 Hlz) as [z' [Ez _]]. subst z.
    rewrite <- app_assoc in E1.
    destruct (Nat.le_gt_cases (length open_tag) (length z')) as [Hlo|Hlo].
    + destruct (app_prefix _ _ _ _ E1 Hlo) as [i' [Ez' E3]]. subst z'.
      assert (Hsp : label_span t p i' (y ++ r)).
      { split.
        - rewrite Ht. f_equal. f_equal. rewrite app_assoc, E3, <- !app_assoc. reflexivity.
        - intro Hi. apply HA.
          assert (Hin : In 10%Z (A ++ close_tag)) by (rewrite E3; apply in_or_app; left; exact Hi).
          apply in_app_or in Hin as [Hin|Hin]; [exact Hin|].
          rewrite close_tag_eq in Hin. simpl in Hin. lia. }
      pose proof (Hshort _ _ Hsp) as Hle.
      apply (f_equal (@length Z)) in E3. rewrite !length_app in E3.
      destruct y; [contradiction|]. simpl in E3. lia.
    + apply app_eq_app in E1 as [l [[F1 F2] | [F1 F2]]].
      * destruct l as [|x l].
        -- rewrite app_nil_r in F1. subst. lia.
        -- rewrite close_tag_eq in F2. cbn [app] in F2. injection F2 as <- F2.
           pose proof (tag_head open_tag z' l open_tag_tl F1) as ->.
           rewrite app_nil_l, open_tag_eq in F1. injection F1 as F1. subst l.
           cbn [app] in F2. discriminate F2.
      * subst z'. rewrite length_app in Hlo. lia.
  - (* [z] is a proper suffix of [</label>] that starts with ['<'] *)
    assert (E2' : (open_tag ++ A) ++ close_tag = y' ++ z) by (rewrite <- app_assoc; exact E2).
    destruct (app_suffix _ _ _ _ (eq_sym E2') ltac:(lia)) as [m [Em _]].
    assert (Hz0 : hd_error z = Some 60%Z).
    { destruct z as [|z0 z]; [contradiction|]. rewrite open_tag_eq in E1.
      cbn [app] in E1. injection E1 as <- _. reflexivity. }
    destruct z as [|z0 z]; [contradiction|]. injection Hz0 as ->.
    pose proof (tag_head close_tag m z close_tag_tl Em) as ->.
    rewrite app_nil_l in Em. rewrite <- Em in Hlz. lia.
Qed.

(** C2 (as amended).  When [re.search] finds the label [A], the text is
    rewritten by [str.replace] with [old = <label>A</label>] and
    [new = <label>MAPPED</label>] ([MAPPED] is [A] when unmapped), which
    splits at every occurrence of [old]: for any occurrence [u ++ old ++ v]
    of the literal span, the result is the rewrite of [u], then [new],
    then the rewrite of [v].  So every non-overlapping occurrence of the
    literal span is rewritten, not only the first. *)
Theorem fix_output_label_rewrites_every_occurrence : forall labels t A u v,
  search_label t = Some A -> t = u ++ open_tag ++ A ++ close_tag ++ v ->
  fix_output_label labels (VStr t)
  = Ok (VStr (py_replace u (open_tag ++ A ++ close_tag) (open_tag ++ dict_get labels A A ++ close_tag)
              ++ (open_tag ++ dict_get labels A A ++ close_tag)
              ++ py_replace v (open_tag ++ A ++ close_tag) (open_tag ++ dict_get labels A A ++ close_tag))).
Proof.
  intros labels t A u v Hs Ht.
  set (old := open_tag ++ A ++ close_tag).
  set (new := open_tag ++ dict_get labels A A ++ close_tag).
  assert (Hne : old <> []) by (unfold old; rewrite open_tag_eq; discriminate).
  unfold fix_output_label.
  replace (truthy (VStr t)) with true by (rewrite Ht, open_tag_eq; destruct u; reflexivity).
  cbn [negb]. rewrite Hs. fold old new. f_equal. f_equal.
  assert (Ht' : t = u ++ old ++ v) by (rewrite Ht; unfold old; rewrite <- !app_assoc; reflexivity).
  unfold py_replace. rewrite Ht'.
  rewrite (replace_go_split old new u (old ++ v) Hne); [|intros u1 u2 Eu Hu2 Hp|lia].
  - rewrite replace_go_old by exact Hne. reflexivity.
  - destruct (Nat.le_gt_cases (length old) (length u2)) as [Hl|Hl]; [exact Hl|exfalso].
    apply is_prefix_true in Hp as [w Hw].
    destruct (app_prefix u2 (old ++ v) old w Hw ltac:(lia)) as [m [Em Hm]].
    pose proof (f_equal (@length Z) Em) as Lm. rewrite length_app in Lm.
    destruct (app_prefix m w old v (eq_sym Hm) ltac:(lia)) as [y [Ey _]].
    apply (label_old_no_border t A Hs m y u2); [exact Ey | exact Em | |].
    + intro E. subst m. change (length (@nil Z)) with 0%nat in Lm. lia.
    + intro E. subst y. rewrite app_nil_r in Ey. rewrite Ey in Lm.
      destruct u2 as [|x u2]; [contradiction|]. change (length (x :: u2)) with (S (length u2)) in Lm.
      lia.
Qed.

Lemma fix_output_label_rewrites_every_occurrence_witness :
  fix_output_label [(lit "A", lit "X")] (VStr (lit "<label>A</label> <b> <label>A</label>"))
  = Ok (VStr (py_replace [] (lit "<label>A</label>") (lit "<label>X</label>")
              ++ lit "<label>X</label>"
              ++ py_replace (lit " <b> <label>A</label>") (lit "<label>A</label>") (lit "<label>X</label>"))).
Proof.
  exact (fix_output_label_rewrites_every_occurrence [(lit "A", lit "X")]
           (lit "<label>A</label> <b> <label>A</label>") (lit "A") [] (lit " <b> <label>A</label>")
           ltac:(vm_compute; reflexivity) ltac:(vm_compute; reflexivity)).
Defined.

Lemma search_label_replaced : forall z A B, search_label z = Some A ->
  ~ In 10%Z B -> ~ In 60%Z B ->
  search_label (py_replace z (open_tag ++ A ++ close_tag) (open_tag ++ B ++ close_tag)) = Some B.
Proof.
  intros z A B Hs HB10 HB60.
  destruct (search_label_some _ _ Hs) as [p [r [[Hz HA] [Hleft _]]]].
  assert (Hne : open_tag ++ A ++ close_tag <> []) by (rewrite open_tag_eq; discriminate).
  assert (Hy : py_replace z (open_tag ++ A ++ close_tag) (open_tag ++ B ++ close_tag)
    = p ++ open_tag ++ B ++ close_tag
        ++ replace_go (open_tag ++ A ++ close_tag) (open_tag ++ B ++ close_tag) 0 r).
  { unfold py_replace. rewrite Hz.
    replace (open_tag ++ A ++ close_tag ++ r) with ((open_tag ++ A ++ close_tag) ++ r)
      by (rewrite <- !app_assoc; reflexivity).
    rewrite replace_go_prefix_free by
      (exact Hne ||
       (intros p1 p2 Ep Hp2;
        destruct (is_prefix (open_tag ++ A ++ close_tag) (p2 ++ (open_tag ++ A ++ close_tag) ++ r))
          eqn:E; [|reflexivity]; exfalso;
        apply is_prefix_true in E as [w Hw];
        assert (Hsp : label_span z p1 A w)
          by (split; [rewrite Hz, Ep, <- app_assoc; f_equal; rewrite <- !app_assoc in Hw; exact Hw
                     | exact HA]);
        apply Hleft in Hsp; rewrite Ep, length_app in Hsp;
        destruct p2; [contradiction | simpl in Hsp; lia])).
    rewrite replace_go_old by exact Hne. rewrite <- !app_assoc. reflexivity. }
  rewrite Hy.
  set (yr := replace_go (open_tag ++ A ++ close_tag) (open_tag ++ B ++ close_tag) 0 r).
  apply (search_label_unique _ p B yr).
  - split; [reflexivity | exact HB10].
  - intros p' i' r' [Hy' Hi'].
    destruct (Nat.le_gt_cases (length p) (length p')) as [Hle | Hlt]; [exact Hle | exfalso].
    apply app_eq_app in Hy' as [l [[E1 E2] | [E1 E2]]].
    + destruct (tag_align open_tag open_tag _ l _ open_tag_tl eq_refl E2)
        as [-> | [m ->]].
      * rewrite app_nil_r in E1. subst p. lia.
      * rewrite <- app_assoc in E2. apply app_inv_head in E2.
        apply app_eq_app in E2 as [l2 [[F1 F2] | [F1 F2]]].
        -- assert (Hsp : label_span z p' (m ++ open_tag ++ A) r).
           { split.
             - rewrite Hz, E1, <- !app_assoc. reflexivity.
             - intro Hin. apply in_app_or in Hin as [Hin | Hin].
               + apply Hi'. rewrite F1. apply in_or_app. left. exact Hin.
               + apply in_app_or in Hin as [Hin | Hin]; [|exact (HA Hin)].
                 rewrite open_tag_eq in Hin. simpl in Hin. intuition discriminate. }
           apply Hleft in Hsp. lia.
        -- destruct (tag_align close_tag open_tag _ l2 _ close_tag_tl eq_refl F2)
             as [-> | [m2 ->]].
           ++ rewrite app_nil_l, close_tag_eq, open_tag_eq in F2. discriminate F2.
           ++ assert (Hsp : label_span z p' i' (m2 ++ open_tag ++ A ++ close_tag ++ r)).
              { split; [|exact Hi']. rewrite Hz, E1, F1, <- !app_assoc. reflexivity. }
              apply Hleft in Hsp. lia.
    + rewrite E1, length_app in Hlt. lia.
  - intros i' r' [Hy' _]. apply app_inv_head in Hy'. apply app_inv_head in Hy'.
    exact (B_shortest _ _ _ _ HB60 Hy').
Qed.

Lemma fix_output_label_str : forall labels t,
  fix_output_label labels (VStr t) = Ok (VStr (fix_label_str labels t)).
Proof.
  intros labels [|c t]; [reflexivity|]. unfold fix_output_label, fix_label_str. cbn [truthy negb].
  destruct (search_label (c :: t)); reflexivity.
Qed.

Lemma translate_text_cons : forall terms c s,
  translate_text terms (VStr (c :: s))
  = (z <- apply_terms (sort_terms terms) (c :: s) ;; Ok (VStr z)).
Proof. reflexivity. Qed.

(** *** Longest match first *)






Lemma dict_get_cases : forall d key def,
  dict_get d key def = def \/ exists k, In (k, dict_get d key def) d.
Proof.
  induction d as [|[k v] d IH]; intros key def; [left; reflexivity|]. simpl.
  destruct (list_eq_dec Z.eq_dec k key).
  - right. exists k. left. reflexivity.
  - destruct (IH key def) as [H | [k' H]]; [left; exact H | right; exists k'; right; exact H].
Qed.

Lemma label_table_ok_spec : forall terms labels, label_table_ok terms labels = true ->
  forall k v, In (k, v) labels ->
  ~ In 10%Z v /\ ~ In 60%Z v /\ forallb (foreign terms) v = true /\ dict_get labels v v = v.
Proof.
  intros terms labels H k v Hin. unfold label_table_ok in H. rewrite forallb_forall in H.
  specialize (H _ Hin). simpl in H.
  apply andb_true_iff in H as [H H4]. apply andb_true_iff in H as [H H3].
  apply andb_true_iff in H as [H1 H2].
  apply negb_true_iff in H1, H2.
  split; [intro Hi; assert (E : existsb (Z.eqb 10) v = true)
    by (apply existsb_exists; exists 10%Z; split; [exact Hi | apply Z.eqb_refl]); congruence|].
  split; [intro Hi; assert (E : existsb (Z.eqb 60) v = true)
    by (apply existsb_exists; exists 60%Z; split; [exact Hi | apply Z.eqb_refl]); congruence|].
  split; [exact H3|].
  destruct (list_eq_dec Z.eq_dec (dict_get labels v v) v); [exact e | discriminate].
Qed.

Lemma sort_terms_in : forall terms e k, In (e, k) (sort_terms terms) -> In (e, k) terms.
Proof.
  intros terms e k H. apply (Permutation_in _ (Permutation_sym (sort_terms_perm terms))). exact H.
Qed.

Lemma translate_text_id : forall terms y, term_table_ok terms = true ->
  (forall q, In q (map fst terms) -> nomatch q None y = true) ->
  translate_text terms (VStr y) = Ok (VStr y).
Proof.
  intros terms [|c y] Ht Hn; [reflexivity|]. rewrite translate_text_cons.
  rewrite apply_terms_id; [reflexivity|].
  intros e k Hin. apply sort_terms_in in Hin.
  destruct (term_table_ok_spec _ Ht) as [_ [_ Hs]]. destruct (Hs _ _ Hin) as [_ [_ [Hb _]]].
  split; [exact Hb|]. apply Hn. apply (in_map fst _ _ Hin).
Qed.

Lemma fix_label_str_nomatch : forall terms labels z q,
  term_table_ok terms = true -> label_table_ok terms labels = true ->
  In q (map fst terms) -> nomatch q None z = true ->
  nomatch q None (fix_label_str labels z) = true.
Proof.
  intros terms labels z q Ht Hl Hq Hz. unfold fix_label_str.
  destruct (search_label z) as [A|]; [|exact Hz].
  destruct (list_eq_dec Z.eq_dec (dict_get labels A A) A) as [Eq | Neq].
  - rewrite Eq. unfold py_replace. rewrite replace_go_same. exact Hz.
  - destruct (dict_get_cases labels A A) as [E | [k Hin]]; [contradiction|].
    destruct (label_table_ok_spec _ _ Hl _ _ Hin) as [_ [_ [HF _]]].
    destruct (term_table_ok_spec _ Ht) as [H60 [H62 _]].
    destruct (term_source_ok _ _ Ht Hq) as [Hqne [Hqh Hql]].
    apply (ed_nomatch (foreign terms) (fun _ _ => true) None z).
    + apply py_replace_ed. cbn [forallb]. rewrite forallb_app. cbn [forallb]. rewrite HF, H62, H60. reflexivity.
    + exact Hqne.
    + exact Hqh.
    + exact Hql.
    + intros x Hx. exact (foreign_src _ _ Hx q Hq).
    + right. exact Hz.
    + reflexivity.
Qed.

Lemma fix_label_str_idem : forall terms labels z,
  label_table_ok terms labels = true ->
  fix_label_str labels (fix_label_str labels z) = fix_label_str labels z.
Proof.
  intros terms labels z Hl. unfold fix_label_str at 2 3.
  destruct (search_label z) as [A|] eqn:Es.
  - destruct (list_eq_dec Z.eq_dec (dict_get labels A A) A) as [Eq | Neq].
    + rewrite Eq. unfold py_replace. rewrite replace_go_same. cbn [skipn].
      unfold fix_label_str. rewrite Es, Eq. unfold py_replace. rewrite replace_go_same. reflexivity.
    + destruct (dict_get_cases labels A A) as [E | [k Hin]]; [contradiction|].
      destruct (label_table_ok_spec _ _ Hl _ _ Hin) as [H10 [H60 [_ Hfix]]].
      unfold fix_label_str. rewrite (search_label_replaced _ _ _ Es H10 H60), Hfix.
      unfold py_replace at 1. rewrite replace_go_same. reflexivity.
  - unfold fix_label_str. rewrite Es. reflexivity.
Qed.



(** ** Further properties of the code *)

Lemma pyval_eqb_refl : forall v, pyval_eqb v v = true.
Proof. intro v. unfold pyval_eqb. destruct (pyval_eq_dec v v); [reflexivity | contradiction]. Qed.

Lemma process_loop_count : forall terms labels column outputs changed outs n,
  process_loop terms labels column outputs changed = Ok (outs, n) ->
  exists ws, outs = outputs ++ ws
    /\ Forall2 (fun v w => transform_output terms labels v = Ok w) column ws
    /\ n = changed + count_changed column ws.
Proof.
  intros terms labels column. induction column as [|v column IH];
    intros outputs changed outs n H; cbn [process_loop] in H.
  - injection H as <- <-. exists []. rewrite app_nil_r. split; [reflexivity|].
    split; [constructor | simpl; lia].
  - destruct (truthy v) eqn:Tv; cbn [negb] in H.
    + destruct (translate_text terms v) as [v1|e] eqn:E1; [cbn [bind] in H | discriminate H].
      destruct (fix_output_label labels v1) as [w|e] eqn:E2; [cbn [bind] in H | discriminate H].
      destruct (IH _ _ _ _ H) as [ws [-> [Hf Hn]]].
      exists (w :: ws). rewrite <- app_assoc. split; [reflexivity|]. split.
      * constructor; [|exact Hf]. unfold transform_output. rewrite Tv, E1. exact E2.
      * rewrite Hn. cbn [count_changed]. destruct (pyval_eqb w v); lia.
    + destruct (IH _ _ _ _ H) as [ws [-> [Hf Hn]]].
      exists (v :: ws). rewrite <- app_assoc. split; [reflexivity|]. split.
      * constructor; [|exact Hf]. unfold transform_output. rewrite Tv. reflexivity.
      * rewrite Hn. cbn [count_changed]. rewrite pyval_eqb_refl. lia.
Qed.

Lemma count_changed_le : forall before after, (count_changed before after <= length before)%nat.
Proof.
  induction before as [|v b IH]; intros [|w a]; simpl; try lia.
  specialize (IH a). destruct (pyval_eqb w v); lia.
Qed.

Lemma dd_set_set : forall k a b dd, dd_set k b (dd_set k a dd) = dd_set k b dd.
Proof.
  intros k a b dd. induction dd as [|[n ds0] dd IH]; simpl.
  - rewrite String.eqb_refl. reflexivity.
  - destruct (String.eqb n k) eqn:E; simpl; rewrite E; [reflexivity|]. rewrite IH. reflexivity.
Qed.

Lemma dd_set_get : forall k ds dd, dd_get k dd = Ok ds -> dd_set k ds dd = dd.
Proof.
  intros k ds dd. induction dd as [|[n ds0] dd IH]; simpl; intro H; [discriminate|].
  destruct (String.eqb n k); [injection H as ->; reflexivity|]. rewrite IH by exact H. reflexivity.
Qed.

Lemma dd_set_names : forall k ds dd, (exists ds0, dd_get k dd = Ok ds0) ->
  map fst (dd_set k ds dd) = map fst dd.
Proof.
  intros k ds dd. induction dd as [|[n ds0] dd IH]; simpl; intros [d H]; [discriminate|].
  destruct (String.eqb n k); [reflexivity|]. simpl. rewrite IH by (exists d; exact H). reflexivity.
Qed.

Lemma remove_columns_ok : forall name ds ds1, remove_columns name ds = Ok ds1 ->
  col_lookup name (columns ds) <> None
  /\ ds1 = mkDataset (num_rows ds) (other_columns name (columns ds)).
Proof.
  intros name ds ds1 H. unfold remove_columns in H.
  destruct (col_lookup name (columns ds)); [|discriminate]. injection H as <-.
  split; [discriminate | reflexivity].
Qed.

Lemma add_column_removed : forall name column n cols,
  add_column name column (mkDataset n (other_columns name cols))
  = if (length column =? n)%nat
    then Ok (mkDataset n (other_columns name cols ++ [(name, column)]))
    else Raise ValueError.
Proof.
  intros name column n cols. unfold add_column. cbn [columns num_rows].
  rewrite col_lookup_other_columns. reflexivity.
Qed.

(** The run succeeds exactly when both splits exist and are processed, each
    has an [output] column, and each yields as many outputs as it has rows;
    the saved dict is then the loaded one with both splits rebuilt. *)
(** X1.  [process_dataset] succeeds exactly when both splits exist, each
    is processed without an exception, each has an [output] column, and the
    rebuilt column has one value per row; the saved dictionary is then the
    input one with [train] and [test] replaced in place by the same splits
    whose [output] column is removed and appended last with the new values. *)
Theorem process_dataset_ok_iff : forall terms labels dataset saved n1 n2,
  process_dataset terms labels dataset = Ok (saved, (n1, n2)) <->
  exists tr te outs1 outs2,
    dd_get "train" dataset = Ok tr /\ process_split terms labels tr = Ok (outs1, n1)
    /\ dd_get "test" dataset = Ok te /\ process_split terms labels te = Ok (outs2, n2)
    /\ col_lookup "output" (columns tr) <> None /\ col_lookup "output" (columns te) <> None
    /\ length outs1 = num_rows tr /\ length outs2 = num_rows te
    /\ saved = dd_set "test" (with_output_last te outs2)
                 (dd_set "train" (with_output_last tr outs1) dataset).
Proof.
  intros terms labels dataset saved n1 n2. split.
  - intro H. unfold process_dataset in H.
    repeat (cbv zeta in H; bind_ok H).
    injection H as <- <- <-.
    rename a into tr, a0 into r1, a1 into te, a2 into r2,
           a3 into tr1, a4 into tr2, a5 into te0, a6 into te1, a7 into te2.
    rewrite dd_get_set_other, dd_get_set_other, E1 in E5 by discriminate.
    injection E5 as <-.
    destruct r1 as [outs1 c1], r2 as [outs2 c2]. cbn [fst snd] in *.
    apply remove_columns_ok in E3 as [Hc1 ->]. apply remove_columns_ok in E6 as [Hc2 ->].
    rewrite add_column_removed in E4, E7.
    destruct (length outs1 =? num_rows tr)%nat eqn:L1; [|discriminate].
    destruct (length outs2 =? num_rows te)%nat eqn:L2; [|discriminate].
    injection E4 as <-. injection E7 as <-.
    exists tr, te, outs1, outs2. repeat split; try assumption.
    + apply Nat.eqb_eq. exact L1.
    + apply Nat.eqb_eq. exact L2.
    + rewrite !dd_set_set. reflexivity.
  - intros [tr [te [outs1 [outs2 [Htr [Hp1 [Hte [Hp2 [Hc1 [Hc2 [L1 [L2 ->]]]]]]]]]]]].
    unfold process_dataset. rewrite Htr. cbn [bind]. rewrite Hp1. cbn [bind].
    rewrite Hte. cbn [bind]. rewrite Hp2. cbn [bind].
    unfold remove_columns at 1. destruct (col_lookup "output" (columns tr)); [|contradiction].
    cbn [bind fst snd]. rewrite add_column_removed. rewrite (proj2 (Nat.eqb_eq _ _) L1). cbn [bind].
    rewrite dd_get_set_other, dd_get_set_other, Hte by discriminate. cbn [bind].
    unfold remove_columns. destruct (col_lookup "output" (columns te)); [|contradiction].
    cbn [bind]. rewrite add_column_removed. rewrite (proj2 (Nat.eqb_eq _ _) L2). cbn [bind].
    rewrite !dd_set_set. reflexivity.
Qed.

Lemma transform_output_fixed : forall terms labels v w,
  term_table_ok terms = true -> label_table_ok terms labels = true ->
  transform_output terms labels v = Ok w -> transform_output terms labels w = Ok w.
Proof.
  intros terms labels v w Ht Hl H. unfold transform_output in H |- *.
  destruct (truthy v) eqn:Tv; cbn [negb] in H.
  2: { injection H as <-. rewrite Tv. reflexivity. }
  destruct v as [|b|n|s]; try discriminate Tv.
  - change (translate_text terms (VBool b)) with (Ok (VBool b)) in H. cbn [bind] in H.
    unfold fix_output_label in H. rewrite Tv in H. discriminate H.
  - change (translate_text terms (VInt n)) with (Ok (VInt n)) in H. cbn [bind] in H.
    unfold fix_output_label in H. rewrite Tv in H. discriminate H.
  - destruct s as [|c s]; [discriminate Tv|].
    rewrite translate_text_cons in H.
    destruct (apply_terms (sort_terms terms) (c :: s)) as [z|e] eqn:Ea; [|discriminate H].
    cbn [bind] in H. rewrite fix_output_label_str in H. injection H as <-.
    assert (Hz : forall q, In q (map fst terms) -> nomatch q None z = true).
    { intros q Hq. apply (apply_terms_nomatch terms (sort_terms terms) (c :: s) z Ht); try assumption.
      - intros a Ha. destruct a as [e k]. exact (sort_terms_in _ _ _ Ha).
      - right. apply (Permutation_in _ (Permutation_map fst (sort_terms_perm terms))). exact Hq. }
    assert (Hy : forall q, In q (map fst terms) -> nomatch q None (fix_label_str labels z) = true)
      by (intros q Hq; exact (fix_label_str_nomatch _ _ _ _ Ht Hl Hq (Hz q Hq))).
    destruct (negb (truthy (VStr (fix_label_str labels z)))); [reflexivity|].
    rewrite (translate_text_id _ _ Ht Hy). cbn [bind].
    rewrite fix_output_label_str, (fix_label_str_idem terms) by exact Hl. reflexivity.
Qed.

Lemma with_output_last_lookup : forall ds outs,
  col_lookup "output" (columns (with_output_last ds outs)) = Some outs.
Proof.
  intros ds outs. unfold with_output_last. cbn [columns].
  rewrite col_lookup_app, col_lookup_other_columns. reflexivity.
Qed.

Lemma process_split_count : forall terms labels ds outs n before,
  process_split terms labels ds = Ok (outs, n) ->
  col_lookup "output" (columns ds) = Some before ->
  Forall2 (fun v w => transform_output terms labels v = Ok w) before outs
  /\ n = count_changed before outs.
Proof.
  intros terms labels ds outs n before H Hb. unfold process_split, read_column in H.
  rewrite Hb in H. cbn [bind] in H.
  destruct (process_loop_count _ _ _ _ _ _ _ H) as [ws [-> [Hf Hn]]]. split; [exact Hf | exact Hn].
Qed.

Lemma saved_train : forall tr te outs1 outs2 dataset,
  dd_get "train" (dd_set "test" (with_output_last te outs2)
                    (dd_set "train" (with_output_last tr outs1) dataset))
  = Ok (with_output_last tr outs1).
Proof.
  intros. rewrite dd_get_set_other by discriminate. apply dd_get_set_same.
Qed.

Lemma saved_test : forall tr te outs1 outs2 dataset,
  dd_get "test" (dd_set "test" (with_output_last te outs2)
                    (dd_set "train" (with_output_last tr outs1) dataset))
  = Ok (with_output_last te outs2).
Proof. intros. apply dd_get_set_same. Qed.

(** X2.  On success, [train_changed] and [test_changed] are the numbers of
    rows whose saved [output] differs from the original one, so neither
    exceeds the number of rows of its split. *)
Theorem process_dataset_counts : forall terms labels dataset saved n1 n2,
  process_dataset terms labels dataset = Ok (saved, (n1, n2)) ->
  exists tr te tr' te' before1 after1 before2 after2,
    dd_get "train" dataset = Ok tr /\ dd_get "train" saved = Ok tr'
    /\ col_lookup "output" (columns tr) = Some before1
    /\ col_lookup "output" (columns tr') = Some after1
    /\ n1 = count_changed before1 after1 /\ (n1 <= num_rows tr)%nat
    /\ dd_get "test" dataset = Ok te /\ dd_get "test" saved = Ok te'
    /\ col_lookup "output" (columns te) = Some before2
    /\ col_lookup "output" (columns te') = Some after2
    /\ n2 = count_changed before2 after2 /\ (n2 <= num_rows te)%nat.
Proof.
  intros terms labels dataset saved n1 n2 H.
  apply process_dataset_ok_iff in H as [tr [te [outs1 [outs2 [Htr [Hp1 [Hte [Hp2 [Hc1 [Hc2 [L1 [L2 ->]]]]]]]]]]]].
  destruct (col_lookup "output" (columns tr)) as [before1|] eqn:B1; [|contradiction].
  destruct (col_lookup "output" (columns te)) as [before2|] eqn:B2; [|contradiction].
  destruct (process_split_count _ _ _ _ _ _ Hp1 B1) as [F1 N1].
  destruct (process_split_count _ _ _ _ _ _ Hp2 B2) as [F2 N2].
  exists tr, te, (with_output_last tr outs1), (with_output_last te outs2),
         before1, outs1, before2, outs2.
  rewrite saved_train, saved_test, !with_output_last_lookup.
  pose proof (count_changed_le before1 outs1). pose proof (count_changed_le before2 outs2).
  rewrite (Forall2_length F1) in *. rewrite (Forall2_length F2) in *.
  repeat split; try reflexivity; try assumption; lia.
Qed.

Lemma dd_get_missing : forall k dd, ~ In k (map fst dd) -> dd_get k dd = Raise KeyError.
Proof.
  intros k dd. induction dd as [|[n ds] dd IH]; intro H; [reflexivity|]. simpl in *.
  destruct (String.eqb n k) eqn:E; [apply String.eqb_eq in E; subst; tauto|]. apply IH. tauto.
Qed.

(** X3.  On success, the saved dictionary has the same split names in the
    same order as the input, and every split other than [train] and [test]
    is saved unchanged. *)
Theorem process_dataset_other_splits : forall terms labels dataset saved counts,
  process_dataset terms labels dataset = Ok (saved, counts) ->
  map fst saved = map fst dataset
  /\ forall name, name <> "train"%string -> name <> "test"%string ->
       dd_get name saved = dd_get name dataset.
Proof.
  intros terms labels dataset saved [n1 n2] H.
  apply process_dataset_ok_iff in H as [tr [te [outs1 [outs2 [Htr [_ [Hte [_ [_ [_ [_ [_ ->]]]]]]]]]]]].
  split.
  - rewrite dd_set_names by (exists te; rewrite dd_get_set_other by discriminate; exact Hte).
    apply dd_set_names. exists tr. exact Htr.
  - intros name H1 H2. rewrite !dd_get_set_other by congruence. reflexivity.
Qed.

(** X4.  Without a [train] split, [process_dataset] raises [KeyError]; with
    [train] present and processed but without a [test] split it raises
    [KeyError] as well. *)
Theorem process_dataset_missing_split : forall terms labels dataset,
  (~ In "train"%string (map fst dataset) ->
     process_dataset terms labels dataset = Raise KeyError)
  /\ (forall tr r, dd_get "train" dataset = Ok tr -> process_split terms labels tr = Ok r ->
      ~ In "test"%string (map fst dataset) ->
      process_dataset terms labels dataset = Raise KeyError).
Proof.
  intros terms labels dataset. split.
  - intro H. unfold process_dataset. rewrite dd_get_missing by exact H. reflexivity.
  - intros tr r Htr Hp H. unfold process_dataset. rewrite Htr. cbn [bind]. rewrite Hp. cbn [bind].
    rewrite dd_get_missing by exact H. reflexivity.
Qed.

(** X5.  When the [train] split has no [output] column, [process_dataset]
    raises [KeyError] if the split has rows ([example['output']]), and
    [ValueError] from [remove_columns("output")] if it has none and the
    [test] split is processed. *)
Theorem process_dataset_missing_output : forall terms labels dataset tr,
  dd_get "train" dataset = Ok tr -> col_lookup "output" (columns tr) = None ->
  (num_rows tr <> 0%nat -> process_dataset terms labels dataset = Raise KeyError)
  /\ (forall te r, num_rows tr = 0%nat -> dd_get "test" dataset = Ok te ->
      process_split terms labels te = Ok r ->
      process_dataset terms labels dataset = Raise ValueError).
Proof.
  intros terms labels dataset tr Htr Hc. split.
  - intro Hn. unfold process_dataset. rewrite Htr. cbn [bind].
    unfold process_split, read_column. rewrite Hc.
    destruct (num_rows tr); [contradiction | reflexivity].
  - intros te r Hn Hte Hp. unfold process_dataset. rewrite Htr. cbn [bind].
    assert (E : process_split terms labels tr = Ok ([], 0%nat))
      by (unfold process_split, read_column; rewrite Hc, Hn; reflexivity).
    rewrite E. cbn [bind]. rewrite Hte. cbn [bind]. rewrite Hp. cbn [bind].
    unfold remove_columns. rewrite Hc. reflexivity.
Qed.

Lemma process_loop_total : forall terms labels column outputs changed,
  (forall v, In v column -> exists w, transform_output terms labels v = Ok w) ->
  exists outs n, process_loop terms labels column outputs changed = Ok (outs, n).
Proof.
  intros terms labels column. induction column as [|v column IH]; intros outputs changed H.
  - exists outputs, changed. reflexivity.
  - cbn [process_loop]. destruct (H v (or_introl eq_refl)) as [w Hw].
    assert (H' : forall v', In v' column -> exists w', transform_output terms labels v' = Ok w')
      by (intros v' Hv'; apply H; right; exact Hv').
    unfold transform_output in Hw. destruct (truthy v); cbn [negb] in Hw |- *.
    + destruct (translate_text terms v) as [v1|e]; [cbn [bind] in Hw |- * | discriminate Hw].
      rewrite Hw. cbn [bind]. apply IH. exact H'.
    + apply IH. exact H'.
Qed.

(** X6.  [process_dataset] returns normally whenever both splits exist,
    have an [output] column with one value per row, and the transform of
    every value of these two columns returns normally. *)
Theorem process_dataset_succeeds : forall terms labels dataset tr te c1 c2,
  dd_get "train" dataset = Ok tr -> dd_get "test" dataset = Ok te ->
  col_lookup "output" (columns tr) = Some c1 -> length c1 = num_rows tr ->
  col_lookup "output" (columns te) = Some c2 -> length c2 = num_rows te ->
  (forall v, In v c1 \/ In v c2 -> exists w, transform_output terms labels v = Ok w) ->
  exists saved n1 n2, process_dataset terms labels dataset = Ok (saved, (n1, n2)).
Proof.
  intros terms labels dataset tr te c1 c2 Htr Hte H1 L1 H2 L2 Hv.
  destruct (process_loop_total terms labels c1 [] 0 (fun v H => Hv v (or_introl H)))
    as [outs1 [n1 P1]].
  destruct (process_loop_total terms labels c2 [] 0 (fun v H => Hv v (or_intror H)))
    as [outs2 [n2 P2]].
  assert (S1 : process_split terms labels tr = Ok (outs1, n1))
    by (unfold process_split, read_column; rewrite H1; exact P1).
  assert (S2 : process_split terms labels te = Ok (outs2, n2))
    by (unfold process_split, read_column; rewrite H2; exact P2).
  destruct (process_split_count _ _ _ _ _ _ S1 H1) as [F1 _].
  destruct (process_split_count _ _ _ _ _ _ S2 H2) as [F2 _].
  eexists _, n1, n2. apply process_dataset_ok_iff.
  exists tr, te, outs1, outs2. repeat split; try assumption.
  - rewrite H1. discriminate.
  - rewrite H2. discriminate.
  - rewrite <- (Forall2_length F1). exact L1.
  - rewrite <- (Forall2_length F2). exact L2.
Qed.

Lemma process_loop_fixed : forall terms labels ws outputs changed,
  Forall (fun w => transform_output terms labels w = Ok w) ws ->
  process_loop terms labels ws outputs changed = Ok (outputs ++ ws, changed).
Proof.
  intros terms labels ws. induction ws as [|w ws IH]; intros outputs changed H.
  - rewrite app_nil_r. reflexivity.
  - inversion H as [|? ? Hw Hws]; subst. cbn [process_loop].
    unfold transform_output in Hw. destruct (truthy w); cbn [negb] in Hw |- *.
    + destruct (translate_text terms w) as [v1|e]; [cbn [bind] in Hw |- * | discriminate Hw].
      rewrite Hw. cbn [bind]. rewrite pyval_eqb_refl, IH by exact Hws.
      rewrite <- app_assoc. reflexivity.
    + rewrite IH by exact Hws. rewrite <- app_assoc. reflexivity.
Qed.

Lemma with_output_last_again : forall ds outs,
  with_output_last (with_output_last ds outs) outs = with_output_last ds outs.
Proof.
  intros ds outs. unfold with_output_last. cbn [columns num_rows].
  rewrite other_columns_rebuilt. reflexivity.
Qed.

Lemma outputs_fixed : forall terms labels before outs,
  term_table_ok terms = true -> label_table_ok terms labels = true ->
  Forall2 (fun v w => transform_output terms labels v = Ok w) before outs ->
  Forall (fun w => transform_output terms labels w = Ok w) outs.
Proof.
  intros terms labels before outs Ht Hl H. induction H as [|v w before outs Hw _ IH]; constructor.
  - exact (transform_output_fixed _ _ _ _ Ht Hl Hw).
  - exact IH.
Qed.

(** X7.  Under the table conditions [term_table_ok] and [label_table_ok],
    running [process_dataset] on a dictionary it has just produced returns
    that dictionary unchanged, with both change counters at 0. *)
Theorem process_dataset_rerun : forall terms labels dataset saved counts,
  term_table_ok terms = true -> label_table_ok terms labels = true ->
  process_dataset terms labels dataset = Ok (saved, counts) ->
  process_dataset terms labels saved = Ok (saved, (0, 0)%nat).
Proof.
  intros terms labels dataset saved [n1 n2] Ht Hl H.
  apply process_dataset_ok_iff in H as [tr [te [outs1 [outs2 [Htr [Hp1 [Hte [Hp2 [Hc1 [Hc2 [L1 [L2 Hs]]]]]]]]]]]].
  destruct (col_lookup "output" (columns tr)) as [before1|] eqn:B1; [|contradiction].
  destruct (col_lookup "output" (columns te)) as [before2|] eqn:B2; [|contradiction].
  destruct (process_split_count _ _ _ _ _ _ Hp1 B1) as [F1 _].
  destruct (process_split_count _ _ _ _ _ _ Hp2 B2) as [F2 _].
  apply process_dataset_ok_iff.
  exists (with_output_last tr outs1), (with_output_last te outs2), outs1, outs2.
  assert (G1 : dd_get "train" saved = Ok (with_output_last tr outs1)) by (rewrite Hs; apply saved_train).
  assert (G2 : dd_get "test" saved = Ok (with_output_last te outs2)) by (rewrite Hs; apply saved_test).
  repeat split.
  - exact G1.
  - unfold process_split, read_column. rewrite with_output_last_lookup. cbn [bind].
    apply process_loop_fixed. exact (outputs_fixed _ _ _ _ Ht Hl F1).
  - exact G2.
  - unfold process_split, read_column. rewrite with_output_last_lookup. cbn [bind].
    apply process_loop_fixed. exact (outputs_fixed _ _ _ _ Ht Hl F2).
  - rewrite with_output_last_lookup. discriminate.
  - rewrite with_output_last_lookup. discriminate.
  - exact L1.
  - exact L2.
  - rewrite !with_output_last_again, (dd_set_get _ _ _ G1), (dd_set_get _ _ _ G2). reflexivity.
Qed.

Lemma advance_raise : forall ts bad r, advance ts bad = Raise r -> r = ReError.
Proof.
  intros [|x ts] [|] r H; cbn in H; try discriminate. injection H as <-. reflexivity.
Qed.

Lemma getuntil_gt_raise : forall ts bad name r,
  getuntil_gt ts bad name = Raise r -> r = ReError.
Proof.
  induction ts as [|x ts IH]; intros bad name r H; cbn [getuntil_gt] in H.
  - injection H as <-. reflexivity.
  - destruct (advance ts bad) as [[]|r'] eqn:Ea; cbn [bind] in H;
      [|injection H as <-; exact (advance_raise _ _ _ Ea)].
    destruct x as [c|c]; [destruct (c =? 62)%Z; [destruct name|]|];
      try (injection H as <-; reflexivity); try discriminate; exact (IH _ _ _ H).
Qed.

Ltac raise_cases IH :=
  repeat match goal with
  | |- _ => solve [left; reflexivity | right; reflexivity]
  | H : Raise _ = Raise _ |- _ => injection H as <-
  | H : Ok _ = Raise _ |- _ => discriminate H
  | H : advance _ _ = Raise _ |- _ => left; exact (advance_raise _ _ _ H)
  | H : getuntil_gt _ _ _ = Raise _ |- _ => left; exact (getuntil_gt_raise _ _ _ _ H)
  | H : parse_toks _ _ _ = Raise _ |- _ => exact (IH _ _ _ H)
  | H : cons_items _ _ = Raise _ |- _ => unfold cons_items in H
  | H : bind ?m _ = Raise _ |- _ =>
      let E := fresh "E" in destruct m eqn:E; cbn [bind] in H
  | H : (let '(_, _) := ?p in _) = Raise _ |- _ => destruct p
  | H : (if ?b then _ else _) = Raise _ |- _ => destruct b
  | H : (match ?x with _ => _ end) = Raise _ |- _ => destruct x
  end.

Lemma apply_terms_some_raise : forall L e k r, In (e, k) L -> parse_template k = Raise r ->
  forall t, exists r', apply_terms L t = Raise r'.
Proof.
  induction L as [|[e1 k1] L IH]; intros e k r Hin Hr t; [destruct Hin|].
  cbn [apply_terms]. unfold pattern_sub.
  destruct (parse_template k1) as [items|r1] eqn:E1; cbn [bind].
  - destruct Hin as [Heq | Hin]; [injection Heq as -> ->; congruence|].
    exact (IH _ _ _ Hin Hr _).
  - exists r1. reflexivity.
Qed.

(** A template is refused with [re.error] or, for a group name that is an
    identifier, [IndexError]. *)
Lemma parse_toks_raise : forall fuel ts bad r,
  parse_toks fuel ts bad = Raise r -> r = ReError \/ r = IndexError.
Proof.
  induction fuel as [|fuel IH]; intros ts bad r H; cbn [parse_toks] in H; [discriminate|].
  raise_cases IH.
Qed.

Lemma parse_template_raise : forall k r,
  parse_template k = Raise r -> r = ReError \/ r = IndexError.
Proof.
  intros k r H. unfold parse_template in H. destruct (tokenize k) as [ts bad].
  destruct (advance ts bad) as [[]|r'] eqn:Ea; cbn [bind] in H.
  - exact (parse_toks_raise _ _ _ _ H).
  - injection H as <-. left. exact (advance_raise _ _ _ Ea).
Qed.

Lemma apply_terms_raise : forall L t r,
  apply_terms L t = Raise r
  <-> exists L1 e k L2, L = L1 ++ (e, k) :: L2
       /\ (forall e' k', In (e', k') L1 -> exists items, parse_template k' = Ok items)
       /\ parse_template k = Raise r.
Proof.
  induction L as [|[e k] L IH]; intros t r; cbn [apply_terms].
  - split; [discriminate|]. intros [L1 [e [k [L2 [H _]]]]]. destruct L1; discriminate.
  - unfold pattern_sub. destruct (parse_template k) as [items|r'] eqn:Ep; cbn [bind].
    + rewrite IH. split.
      * intros [L1 [e' [k' [L2 [HL [Hok Hr]]]]]]. exists ((e, k) :: L1), e', k', L2.
        split; [rewrite HL; reflexivity|]. split; [|exact Hr].
        intros e'' k'' [Heq | Hin]; [injection Heq as <- <-; exists items; exact Ep|].
        exact (Hok _ _ Hin).
      * intros [L1 [e' [k' [L2 [HL [Hok Hr]]]]]]. destruct L1 as [|[e1 k1] L1].
        -- injection HL as <- <- _. congruence.
        -- injection HL as <- <- HL. exists L1, e', k', L2.
           split; [exact HL|]. split; [|exact Hr].
           intros e'' k'' Hin. exact (Hok _ _ (or_intror Hin)).
    + split.
      * intro H. injection H as <-. exists [], e, k, L. split; [reflexivity|].
        split; [intros _ _ []|exact Ep].
      * intros [L1 [e' [k' [L2 [HL [Hok Hr]]]]]]. destruct L1 as [|[e1 k1] L1].
        -- injection HL as <- <- _. congruence.
        -- injection HL as <- <- _. destruct (Hok e k (or_introl eq_refl)) as [items Hi].
           congruence.
Qed.

(** X8.  On a non-empty string, [translate_text] raises exactly the
    exception that the first replacement (in the sorted application order)
    which is not a valid template raises, whether or not any source term
    occurs in the text; this exception is [re.error] or [IndexError] (a
    group name that is an identifier, e.g. [\g<a>]).  So it raises exactly
    when some replacement of the table is not a valid template. *)
Theorem translate_text_raises : forall terms c s r,
  (translate_text terms (VStr (c :: s)) = Raise r
   <-> exists L1 e k L2, sort_terms terms = L1 ++ (e, k) :: L2
        /\ (forall e' k', In (e', k') L1 -> exists items, parse_template k' = Ok items)
        /\ parse_template k = Raise r)
  /\ (translate_text terms (VStr (c :: s)) = Raise r -> r = ReError \/ r = IndexError)
  /\ ((exists r', translate_text terms (VStr (c :: s)) = Raise r')
      <-> exists e k r', In (e, k) terms /\ parse_template k = Raise r').
Proof.
  intros terms c s r. rewrite translate_text_cons.
  assert (E : forall r', bind (apply_terms (sort_terms terms) (c :: s)) (fun z => Ok (VStr z))
                         = Raise r' <-> apply_terms (sort_terms terms) (c :: s) = Raise r')
    by (intro r'; destruct (apply_terms (sort_terms terms) (c :: s)); cbn [bind];
        split; intro H; try discriminate; injection H as ->; reflexivity).
  split; [|split].
  - rewrite E. apply apply_terms_raise.
  - rewrite E, apply_terms_raise. intros [L1 [e [k [L2 [_ [_ Hr]]]]]].
    exact (parse_template_raise _ _ Hr).
  - split.
    + intros [r' H]. rewrite E, apply_terms_raise in H.
      destruct H as [L1 [e [k [L2 [HL [_ Hr]]]]]]. exists e, k, r'. split; [|exact Hr].
      apply (sort_terms_in _ _ _). rewrite HL. apply in_or_app. right. left. reflexivity.
    + intros [e [k [r' [Hin Hr]]]].
      assert (Hin' : In (e, k) (sort_terms terms))
        by exact (Permutation_in _ (sort_terms_perm terms) Hin).
      destruct (apply_terms_some_raise _ _ _ _ Hin' Hr (c :: s)) as [r'' H''].
      exists r''. rewrite E. exact H''.
Qed.

Lemma translate_text_raises_witness :
  translate_text [(lit "x", lit "\g<a>")] (VStr (lit "x")) = Raise IndexError.
Proof.
  apply (proj2 (proj1 (translate_text_raises [(lit "x", lit "\g<a>")] 120%Z [] IndexError))).
  exists [], (lit "x"), (lit "\g<a>"), []. split; [reflexivity|]. split; [intros _ _ []|].
  vm_compute. reflexivity.
Defined.

Lemma apply_terms_id_parsed : forall L t,
  (forall e k, In (e, k) L -> (exists items, parse_template k = Ok items) /\ nomatch e None t = true) ->
  apply_terms L t = Ok t.
Proof.
  induction L as [|[e k] L IH]; intros t H; [reflexivity|].
  destruct (H e k (or_introl eq_refl)) as [[items Hp] Hn].
  cbn [apply_terms]. unfold pattern_sub. rewrite Hp. cbn [bind].
  rewrite sub_go_nomatch by exact Hn. apply IH. intros e' k' Hin. apply H. right. exact Hin.
Qed.

(** X9.  When every replacement of the term table is a valid template and
    no source term matches the string anywhere, [translate_text] returns
    the string unchanged. *)
Theorem translate_text_unmatched_identity : forall terms t,
  (forall e k, In (e, k) terms -> (exists items, parse_template k = Ok items) /\ nomatch e None t = true) ->
  translate_text terms (VStr t) = Ok (VStr t).
Proof.
  intros terms [|c t] H; [reflexivity|]. rewrite translate_text_cons.
  rewrite apply_terms_id_parsed; [reflexivity|].
  intros e k Hin. apply H. exact (sort_terms_in _ _ _ Hin).
Qed.

Lemma translate_text_unmatched_identity_witness :
  translate_text [(lit "skin cancer", pibuam); (lit "rash", baljin)]
    (VStr (lit "skin cancers, rashes")) = Ok (VStr (lit "skin cancers, rashes")).
Proof.
  apply translate_text_unmatched_identity.
  intros e k Hin; destruct Hin as [H | [H | []]]; inversion H; subst; split;
    (eexists; vm_compute; reflexivity) || (vm_compute; reflexivity).
Defined.

Lemma nomatch_nil_source : forall q prev, q <> [] -> nomatch q prev [] = true.
Proof.
  intros q prev Hq. cbn [nomatch]. unfold matches_at. rewrite prefix_ci_nil by exact Hq.
  rewrite andb_false_r. reflexivity.
Qed.

(** X10.  Under [term_table_ok], no source term of the table matches
    (as a whole word, ignoring case as [re.IGNORECASE] does) anywhere in a
    string returned by
    [translate_text]. *)
Theorem translate_text_clears_terms : forall terms t y,
  term_table_ok terms = true -> translate_text terms (VStr t) = Ok (VStr y) ->
  forall q, In q (map fst terms) -> nomatch q None y = true.
Proof.
  intros terms [|c s] y Ht H q Hq.
  - injection H as <-. destruct (term_source_ok _ _ Ht Hq) as [Hne _].
    exact (nomatch_nil_source q None Hne).
  - rewrite translate_text_cons in H.
    destruct (apply_terms (sort_terms terms) (c :: s)) as [z|e] eqn:Ea; [|discriminate H].
    cbn [bind] in H. injection H as <-.
    apply (apply_terms_nomatch terms (sort_terms terms) (c :: s) z Ht); try assumption.
    + intros a Ha. destruct a as [e k]. exact (sort_terms_in _ _ _ Ha).
    + right. apply (Permutation_in _ (Permutation_map fst (sort_terms_perm terms))). exact Hq.
Qed.

(** X11.  Under [term_table_ok], [translate_text] returns its own result
    unchanged. *)
Theorem translate_text_idempotent : forall terms v w,
  term_table_ok terms = true -> translate_text terms v = Ok w -> translate_text terms w = Ok w.
Proof.
  intros terms v w Ht H.
  destruct v as [| b | n | [|c s]]; try (injection H as <-; reflexivity).
  rewrite translate_text_cons in H.
  destruct (apply_terms (sort_terms terms) (c :: s)) as [z|e] eqn:Ea; [|discriminate H].
  cbn [bind] in H. injection H as <-. apply translate_text_id; [exact Ht|].
  intros q Hq.
  apply (apply_terms_nomatch terms (sort_terms terms) (c :: s) z Ht); try assumption.
  - intros a Ha. destruct a as [e k]. exact (sort_terms_in _ _ _ Ha).
  - right. apply (Permutation_in _ (Permutation_map fst (sort_terms_perm terms))). exact Hq.
Qed.

Lemma fix_label_str_idem_gen : forall labels z,
  (forall k v, In (k, v) labels -> ~ In 10%Z v /\ ~ In 60%Z v /\ dict_get labels v v = v) ->
  fix_label_str labels (fix_label_str labels z) = fix_label_str labels z.
Proof.
  intros labels z Hl. unfold fix_label_str at 2 3.
  destruct (search_label z) as [A|] eqn:Es.
  - destruct (list_eq_dec Z.eq_dec (dict_get labels A A) A) as [Eq | Neq].
    + rewrite Eq. unfold py_replace. rewrite replace_go_same. cbn [skipn].
      unfold fix_label_str. rewrite Es, Eq. unfold py_replace. rewrite replace_go_same. reflexivity.
    + destruct (dict_get_cases labels A A) as [E | [k Hin]]; [contradiction|].
      destruct (Hl _ _ Hin) as [H10 [H60 Hfix]].
      unfold fix_label_str. rewrite (search_label_replaced _ _ _ Es H10 H60), Hfix.
      unfold py_replace at 1. rewrite replace_go_same. reflexivity.
  - unfold fix_label_str. rewrite Es. reflexivity.
Qed.

(** X12.  When every value of the label map has no newline and no [<]
    and is mapped to itself or not at all, [fix_output_label] returns its
    own result unchanged. *)
Theorem fix_output_label_idempotent : forall labels v w,
  (forall k x, In (k, x) labels -> ~ In 10%Z x /\ ~ In 60%Z x /\ dict_get labels x x = x) ->
  fix_output_label labels v = Ok w -> fix_output_label labels w = Ok w.
Proof.
  intros labels v w Hl H.
  destruct (truthy v) eqn:Tv.
  - destruct v as [| b | n | s]; try discriminate Tv.
    + unfold fix_output_label in H. rewrite Tv in H. discriminate H.
    + unfold fix_output_label in H. rewrite Tv in H. discriminate H.
    + rewrite fix_output_label_str in H. injection H as <-.
      rewrite fix_output_label_str, fix_label_str_idem_gen by exact Hl. reflexivity.
  - unfold fix_output_label in H. rewrite Tv in H. injection H as <-.
    unfold fix_output_label. rewrite Tv. reflexivity.
Qed.

Lemma fix_output_label_idempotent_witness :
  fix_output_label [(lit "Melanoma", lit "melanoma"); (lit "melanoma", lit "melanoma")]
    (VStr (lit "<label>Melanoma</label> or <label>Melanoma</label>"))
  = Ok (VStr (lit "<label>melanoma</label> or <label>melanoma</label>"))
  /\ fix_output_label [(lit "Melanoma", lit "melanoma"); (lit "melanoma", lit "melanoma")]
       (VStr (lit "<label>melanoma</label> or <label>melanoma</label>"))
     = Ok (VStr (lit "<label>melanoma</label> or <label>melanoma</label>")).
Proof.
  assert (H : fix_output_label [(lit "Melanoma", lit "melanoma"); (lit "melanoma", lit "melanoma")]
    (VStr (lit "<label>Melanoma</label> or <label>Melanoma</label>"))
    = Ok (VStr (lit "<label>melanoma</label> or <label>melanoma</label>"))) by (vm_compute; reflexivity).
  split; [exact H|].
  refine (fix_output_label_idempotent _ _ _ _ H).
  intros k x Hin. destruct Hin as [E | [E | []]]; inversion E; subst;
    (split; [vm_compute; intuition discriminate | split; [vm_compute; intuition discriminate | vm_compute; reflexivity]]).
Defined.

Lemma py_replace_span : forall z A B, search_label z = Some A ->
  exists p r, z = p ++ open_tag ++ A ++ close_tag ++ r
    /\ py_replace z (open_tag ++ A ++ close_tag) (open_tag ++ B ++ close_tag)
       = p ++ open_tag ++ B ++ close_tag
           ++ py_replace r (open_tag ++ A ++ close_tag) (open_tag ++ B ++ close_tag).
Proof.
  intros z A B Hs.
  destruct (search_label_some _ _ Hs) as [p [r [[Hz HA] [Hleft _]]]].
  exists p, r. split; [exact Hz|].
  assert (Hne : open_tag ++ A ++ close_tag <> []) by (rewrite open_tag_eq; discriminate).
  unfold py_replace. rewrite Hz.
  replace (open_tag ++ A ++ close_tag ++ r) with ((open_tag ++ A ++ close_tag) ++ r)
    by (rewrite <- !app_assoc; reflexivity).
  rewrite replace_go_prefix_free by
    (exact Hne ||
     (intros p1 p2 Ep Hp2;
      destruct (is_prefix (open_tag ++ A ++ close_tag) (p2 ++ (open_tag ++ A ++ close_tag) ++ r))
        eqn:E; [|reflexivity]; exfalso;
      apply is_prefix_true in E as [w Hw];
      assert (Hsp : label_span z p1 A w)
        by (split; [rewrite Hz, Ep, <- app_assoc; f_equal; rewrite <- !app_assoc in Hw; exact Hw
                   | exact HA]);
      apply Hleft in Hsp; rewrite Ep, length_app in Hsp;
      destruct p2; [contradiction | simpl in Hsp; lia])).
  rewrite replace_go_old by exact Hne. rewrite <- !app_assoc. reflexivity.
Qed.

(** X13.  When [re.search] finds the label [A], the text before the first
    span [<label>A</label>] is kept as it is, that span gets the mapped
    label, and only the text after it is rewritten by the replacement. *)
Theorem fix_output_label_keeps_prefix : forall labels t A,
  search_label t = Some A ->
  exists p r, t = p ++ open_tag ++ A ++ close_tag ++ r
    /\ fix_output_label labels (VStr t)
       = Ok (VStr (p ++ open_tag ++ dict_get labels A A ++ close_tag
                     ++ py_replace r (open_tag ++ A ++ close_tag)
                                     (open_tag ++ dict_get labels A A ++ close_tag))).
Proof.
  intros labels t A Hs.
  destruct (py_replace_span t A (dict_get labels A A) Hs) as [p [r [Ht Hr]]].
  exists p, r. split; [exact Ht|].
  rewrite fix_output_label_str. unfold fix_label_str. rewrite Hs, Hr. reflexivity.
Qed.

Lemma fix_output_label_keeps_prefix_witness :
  search_label (lit "see <label>old</label>; again <label>old</label>.") = Some (lit "old")
  /\ exists p r,
    lit "see <label>old</label>; again <label>old</label>." = p ++ open_tag ++ lit "old" ++ close_tag ++ r
    /\ fix_output_label [(lit "old", lit "new")]
         (VStr (lit "see <label>old</label>; again <label>old</label>."))
       = Ok (VStr (p ++ open_tag ++ lit "new" ++ close_tag
                   ++ py_replace r (open_tag ++ lit "old" ++ close_tag)
                                   (open_tag ++ lit "new" ++ close_tag))).
Proof.
  assert (Hs : search_label (lit "see <label>old</label>; again <label>old</label>.") = Some (lit "old"))
    by (vm_compute; reflexivity).
  split; [exact Hs|].
  exact (fix_output_label_keeps_prefix [(lit "old", lit "new")] _ _ Hs).
Defined.

Lemma process_dataset_counts_witness :
  process_dataset [(lit "skin cancer", pibuam)] [(lit "old", lit "new")]
    [("train"%string, split3); ("test"%string, split3)]
  = Ok ([("train"%string, with_output_last split3 fixed3_output);
         ("test"%string, with_output_last split3 fixed3_output)], (2, 2))
  /\ exists tr te tr' te' before1 after1 before2 after2,
    dd_get "train" [("train"%string, split3); ("test"%string, split3)] = Ok tr
    /\ dd_get "train" [("train"%string, with_output_last split3 fixed3_output);
                       ("test"%string, with_output_last split3 fixed3_output)] = Ok tr'
    /\ col_lookup "output" (columns tr) = Some before1
    /\ col_lookup "output" (columns tr') = Some after1
    /\ 2 = count_changed before1 after1 /\ (2 <= num_rows tr)%nat
    /\ dd_get "test" [("train"%string, split3); ("test"%string, split3)] = Ok te
    /\ dd_get "test" [("train"%string, with_output_last split3 fixed3_output);
                      ("test"%string, with_output_last split3 fixed3_output)] = Ok te'
    /\ col_lookup "output" (columns te) = Some before2
    /\ col_lookup "output" (columns te') = Some after2
    /\ 2 = count_changed before2 after2 /\ (2 <= num_rows te)%nat.
Proof.
  assert (H : process_dataset [(lit "skin cancer", pibuam)] [(lit "old", lit "new")]
    [("train"%string, split3); ("test"%string, split3)]
  = Ok ([("train"%string, with_output_last split3 fixed3_output);
         ("test"%string, with_output_last split3 fixed3_output)], (2, 2))) by (vm_compute; reflexivity).
  split; [exact H|]. exact (process_dataset_counts _ _ _ _ _ _ H).
Defined.

Lemma process_dataset_other_splits_witness :
  exists saved counts,
    process_dataset [(lit "skin cancer", pibuam)] [(lit "old", lit "new")]
      [("train"%string, split3); ("validation"%string, split3); ("test"%string, split3)]
    = Ok (saved, counts)
    /\ map fst saved = ["train"%string; "validation"%string; "test"%string]
    /\ dd_get "validation" saved = Ok split3.
Proof.
  assert (H : exists saved counts,
    process_dataset [(lit "skin cancer", pibuam)] [(lit "old", lit "new")]
      [("train"%string, split3); ("validation"%string, split3); ("test"%string, split3)]
    = Ok (saved, counts)) by (eexists; eexists; vm_compute; reflexivity).
  destruct H as [saved [counts H]]. exists saved, counts. split; [exact H|].
  destruct (process_dataset_other_splits _ _ _ _ _ H) as [Hn Hg].
  split; [exact Hn|]. rewrite Hg by discriminate. reflexivity.
Defined.

Lemma process_dataset_missing_split_witness :
  process_dataset [(lit "skin cancer", pibuam)] [(lit "old", lit "new")]
    [("test"%string, split3)] = Raise KeyError
  /\ process_dataset [(lit "skin cancer", pibuam)] [(lit "old", lit "new")]
    [("train"%string, split3); ("validation"%string, split3)] = Raise KeyError.
Proof.
  split.
  - apply (proj1 (process_dataset_missing_split _ _ _)). cbn. intros [H | []]. discriminate H.
  - apply (proj2 (process_dataset_missing_split _ _ _) split3 (fixed3_output, 2)).
    + reflexivity.
    + vm_compute. reflexivity.
    + cbn. intros [H | [H | []]]; discriminate H.
Defined.

Lemma process_dataset_missing_output_witness :
  process_dataset [(lit "skin cancer", pibuam)] [(lit "old", lit "new")]
    [("train"%string, no_output3); ("test"%string, split3)] = Raise KeyError
  /\ process_dataset [(lit "skin cancer", pibuam)] [(lit "old", lit "new")]
    [("train"%string, empty0); ("test"%string, split3)] = Raise ValueError.
Proof.
  split.
  - apply (proj1 (process_dataset_missing_output _ _ [("train"%string, no_output3); ("test"%string, split3)] no_output3 eq_refl eq_refl)). discriminate.
  - apply (proj2 (process_dataset_missing_output _ _ [("train"%string, empty0); ("test"%string, split3)] empty0 eq_refl eq_refl) split3 (fixed3_output, 2)).
    + reflexivity.
    + reflexivity.
    + vm_compute. reflexivity.
Defined.

Lemma process_dataset_succeeds_witness :
  exists saved n1 n2, process_dataset [(lit "skin cancer", pibuam)] [(lit "old", lit "new")]
    [("train"%string, split3); ("test"%string, split3)] = Ok (saved, (n1, n2)).
Proof.
  apply (process_dataset_succeeds _ _ _ split3 split3
           [VStr (lit "skin cancer found"); VNone; VStr (lit "<label>old</label> ok")]
           [VStr (lit "skin cancer found"); VNone; VStr (lit "<label>old</label> ok")]);
    try reflexivity.
  intros v Hv. destruct Hv as [Hv | Hv]; cbn [In] in Hv;
    (destruct Hv as [<- | [<- | [<- | []]]]; eexists; vm_compute; reflexivity).
Defined.

Lemma process_dataset_rerun_witness :
  term_table_ok [(lit "skin cancer", pibuam); (lit "rash", baljin)] = true
  /\ label_table_ok [(lit "skin cancer", pibuam); (lit "rash", baljin)] [(lit "old", am)] = true
  /\ exists saved,
    process_dataset [(lit "skin cancer", pibuam); (lit "rash", baljin)] [(lit "old", am)]
      [("train"%string, split3); ("test"%string, split3)] = Ok (saved, (2, 2))
    /\ process_dataset [(lit "skin cancer", pibuam); (lit "rash", baljin)] [(lit "old", am)]
         saved = Ok (saved, (0, 0)).
Proof.
  assert (H1 : term_table_ok [(lit "skin cancer", pibuam); (lit "rash", baljin)] = true)
    by (vm_compute; reflexivity).
  assert (H2 : label_table_ok [(lit "skin cancer", pibuam); (lit "rash", baljin)] [(lit "old", am)] = true)
    by (vm_compute; reflexivity).
  assert (H : exists saved,
    process_dataset [(lit "skin cancer", pibuam); (lit "rash", baljin)] [(lit "old", am)]
      [("train"%string, split3); ("test"%string, split3)] = Ok (saved, (2, 2)))
    by (eexists; vm_compute; reflexivity).
  split; [exact H1|]. split; [exact H2|].
  destruct H as [saved H]. exists saved. split; [exact H|].
  exact (process_dataset_rerun _ _ _ _ _ H1 H2 H).
Defined.

Lemma translate_text_clears_terms_witness :
  term_table_ok [(lit "skin cancer", pibuam); (lit "rash", baljin)] = true
  /\ translate_text [(lit "skin cancer", pibuam); (lit "rash", baljin)]
       (VStr (lit "Skin cancer, not a RASH")) = Ok (VStr (pibuam ++ lit ", not a " ++ baljin))
  /\ nomatch (lit "rash") None (pibuam ++ lit ", not a " ++ baljin) = true.
Proof.
  assert (H1 : term_table_ok [(lit "skin cancer", pibuam); (lit "rash", baljin)] = true)
    by (vm_compute; reflexivity).
  assert (H : translate_text [(lit "skin cancer", pibuam); (lit "rash", baljin)]
       (VStr (lit "Skin cancer, not a RASH")) = Ok (VStr (pibuam ++ lit ", not a " ++ baljin)))
    by (vm_compute; reflexivity).
  split; [exact H1|]. split; [exact H|].
  apply (translate_text_clears_terms _ _ _ H1 H). right. left. reflexivity.
Defined.

Lemma translate_text_idempotent_witness :
  term_table_ok [(lit "skin cancer", pibuam); (lit "rash", baljin)] = true
  /\ translate_text [(lit "skin cancer", pibuam); (lit "rash", baljin)]
       (VStr (lit "Skin cancer, not a RASH")) = Ok (VStr (pibuam ++ lit ", not a " ++ baljin))
  /\ translate_text [(lit "skin cancer", pibuam); (lit "rash", baljin)]
       (VStr (pibuam ++ lit ", not a " ++ baljin)) = Ok (VStr (pibuam ++ lit ", not a " ++ baljin)).
Proof.
  assert (H1 : term_table_ok [(lit "skin cancer", pibuam); (lit "rash", baljin)] = true)
    by (vm_compute; reflexivity).
  assert (H : translate_text [(lit "skin cancer", pibuam); (lit "rash", baljin)]
       (VStr (lit "Skin cancer, not a RASH")) = Ok (VStr (pibuam ++ lit ", not a " ++ baljin)))
    by (vm_compute; reflexivity).
  split; [exact H1|]. split; [exact H|].
  exact (translate_text_idempotent _ _ _ H1 H).
Defined.

(** [term_table_ok] rejects [{"k": "a \u212A a"}]: the Kelvin sign U+212A
    matches ["k"] ignoring case, and [translate_text] does rewrite its own
    result for this table. *)
Lemma term_table_ok_kelvin :
  term_table_ok [(lit "k", [97; 32; 8490; 32; 97]%Z)] = false
  /\ translate_text [(lit "k", [97; 32; 8490; 32; 97]%Z)] (VStr (lit "k"))
     = Ok (VStr [97; 32; 8490; 32; 97]%Z)
  /\ translate_text [(lit "k", [97; 32; 8490; 32; 97]%Z)] (VStr [97; 32; 8490; 32; 97]%Z)
     = Ok (VStr [97; 32; 97; 32; 8490; 32; 97; 32; 97]%Z).
Proof. split; [|split]; vm_compute; reflexivity. Qed.
